(** * Nexus News: ingestion-and-caching pipeline

    A shallow embedding of the Node.js back end
    ([news-nexus-node-api/src]): the two upstream clients
    ([newsApi.service.js], [newsApiOrg.service.js]), the normalizers and
    the slot executor of [newsFetchScheduler.service.js], the read service
    [unifiedNews.service.js], the statics of [News.model.js] and the manual
    trigger of [scheduler.controller.js].

    JavaScript values are modelled dynamically (objects are ordered field
    lists), asynchronous methods as computations in a state-and-exception
    monad that also records every log line and every outbound HTTP call.
    MongoDB, Mongoose, axios and the JS [Date] are collaborators of the
    program, not part of it: the collection is a list of documents with the
    documented [updateOne]/[upsert] and [find]/[sort]/[skip]/[limit]
    behaviour, a bulk write casts its operations by the schema before it
    sends them, axios is an oracle held in the state, and date parsing,
    text scoring, the string functions of the setters and the casts of
    mistyped values are fields of the class [Env]. *)

From stdpp Require Import gmap strings list sorting.
From Stdlib Require Import ZArith DecimalString Sorted.

Local Open Scope Z_scope.
Local Set Warnings "-register-all".

(** ** JavaScript values *)

Module Js.

Inductive JsVal : Type :=
| JUndef
| JNull
| JBool (b : bool)
| JNum (n : Z)
| JStr (s : string)
| JDate (t : option Z)            (* [None] is Invalid Date *)
| JArr (xs : list JsVal)
| JObj (fields : list (string * JsVal)).

(** An object is its field list; the first binding of a key is its value. *)
Abbreviation Obj := (list (string * JsVal)).

Definition opt_eqb (x y : option Z) : bool :=
  match x, y with
  | Some a, Some b => a =? b
  | None, None => true
  | _, _ => false
  end.

(** Structural equality, as BSON compares stored values. *)
Fixpoint js_eqb (a b : JsVal) : bool :=
  match a, b with
  | JUndef, JUndef => true
  | JNull, JNull => true
  | JBool x, JBool y => Bool.eqb x y
  | JNum x, JNum y => x =? y
  | JStr x, JStr y => String.eqb x y
  | JDate x, JDate y => opt_eqb x y
  | JArr xs, JArr ys =>
      (fix go (l r : list JsVal) : bool :=
         match l, r with
         | [], [] => true
         | x :: l', y :: r' => js_eqb x y && go l' r'
         | _, _ => false
         end) xs ys
  | JObj fs, JObj gs =>
      (fix go (l r : Obj) : bool :=
         match l, r with
         | [], [] => true
         | (k, x) :: l', (k', y) :: r' =>
             String.eqb k k' && js_eqb x y && go l' r'
         | _, _ => false
         end) fs gs
  | _, _ => false
  end.

(** ToBoolean. *)
Definition truthy (v : JsVal) : bool :=
  match v with
  | JUndef | JNull => false
  | JBool b => b
  | JNum n => negb (n =? 0)
  | JStr s => negb (String.eqb s "")
  | JDate _ | JArr _ | JObj _ => true
  end.

Definition nullish (v : JsVal) : bool :=
  match v with
  | JUndef | JNull => true
  | _ => false
  end.

(** [a || b] and [a ?? b]. *)
Definition jor (a b : JsVal) : JsVal := if truthy a then a else b.
Definition jcoalesce (a b : JsVal) : JsVal := if nullish a then b else a.

Infix "|||" := jor (at level 50, left associativity).

(** [c ? a : b] *)
Definition cond {A} (c : JsVal) (a b : A) : A := if truthy c then a else b.

Fixpoint fget (k : string) (o : Obj) : JsVal :=
  match o with
  | [] => JUndef
  | (k', v) :: o' => if String.eqb k' k then v else fget k o'
  end.

Fixpoint fhas (k : string) (o : Obj) : bool :=
  match o with
  | [] => false
  | (k', _) :: o' => String.eqb k' k || fhas k o'
  end.

(** [o[k] = v] *)
Fixpoint fset (k : string) (v : JsVal) (o : Obj) : Obj :=
  match o with
  | [] => [(k, v)]
  | (k', v') :: o' =>
      if String.eqb k' k then (k, v) :: o' else (k', v') :: fset k v o'
  end.

(** [{...o, ...src}]: every field of [src] written into [o]. *)
Definition assign (src o : Obj) : Obj :=
  fold_right (fun kv acc => fset kv.1 kv.2 acc) o src.

(** Property read [v.k] (own properties; on a primitive it is
    [undefined]). Reads on [null]/[undefined] throw and are guarded where
    they occur. *)
Definition get (v : JsVal) (k : string) : JsVal :=
  match v with
  | JObj o => fget k o
  | _ => JUndef
  end.

(** [v?.k] *)
Definition getopt (v : JsVal) (k : string) : JsVal :=
  if nullish v then JUndef else get v k.

Definition string_of_Z (n : Z) : string := NilZero.string_of_int (Z.to_int n).

Fixpoint join (sep : string) (l : list string) : string :=
  match l with
  | [] => ""
  | [s] => s
  | s :: l' => s +:+ sep +:+ join sep l'
  end.

Section ToString.
(** [Date.prototype.toString], which depends on the host's time zone. *)
Variable Date_toString : option Z -> string.

(** ToString, as a template literal applies it, where it returns a value
    (see [printable] below for where it throws). *)
Fixpoint toString (v : JsVal) : string :=
  match v with
  | JUndef => "undefined"
  | JNull => "null"
  | JBool true => "true"
  | JBool false => "false"
  | JNum n => string_of_Z n
  | JStr s => s
  | JDate t => Date_toString t
  | JArr xs =>
      join "," (map (fun x => if nullish x then "" else toString x) xs)
  | JObj _ => "[object Object]"
  end.

(** [Array.prototype.join]. *)
Definition arrayJoin (sep : string) (xs : list JsVal) : string :=
  join sep (map (fun x => if nullish x then "" else toString x) xs).
End ToString.

(** ToString, ToPropertyKey and the ToPrimitive of [new Date(v)] return for
    every primitive and every date. On an object they call its [toString]:
    the one it inherits returns, but an own property [toString] of a parsed
    JSON value is never callable and the inherited [valueOf] returns the
    object itself, so the conversion throws a TypeError. An array is joined,
    which converts its elements (but for [null] and [undefined]). *)
Fixpoint printable (v : JsVal) : bool :=
  match v with
  | JObj o => negb (fhas "toString" o)
  | JArr xs => forallb printable xs
  | _ => true
  end.

Definition length_of (v : JsVal) : Z :=
  match v with
  | JArr xs => Z.of_nat (length xs)
  | _ => 0
  end.

End Js.
Export Js.

(** ** What the program takes from its host *)

Record ApiConfig := {
  BASE_URL : string;
  API_KEY : string;
  TIMEOUT : Z;
}.

Class Env := {
  (** [new Date(s)] on a string: the host's date parser. *)
  Date_parse : string -> option Z;
  Date_toString : option Z -> string;
  (** MongoDB's [$text] score of a document for a search string, over the
      weighted index [news_text_search] (0: no match). *)
  textScore : string -> Obj -> Z;
  (** [config/newsApi.config.js], [config/newsApiOrg.config.js]. *)
  NEWS_API_CONFIG : ApiConfig;
  NEWS_API_ORG_CONFIG : ApiConfig;
  (** [String.prototype.trim] and [String.prototype.toLowerCase], which the
      setters of the schema apply. *)
  String_trim : string -> string;
  String_toLowerCase : string -> string;
  (** Mongoose's cast of a value that is not of the type of its path (the
      path is given by its name): the value it stores, or [None] for a
      CastError. *)
  castOther : string -> JsVal -> option JsVal;
}.

Definition str `{Env} (v : JsVal) : string := toString Date_toString v.

(** [new Date(v)] *)
Definition newDate `{Env} (v : JsVal) : JsVal :=
  JDate
    match v with
    | JUndef => None
    | JNull => Some 0
    | JBool b => Some (if b then 1 else 0)
    | JNum n => if Z.abs n <=? 8640000000000000 then Some n else None
    | JStr s => Date_parse s
    | JDate t => t
    | JArr _ | JObj _ => Date_parse (str v)
    end.

(** ** Errors, events and the monad of asynchronous methods *)

Definition mkError (name message : string) : JsVal :=
  JObj [("name", JStr name); ("message", JStr message)].

Definition TypeError (message : string) : JsVal := mkError "TypeError" message.

Definition notPrimitive : JsVal :=
  TypeError "Cannot convert object to primitive value".

Inductive Res (A : Type) : Type :=
| Ok (a : A)
| Throw (e : JsVal).
Arguments Ok {A} a.
Arguments Throw {A} e.

(** [`${v}`] *)
Definition template `{Env} (v : JsVal) : Res string :=
  if printable v then Ok (str v) else Throw notPrimitive.

Fixpoint mapRes {A B} (f : A -> Res B) (l : list A) : Res (list B) :=
  match l with
  | [] => Ok []
  | x :: l' =>
      match f x with
      | Throw e => Throw e
      | Ok y =>
          match mapRes f l' with
          | Throw e => Throw e
          | Ok ys => Ok (y :: ys)
          end
      end
  end.

Record Request := {
  url : string;
  params : Obj;
  timeout : option Z;
}.

(** How an axios call can fail: with an error response, with no response
    (network failure, timeout), or before the request was sent. *)
Inductive AxiosError : Type :=
| ErrResponse (status : Z) (data : JsVal)
| ErrRequest
| ErrSetup (message : string).

Definition axiosErrorVal (e : AxiosError) : JsVal :=
  match e with
  | ErrResponse status data =>
      JObj [("message", JStr "Request failed");
            ("request", JObj []);
            ("response", JObj [("status", JNum status); ("data", data)])]
  | ErrRequest =>
      JObj [("message", JStr "Network Error"); ("request", JObj [])]
  | ErrSetup m => JObj [("message", JStr m)]
  end.

Inductive Level := Info | Warn | Error.

Inductive Event : Type :=
| Log (l : Level) (msg : string)
| Http (r : Request).

Definition isHttp (e : Event) : bool :=
  match e with
  | Http _ => true
  | Log _ _ => false
  end.

Record FetchStats := {
  totalFetches : Z;
  successfulFetches : Z;
  failedFetches : Z;
  articlesSaved : Z;
}.

(** The process: the [news_articles] collection and whether MongoDB is
    reachable, the clock, the behaviour of the two providers, and the
    last-fetch times and counters of the [NewsFetchScheduler] singleton
    (its cron jobs are not modelled). A computation reads the clock and
    does not advance it: it is taken at one instant, and the time that
    passes between two computations is a change of [now] between them. *)
Record State := {
  news_articles : list Obj;
  dbUp : bool;
  now : Z;
  axios : Request -> AxiosError + JsVal;
  lastFetchTimes : gmap string JsVal;
  fetchStats : FetchStats;
}.

Definition set_news_articles (d : list Obj) (s : State) : State :=
  {| news_articles := d; dbUp := dbUp s; now := now s; axios := axios s;
     lastFetchTimes := lastFetchTimes s; fetchStats := fetchStats s |}.

Definition set_now (t : Z) (s : State) : State :=
  {| news_articles := news_articles s; dbUp := dbUp s; now := t;
     axios := axios s; lastFetchTimes := lastFetchTimes s;
     fetchStats := fetchStats s |}.

Definition set_lastFetchTimes (m : gmap string JsVal) (s : State) : State :=
  {| news_articles := news_articles s; dbUp := dbUp s; now := now s;
     axios := axios s; lastFetchTimes := m; fetchStats := fetchStats s |}.

Definition set_fetchStats (f : FetchStats) (s : State) : State :=
  {| news_articles := news_articles s; dbUp := dbUp s; now := now s;
     axios := axios s; lastFetchTimes := lastFetchTimes s; fetchStats := f |}.

Definition M (A : Type) : Type := State -> Res A * State * list Event.

Definition ret {A} (a : A) : M A := fun s => (Ok a, s, []).

Definition bind {A B} (m : M A) (f : A -> M B) : M B := fun s =>
  match m s with
  | (Ok a, s', t) =>
      match f a s' with
      | (r, s'', t') => (r, s'', t ++ t')
      end
  | (Throw e, s', t) => (Throw e, s', t)
  end.

Definition throw {A} (e : JsVal) : M A := fun s => (Throw e, s, []).

(** [try { m } catch (e) { h e }] *)
Definition try_catch {A} (m : M A) (h : JsVal -> M A) : M A := fun s =>
  match m s with
  | (Ok a, s', t) => (Ok a, s', t)
  | (Throw e, s', t) =>
      match h e s' with
      | (r, s'', t') => (r, s'', t ++ t')
      end
  end.

Definition lift {A} (r : Res A) : M A := fun s => (r, s, []).
Definition emit (e : Event) : M unit := fun s => (Ok tt, s, [e]).
Definition gets {A} (f : State -> A) : M A := fun s => (Ok (f s), s, []).
Definition modify (f : State -> State) : M unit := fun s => (Ok tt, f s, []).

Notation "x <- m ;; k" := (bind m (fun x => k))
  (at level 100, m at next level, right associativity).
Notation "m ;;; k" := (bind m (fun _ => k))
  (at level 100, right associativity).

Definition result {A} (m : M A) (s : State) : Res A := (m s).1.1.
Definition final {A} (m : M A) (s : State) : State := (m s).1.2.
Definition trace {A} (m : M A) (s : State) : list Event := (m s).2.

Module Logger.
Definition info (msg : string) : M unit := emit (Log Info msg).
Definition warn (msg : string) : M unit := emit (Log Warn msg).
Definition error (msg : string) : M unit := emit (Log Error msg).
End Logger.

(** [await axios.request(config)] / [await axios.get(url, config)]: the
    outbound call is recorded, and resolves to [response.data] or rejects. *)
Definition axios_request (r : Request) : M JsVal :=
  emit (Http r) ;;;
  ax <- gets axios ;;
  match ax r with
  | inr data => ret data
  | inl e => throw (axiosErrorVal e)
  end.

Definition addIf (k : string) (v : JsVal) (o : Obj) : Obj :=
  if truthy v then fset k v o else o.

(** ** Upstream client A: [newsApi.service.js] (NewsData.io) *)

Module NewsApiService.
Section WithEnv.
Context `{Env}.

Definition handleError (error : JsVal) : JsVal :=
  if truthy (get error "response") then
    JObj [("success", JBool false);
          ("message",
            getopt (get (get error "response") "data") "message"
            ||| JStr "API request failed");
          ("status", get (get error "response") "status");
          ("data", get (get error "response") "data")]
  else if truthy (get error "request") then
    JObj [("success", JBool false);
          ("message", JStr "No response from API server");
          ("status", JNum 503)]
  else
    JObj [("success", JBool false);
          ("message", get error "message" ||| JStr "An error occurred");
          ("status", JNum 500)].

Definition getLatestNews (filters : Obj) : M JsVal :=
  try_catch
    (let country := fget "country" filters in
     let language := fget "language" filters in
     let category := fget "category" filters in
     let q := fget "q" filters in
     let page :=
       match fget "page" filters with
       | JUndef => JNum 1
       | p => p
       end in
     let params := [("apikey", JStr (API_KEY NEWS_API_CONFIG))] in
     let params := addIf "country" country params in
     let params := addIf "language" language params in
     let params := addIf "category" category params in
     let params := addIf "q" q params in
     let params := addIf "page" page params in
     data <- axios_request
               {| url := BASE_URL NEWS_API_CONFIG +:+ "/news";
                  params := params; timeout := None |} ;;
     ret (JObj [("success", JBool true); ("data", data)]))
    (fun error => throw (handleError error)).
End WithEnv.
End NewsApiService.

(** ** Upstream client B: [newsApiOrg.service.js] (NewsAPI.org) *)

Module NewsApiOrgService.
Section WithEnv.
Context `{Env}.

(** The value [handleError] throws. *)
Definition handleError (error : JsVal) : JsVal :=
  if truthy (get error "response") then
    let status := get (get error "response") "status" in
    let data := get (get error "response") "data" in
    if nullish data then
      TypeError "Cannot read properties of undefined (reading 'message')"
    else if printable status
            && printable (get data "message" ||| JStr "Unknown error") then
      mkError "Error"
        ("NewsAPI.org API Error (" +:+ str status +:+ "): "
         +:+ str (get data "message" ||| JStr "Unknown error"))
    else notPrimitive
  else if truthy (get error "request") then
    mkError "Error" "NewsAPI.org API Error: No response received from server"
  else if printable (get error "message") then
    mkError "Error"
      ("NewsAPI.org API Error: " +:+ str (get error "message"))
  else notPrimitive.

Definition makeRequest (endpoint : string) (params : Obj) : M JsVal :=
  try_catch
    (axios_request
       {| url := BASE_URL NEWS_API_ORG_CONFIG +:+ endpoint;
          params := fset "apiKey" (JStr (API_KEY NEWS_API_ORG_CONFIG)) params;
          timeout := Some (TIMEOUT NEWS_API_ORG_CONFIG) |})
    (fun error => throw (handleError error)).

Definition getTopHeadlines (filters : Obj) : M JsVal :=
  let params := [] in
  let params := addIf "country" (fget "country" filters) params in
  let params := addIf "category" (fget "category" filters) params in
  let params := addIf "q" (fget "q" filters) params in
  let params := addIf "sources" (fget "sources" filters) params in
  let params := addIf "pageSize" (fget "pageSize" filters) params in
  let params := addIf "page" (fget "page" filters) params in
  makeRequest "/top-headlines" params.
End WithEnv.
End NewsApiOrgService.

(** ** The article store: [db/models/News.model.js]

    A document is the object of its fields. Of the schema, the types of
    the paths with their setters ([trim], [lowercase]), the defaults and
    the timestamps are modelled; the validators ([required], [enum],
    [maxlength], the URL validator) are not, an [updateOne] does not run
    them. *)

Record UpdateOne := {
  op_filter : Obj;
  op_set : Obj;            (* [update: { $set: ... }] *)
  op_upsert : bool;
}.

Record BulkWriteResult := {
  upsertedCount : Z;
  matchedCount : Z;
  modifiedCount : Z;
}.

Record BulkUpsertResult := {
  success : Z;
  upserted : Z;
  modified : Z;
  errors : Z;
}.

Definition numOf (v : JsVal) : Z :=
  match v with
  | JNum n => n
  | _ => 0
  end.

Definition dateOf (v : JsVal) : option Z :=
  match v with
  | JDate t => t
  | _ => None
  end.

Module News.

(** *** Query matching *)

(** A field matches a value when it equals it or is an array holding it. *)
Definition matchEq (fv v : JsVal) : bool :=
  js_eqb fv v
  || match fv with
     | JArr xs => existsb (js_eqb v) xs
     | _ => false
     end.

Definition matchCond (fv c : JsVal) : bool :=
  match c with
  | JObj ops =>
      if fhas "$gte" ops then
        match dateOf fv, dateOf (fget "$gte" ops) with
        | Some a, Some b => b <=? a
        | _, _ => false
        end
      else if fhas "$in" ops then
        match fget "$in" ops with
        | JArr vs => existsb (matchEq fv) vs
        | _ => false
        end
      else matchEq fv c
  | _ => matchEq fv c
  end.

Definition matches (q d : Obj) : bool :=
  forallb (fun kc => matchCond (fget kc.1 d) kc.2) q.

(** *** Sort orders *)

(** Missing and null sort below every date. *)
Definition optLe (x y : option Z) : bool :=
  match x, y with
  | None, _ => true
  | Some _, None => false
  | Some a, Some b => a <=? b
  end.

Definition publishedAt (d : Obj) : option Z := dateOf (fget "publishedAt" d).
Definition fetchedAt (d : Obj) : option Z := dateOf (fget "fetchedAt" d).

(** [sort({ publishedAt: -1 })] *)
Definition newestFirst : relation Obj :=
  fun a b => optLe (publishedAt b) (publishedAt a) = true.

(** [sort({ publishedAt: -1, fetchedAt: -1 })] *)
Definition newestFetchedFirst : relation Obj :=
  fun a b =>
    (if opt_eqb (publishedAt a) (publishedAt b)
     then optLe (fetchedAt b) (fetchedAt a)
     else optLe (publishedAt b) (publishedAt a)) = true.

(** [sort({ score: { $meta: "textScore" }, publishedAt: -1 })] *)
Definition bestFirst : relation Obj :=
  fun a b =>
    (if numOf (fget "score" a) =? numOf (fget "score" b)
     then optLe (publishedAt b) (publishedAt a)
     else numOf (fget "score" b) <=? numOf (fget "score" a)) = true.

(** [sort({ count: -1 })] *)
Definition mostFirst : relation Obj :=
  fun a b => (numOf (fget "count" b) <=? numOf (fget "count" a)) = true.

#[global] Instance newestFirst_dec a b : Decision (newestFirst a b).
Proof. unfold newestFirst. apply _. Defined.
#[global] Instance newestFetchedFirst_dec a b :
  Decision (newestFetchedFirst a b).
Proof. unfold newestFetchedFirst. apply _. Defined.
#[global] Instance bestFirst_dec a b : Decision (bestFirst a b).
Proof. unfold bestFirst. apply _. Defined.
#[global] Instance mostFirst_dec a b : Decision (mostFirst a b).
Proof. unfold mostFirst. apply _. Defined.

(** [.limit(n)]: 0 means no limit, a negative limit its absolute value. *)
Definition limitTo (n : Z) (l : list Obj) : list Obj :=
  if n =? 0 then l else take (Z.to_nat (Z.abs n)) l.

(** The cursor skips before it limits, whatever the order of the calls. *)
Definition page (skip limit : Z) (l : list Obj) : list Obj :=
  limitTo limit (drop (Z.to_nat skip) l).

(** *** Operations on the collection *)

Definition connected : M unit :=
  up <- gets dbUp ;;
  if up then ret tt
  else throw (mkError "MongooseError" "news_articles: not connected").

Definition find (q : Obj) (R : relation Obj)
    `{!forall x y, Decision (R x y)} (limit skip : Z) : M (list Obj) :=
  connected ;;;
  docs <- gets news_articles ;;
  ret (page skip limit (merge_sort R (List.filter (matches q) docs))).

Definition countDocuments (q : Obj) : M Z :=
  connected ;;;
  docs <- gets news_articles ;;
  ret (Z.of_nat (length (List.filter (matches q) docs))).

(** *** Casting by the schema

    Before a [bulkWrite] reaches the store, Mongoose casts the filter and
    the [$set] of every operation by [newsSchema]. It drops the keys the
    schema does not have ([strict], [strictQuery]) and, of a [$set], the
    keys whose value is [undefined]; it applies the setters of a [String]
    path; and it raises a CastError on a value its path cannot take, an
    Invalid Date on a [Date] path among them. *)

Inductive SchemaType : Type :=
| SString (trim lowercase : bool)
| SDate
| SBoolean
| SNumber
| SStrings.                        (* [[String]] *)

(** The paths of [newsSchema] but [source], which is nested.
    [createdAt] and [updatedAt] are not among them: [timestamps] maintains
    them, whatever an update carries. *)
Definition paths : list (string * SchemaType) :=
  [("articleId", SString true false); ("title", SString true false);
   ("description", SString true false); ("content", SString true false);
   ("url", SString true false); ("urlToImage", SString true false);
   ("publishedAt", SDate); ("author", SString true false);
   ("category", SStrings); ("country", SStrings);
   ("language", SString true true); ("keywords", SStrings);
   ("sourceApi", SString false false); ("fetchedAt", SDate);
   ("sentiment", SString false false); ("creator", SStrings);
   ("video_url", SString true false); ("ai_tag", SString true false);
   ("duplicate", SBoolean); ("isDeleted", SBoolean); ("deletedAt", SDate);
   ("schemaVersion", SNumber)].

(** The paths under [source]. *)
Definition sourcePaths : list (string * SchemaType) :=
  [("id", SString true false); ("name", SString true false)].

Fixpoint pathType (ps : list (string * SchemaType)) (k : string)
    : option SchemaType :=
  match ps with
  | [] => None
  | (k', ty) :: ps' => if String.eqb k' k then Some ty else pathType ps' k
  end.

Definition isString (v : JsVal) : bool :=
  match v with
  | JStr _ => true
  | _ => false
  end.

(** What the cast makes of one key of an object. *)
Inductive Cast : Type :=
| Stored (v : JsVal)
| Dropped
| CastError.

(** The cast of a whole object: every key is cast, a CastError on one key
    fails the object. *)
Fixpoint castObject (cast : string -> JsVal -> Cast) (o : Obj) : option Obj :=
  match o with
  | [] => Some []
  | (k, v) :: o' =>
      match cast k v with
      | Stored v' => cons (k, v') <$> castObject cast o'
      | Dropped => castObject cast o'
      | CastError => None
      end
  end.

Section Casting.
Context `{Env}.

(** A setter leaves a falsy value, the empty string, as it is. *)
Definition applySetter (f : string -> string) (s : string) : string :=
  if String.eqb s "" then s else f s.

(** The setters run last declared first: [trim], then [lowercase]. *)
Definition setString (trim lowercase : bool) (s : string) : string :=
  let s := if trim then applySetter String_trim s else s in
  if lowercase then applySetter String_toLowerCase s else s.

(** The cast of a value that is neither [undefined] nor nested. *)
Definition castLeaf (path : string) (ty : SchemaType) (v : JsVal)
    : option JsVal :=
  match ty, v with
  | SString trim lowercase, JStr s => Some (JStr (setString trim lowercase s))
  | SString _ _, JNull => Some JNull
  | SDate, JDate (Some _) => Some v
  | SDate, JDate None => None
  | SDate, JNull => Some JNull
  | SBoolean, JBool _ => Some v
  | SNumber, JNum _ => Some v
  | SStrings, JArr xs => if forallb isString xs then Some v else castOther path v
  | _, _ => castOther path v
  end.

Definition stored (v : option JsVal) : Cast :=
  match v with
  | Some JUndef => Dropped
  | Some v' => Stored v'
  | None => CastError
  end.

Definition castPath (ps : list (string * SchemaType)) (prefix k : string)
    (v : JsVal) : Cast :=
  match pathType ps k with
  | None => Dropped
  | Some ty =>
      match v with
      | JUndef => Dropped
      | _ => stored (castLeaf (prefix +:+ k) ty v)
      end
  end.

Definition castSource (v : JsVal) : Cast :=
  match v with
  | JUndef => Dropped
  | JObj fields =>
      match castObject (castPath sourcePaths "source.") fields with
      | Some fields' => Stored (JObj fields')
      | None => CastError
      end
  | _ => stored (castOther "source" v)
  end.

(** [castUpdate] on a [$set]. *)
Definition castSet (k : string) (v : JsVal) : Cast :=
  if String.eqb k "source" then castSource v else castPath paths "" k v.

Definition castUpdate (update : Obj) : option Obj := castObject castSet update.

(** [cast] on a filter: a key whose value is [null] or [undefined] stays
    as it is, the setters run on the others as they do on a [$set]. *)
Definition castQuery (k : string) (v : JsVal) : Cast :=
  if nullish v then
    if String.eqb k "source" then Stored v
    else match pathType paths k with
         | Some _ => Stored v
         | None => Dropped
         end
  else castSet k v.

Definition castFilter (filter : Obj) : option Obj := castObject castQuery filter.
End Casting.

(** Defaults of [newsSchema], set on the document an upsert inserts. *)
Definition schemaDefaults (t : Z) : Obj :=
  [("description", JStr ""); ("content", JStr ""); ("urlToImage", JNull);
   ("source", JObj [("id", JNull)]); ("author", JNull);
   ("category", JArr []); ("country", JArr []); ("language", JStr "en");
   ("keywords", JArr []); ("fetchedAt", JDate (Some t));
   ("sentiment", JNull); ("creator", JArr []); ("video_url", JNull);
   ("ai_tag", JNull); ("duplicate", JBool false);
   ("isDeleted", JBool false); ("deletedAt", JNull);
   ("schemaVersion", JNum 1);
   ("createdAt", JDate (Some t)); ("updatedAt", JDate (Some t))].

(** [$set], as it was cast, on a matched document; [timestamps: true] bumps
    [updatedAt]. *)
Definition updateDoc (upd : Obj) (t : Z) (d : Obj) : Obj :=
  fset "updatedAt" (JDate (Some t)) (assign upd d).

(** The document an upsert inserts: the defaults, the equality fields of
    the filter, then the [$set] fields, filter and [$set] as they were
    cast. *)
Definition insertDoc (flt upd : Obj) (t : Z) : Obj :=
  assign upd (assign flt (schemaDefaults t)).

(** [updateOne] updates the first document the filter matches. *)
Fixpoint updateFirst (flt upd : Obj) (t : Z) (docs : list Obj)
    : option (list Obj * bool) :=
  match docs with
  | [] => None
  | d :: ds =>
      if matches flt d then
        Some (updateDoc upd t d :: ds,
              negb (js_eqb (JObj d) (JObj (updateDoc upd t d))))
      else
        match updateFirst flt upd t ds with
        | Some (ds', m) => Some (d :: ds', m)
        | None => None
        end
  end.

Definition noWrites : BulkWriteResult :=
  {| upsertedCount := 0; matchedCount := 0; modifiedCount := 0 |}.

Definition applyOp (t : Z) (acc : list Obj * BulkWriteResult)
    (op : UpdateOne) : list Obj * BulkWriteResult :=
  match updateFirst (op_filter op) (op_set op) t acc.1 with
  | Some (docs', m) =>
      (docs',
       {| upsertedCount := upsertedCount acc.2;
          matchedCount := matchedCount acc.2 + 1;
          modifiedCount := modifiedCount acc.2 + (if m then 1 else 0) |})
  | None =>
      if op_upsert op then
        (acc.1 ++ [insertDoc (op_filter op) (op_set op) t],
         {| upsertedCount := upsertedCount acc.2 + 1;
            matchedCount := matchedCount acc.2;
            modifiedCount := modifiedCount acc.2 |})
      else acc
  end.

(** One operation, cast: [None] when its filter or its [$set] raises a
    CastError. *)
Definition castOp `{Env} (op : UpdateOne) : option UpdateOne :=
  match castFilter (op_filter op), castUpdate (op_set op) with
  | Some filter, Some update =>
      Some {| op_filter := filter; op_set := update;
              op_upsert := op_upsert op |}
  | _, _ => None
  end.

(** [bulkWrite(ops, { ordered: false })]. The operations that fail the
    cast are left out; when none is left, the call resolves to the empty
    result without asking the store. Otherwise the others are sent, and
    nothing is written when the store cannot be reached. *)
Definition bulkWrite `{Env} (ops : list UpdateOne) : M BulkWriteResult :=
  let validOps := omap castOp ops in
  if (length validOps =? 0)%nat then ret noWrites
  else
    connected ;;;
    docs <- gets news_articles ;;
    t <- gets now ;;
    modify
      (set_news_articles (fold_left (applyOp t) validOps (docs, noWrites)).1) ;;;
    ret (fold_left (applyOp t) validOps (docs, noWrites)).2.

(** *** Statics *)

(** [const { limit = 20, skip = 0, lean = true } = options], of a parameter
    [options = {}]: [undefined] is replaced by the default, [null] cannot be
    destructured. *)
Definition destructure (options : JsVal) : M unit :=
  match options with
  | JNull =>
      throw (TypeError
               "Cannot destructure property 'limit' of 'options' as it is null")
  | _ => ret tt
  end.

(** The number a destructured key is bound to. *)
Definition optNum (k : string) (default : Z) (options : JsVal) : Z :=
  match get options k with
  | JNum n => n
  | _ => default
  end.

Definition notDeleted : Obj :=
  [("isDeleted", JBool false); ("duplicate", JBool false)].

Definition findRecent (hours : Z) (options : JsVal) : M (list Obj) :=
  destructure options ;;;
  t <- gets now ;;
  find (("publishedAt",
          JObj [("$gte", JDate (Some (t - hours * 60 * 60 * 1000)))])
        :: notDeleted)
    newestFirst (optNum "limit" 20 options) (optNum "skip" 0 options).




Definition searchArticles `{Env} (searchQuery : string) (options : JsVal)
    : M (list Obj) :=
  destructure options ;;;
  connected ;;;
  docs <- gets news_articles ;;
  ret (page (optNum "skip" 0 options) (optNum "limit" 20 options)
         (merge_sort bestFirst
            (map (fun d => fset "score" (JNum (textScore searchQuery d)) d)
               (List.filter
                  (fun d => (0 <? textScore searchQuery d)
                            && matches notDeleted d)
                  docs)))).

Definition countByFilters (filters : Obj) : M Z :=
  countDocuments (assign notDeleted filters).

Definition upsertOp (article : Obj) : UpdateOne :=
  {| op_filter := [("articleId", fget "articleId" article)];
     op_set := article;
     op_upsert := true |}.

Definition bulkUpsert `{Env} (articles : list Obj) : M BulkUpsertResult :=
  if (length articles =? 0)%nat then
    ret {| success := 0; upserted := 0; modified := 0; errors := 0 |}
  else
    let bulkOps := map upsertOp articles in
    try_catch
      (result <- bulkWrite bulkOps ;;
       ret {| success := upsertedCount result + modifiedCount result;
              upserted := upsertedCount result;
              modified := modifiedCount result;
              errors := 0 |})
      (fun error =>
         if truthy (get error "writeErrors") then
           ret {| success := numOf (get (get error "result") "nUpserted")
                             + numOf (get (get error "result") "nModified");
                  upserted := numOf (get (get error "result") "nUpserted");
                  modified := numOf (get (get error "result") "nModified");
                  errors := length_of (get error "writeErrors") |}
         else throw error).
End News.

(** ** [config/fetchSchedule.config.js] *)

Record Schedule := {
  time : string;
  description : string;
  newsDataConfig : list Obj;
  newsApiConfig : list Obj;
}.

Definition nd (category country : string) : Obj :=
  [("category", JStr category); ("country", JStr country);
   ("language", JStr "en")].
Definition nd_any (category : string) : Obj :=
  [("category", JStr category); ("language", JStr "en")].
Definition na (country category : string) : Obj :=
  [("country", JStr country); ("category", JStr category);
   ("pageSize", JNum 100)].
Definition na_top (country : string) : Obj :=
  [("country", JStr country); ("pageSize", JNum 100)].

Definition EARLY_MORNING : Schedule :=
  {| time := "0 6 * * *";
     description := "Early morning fetch - General & Breaking news";
     newsDataConfig :=
       [nd "top" "in"; nd "breaking" "in"; nd "top" "us"; nd "breaking" "us";
        nd_any "world"];
     newsApiConfig := [na_top "in"; na_top "us"] |}.

Definition MORNING : Schedule :=
  {| time := "0 9 * * *";
     description := "Morning fetch - Business & Technology news";
     newsDataConfig :=
       [nd "business" "in"; nd "technology" "in"; nd "business" "us";
        nd "technology" "us"];
     newsApiConfig :=
       [na "in" "business"; na "in" "technology"; na "us" "business";
        na "us" "technology"] |}.

Definition AFTERNOON : Schedule :=
  {| time := "0 13 * * *";
     description := "Afternoon fetch - Entertainment & Sports";
     newsDataConfig :=
       [nd "entertainment" "in"; nd "entertainment" "us"; nd "sports" "us";
        nd "sports" "in"];
     newsApiConfig :=
       [na "in" "entertainment"; na "in" "sports"; na "us" "entertainment";
        na "us" "sports"] |}.

Definition EVENING : Schedule :=
  {| time := "0 18 * * *";
     description := "Evening fetch - Health & Science news";
     newsDataConfig :=
       [nd "health" "in"; nd "health" "us"; nd "science" "us";
        nd "science" "in"; nd "politics" "in"; nd "politics" "us"];
     newsApiConfig :=
       [na "in" "health"; na "us" "health"; na "in" "science";
        na "us" "science"] |}.

Definition NIGHT : Schedule :=
  {| time := "0 22 * * *";
     description := "Night fetch - Latest updates & Politics";
     newsDataConfig :=
       [nd_any "top"; nd "politics" "us"; nd "technology" "in";
        nd "politics" "in"; nd "technology" "us"];
     newsApiConfig := [na_top "in"; na_top "us"] |}.

Definition FETCH_SCHEDULE : gmap string Schedule :=
  list_to_map
    [("EARLY_MORNING", EARLY_MORNING); ("MORNING", MORNING);
     ("AFTERNOON", AFTERNOON); ("EVENING", EVENING); ("NIGHT", NIGHT)].

(** ** The normalizers

    [NewsFetchScheduler] and [UnifiedNewsService] carry the same text of
    both methods. *)

Section Normalizers.
Context `{Env}.

(** [article.creator?.join(", ")] *)
Definition creatorJoin (creator : JsVal) : Res JsVal :=
  if nullish creator then Ok JUndef
  else
    match creator with
    | JArr xs =>
        if printable creator then Ok (JStr (arrayJoin Date_toString ", " xs))
        else Throw notPrimitive
    | _ => Throw (TypeError "article.creator?.join is not a function")
    end.

Definition normalizeNewsDataArticle (article : JsVal) : Res Obj :=
  if nullish article then
    Throw (TypeError "Cannot read properties of undefined")
  else if negb (printable (get article "article_id" ||| get article "link")
                && printable (get article "pubDate")) then
    Throw notPrimitive
  else
    match creatorJoin (get article "creator") with
    | Throw e => Throw e
    | Ok joined =>
        Ok [("articleId",
              JStr ("newsdata_"
                    +:+ str (get article "article_id" ||| get article "link")));
            ("title", get article "title");
            ("description", get article "description" ||| JStr "");
            ("content", get article "content" ||| JStr "");
            ("url", get article "link");
            ("urlToImage", get article "image_url" ||| JNull);
            ("publishedAt", newDate (get article "pubDate"));
            ("source",
              JObj [("id", get article "source_id" ||| JNull);
                    ("name",
                      get article "source_name" ||| get article "source_id"
                      ||| JStr "Unknown")]);
            ("author", joined ||| JNull);
            ("category", get article "category" ||| JArr []);
            ("country", get article "country" ||| JArr []);
            ("language", get article "language" ||| JStr "en");
            ("keywords", get article "keywords" ||| JArr []);
            ("sourceApi", JStr "newsdata.io");
            ("sentiment", get article "sentiment" ||| JNull);
            ("creator", get article "creator" ||| JArr []);
            ("video_url", get article "video_url" ||| JNull);
            ("ai_tag", get article "ai_tag" ||| JNull);
            ("duplicate", get article "duplicate" ||| JBool false)]
    end.

Definition normalizeNewsApiOrgArticle (article category country : JsVal)
    : Res Obj :=
  let category := match category with JUndef => JArr [] | _ => category end in
  let country := match country with JUndef => JArr [] | _ => country end in
  if nullish article then
    Throw (TypeError "Cannot read properties of undefined")
  else if negb (printable (get article "url")
                && printable (get article "publishedAt")) then
    Throw notPrimitive
  else
    Ok [("articleId", JStr ("newsapi_" +:+ str (get article "url")));
        ("title", get article "title");
        ("description", get article "description" ||| JStr "");
        ("content", get article "content" ||| JStr "");
        ("url", get article "url");
        ("urlToImage", get article "urlToImage" ||| JNull);
        ("publishedAt", newDate (get article "publishedAt"));
        ("source",
          JObj [("id", getopt (get article "source") "id" ||| JNull);
                ("name",
                  getopt (get article "source") "name" ||| JStr "Unknown")]);
        ("author", get article "author" ||| JNull);
        ("category", category);
        ("country", country);
        ("language", JStr "en");
        ("keywords", JArr []);
        ("sourceApi", JStr "newsapi.org")].

(** [v.map(f)] *)
Definition arrayMap (f : JsVal -> Res Obj) (v : JsVal) : Res (list Obj) :=
  match v with
  | JArr xs => mapRes f xs
  | _ => Throw (TypeError "map is not a function")
  end.
End Normalizers.

(** ** The ingestion scheduler: [newsFetchScheduler.service.js] *)

Record SaveResult := {
  saved : Z;
  updated : Z;
}.

Definition bump_total (f : FetchStats) : FetchStats :=
  {| totalFetches := totalFetches f + 1;
     successfulFetches := successfulFetches f;
     failedFetches := failedFetches f;
     articlesSaved := articlesSaved f |}.

Definition bump_successful (f : FetchStats) : FetchStats :=
  {| totalFetches := totalFetches f;
     successfulFetches := successfulFetches f + 1;
     failedFetches := failedFetches f;
     articlesSaved := articlesSaved f |}.

Definition bump_failed (f : FetchStats) : FetchStats :=
  {| totalFetches := totalFetches f;
     successfulFetches := successfulFetches f;
     failedFetches := failedFetches f + 1;
     articlesSaved := articlesSaved f |}.

Definition add_saved (n : Z) (f : FetchStats) : FetchStats :=
  {| totalFetches := totalFetches f;
     successfulFetches := successfulFetches f;
     failedFetches := failedFetches f;
     articlesSaved := articlesSaved f + n |}.

Definition modify_stats (g : FetchStats -> FetchStats) : M unit :=
  modify (fun s => set_fetchStats (g (fetchStats s)) s).

Module NewsFetchScheduler.
Section WithEnv.
Context `{Env}.

Definition initialLastFetchTimes : gmap string JsVal :=
  list_to_map
    [("EARLY_MORNING", JNull); ("MORNING", JNull); ("AFTERNOON", JNull);
     ("EVENING", JNull); ("NIGHT", JNull)].

Definition initialFetchStats : FetchStats :=
  {| totalFetches := 0; successfulFetches := 0; failedFetches := 0;
     articlesSaved := 0 |}.

Definition saveArticlesToDB (articles : list Obj) : M SaveResult :=
  try_catch
    (if (length articles =? 0)%nat then ret {| saved := 0; updated := 0 |}
     else
       let bulkOps := map News.upsertOp articles in
       result <- News.bulkWrite bulkOps ;;
       ret {| saved := upsertedCount result;
              updated := modifiedCount result |})
    (fun error =>
       Logger.error "Error saving articles to database" ;;;
       throw error).

Definition fetchFromNewsData (config : Obj) : M (list Obj) :=
  try_catch
    (result <- NewsApiService.getLatestNews config ;;
     if truthy (getopt result "results") then
       lift (arrayMap normalizeNewsDataArticle (get result "results"))
     else ret [])
    (fun error => Logger.error "NewsData.io fetch failed" ;;; ret []).

Definition fetchFromNewsApiOrg (config : Obj) : M (list Obj) :=
  try_catch
    (result <- NewsApiOrgService.getTopHeadlines config ;;
     if truthy (getopt result "articles") then
       lift (arrayMap
               (fun article =>
                  normalizeNewsApiOrgArticle article
                    (cond (fget "category" config)
                       (JArr [fget "category" config]) (JArr []))
                    (cond (fget "country" config)
                       (JArr [fget "country" config]) (JArr [])))
               (get result "articles"))
     else ret [])
    (fun error => Logger.error "NewsAPI.org fetch failed" ;;; ret []).

(** [for (const config of configs) { ...; allArticles.push(...articles) }] *)
Fixpoint fetchEach (fetch : Obj -> M (list Obj)) (done : string)
    (configs : list Obj) (allArticles : list Obj) : M (list Obj) :=
  match configs with
  | [] => ret allArticles
  | config :: rest =>
      articles <- fetch config ;;
      Logger.info done ;;;
      fetchEach fetch done rest (allArticles ++ articles)
  end.

(** [FETCH_SCHEDULE[name]]: a configured slot, a member every object
    inherits from [Object.prototype] (truthy, and without
    [newsDataConfig]), or [undefined]. *)
Inductive Lookup : Type :=
| Configured (schedule : Schedule)
| Inherited
| Absent.

Definition inheritedNames : list string :=
  ["constructor"; "__defineGetter__"; "__defineSetter__"; "hasOwnProperty";
   "__lookupGetter__"; "__lookupSetter__"; "isPrototypeOf";
   "propertyIsEnumerable"; "toString"; "valueOf"; "__proto__";
   "toLocaleString"].

Definition lookupSchedule (name : string) : Lookup :=
  match FETCH_SCHEDULE !! name with
  | Some schedule => Configured schedule
  | None =>
      if existsb (String.eqb name) inheritedNames then Inherited else Absent
  end.

(** The body of the [try] block for a configured slot. *)
Definition fetchAndSave (scheduleName : JsVal) (schedule : Schedule)
    : M unit :=
  Logger.info "Fetching from NewsData.io" ;;;
  allArticles <- fetchEach fetchFromNewsData "NewsData.io fetch complete"
                   (newsDataConfig schedule) [] ;;
  Logger.info "Fetching from NewsAPI.org" ;;;
  allArticles <- fetchEach fetchFromNewsApiOrg "NewsAPI.org fetch complete"
                   (newsApiConfig schedule) allArticles ;;
  if (0 <? length allArticles)%nat then
    saveResult <- saveArticlesToDB allArticles ;;
    Logger.info ("Scheduled fetch completed: " +:+ str scheduleName) ;;;
    modify_stats bump_total ;;;
    modify_stats bump_successful ;;;
    modify_stats (add_saved (saved saveResult)) ;;;
    t <- gets now ;;
    modify (fun s =>
      set_lastFetchTimes
        (<[str scheduleName := JDate (Some t)]> (lastFetchTimes s)) s)
  else
    Logger.warn ("No articles fetched for " +:+ str scheduleName) ;;;
    modify_stats bump_total.

Definition executeScheduledFetch (scheduleName : JsVal) : M unit :=
  name <- lift (template scheduleName) ;;
  match lookupSchedule name with
  | Absent => Logger.error "Invalid schedule name"
  | found =>
      Logger.info ("Starting scheduled fetch: " +:+ str scheduleName) ;;;
      try_catch
        match found with
        | Configured schedule => fetchAndSave scheduleName schedule
        | _ =>
            throw (TypeError
                     "Cannot read properties of undefined (reading 'length')")
        end
        (fun error =>
           Logger.error ("Scheduled fetch failed: " +:+ str scheduleName) ;;;
           modify_stats bump_total ;;;
           modify_stats bump_failed)
  end.

Definition triggerManualFetch (scheduleName : JsVal) : M unit :=
  let scheduleName :=
    match scheduleName with
    | JUndef => JStr "MORNING"
    | _ => scheduleName
    end in
  name <- lift (template scheduleName) ;;
  Logger.info ("Manual fetch triggered: " +:+ name) ;;;
  executeScheduledFetch scheduleName.
End WithEnv.
End NewsFetchScheduler.

(** ** The read service: [unifiedNews.service.js] *)

Module UnifiedNewsService.
Section WithEnv.
Context `{Env}.

Definition cacheExpiryMinutes : Z := 30.

Definition hasFreshCache (filters : Obj) : M bool :=
  try_catch
    (t <- gets now ;;
     let query :=
       [("fetchedAt",
          JObj [("$gte", JDate (Some (t - cacheExpiryMinutes * 60 * 1000)))])] in
     let query := addIf "category" (fget "category" filters) query in
     let query := addIf "country" (fget "country" filters) query in
     let query := addIf "language" (fget "language" filters) query in
     count <- News.countDocuments query ;;
     ret (0 <? count))
    (fun error => Logger.error "Error checking cache" ;;; ret false).

(** [Math.ceil(total / limit)]; every caller leaves [limit] at 50. *)
Definition ceilDiv (total limit : Z) : Z := (total + limit - 1) / limit.

Definition articlesOf (l : list Obj) : JsVal := JArr (map JObj l).

Definition filterQuery (filters : Obj) : Obj :=
  let query := [] in
  let query := addIf "category" (fget "category" filters) query in
  let query := addIf "country" (fget "country" filters) query in
  let query := addIf "language" (fget "language" filters) query in
  query.

Definition getNewsFromDB (filters : Obj) (limit page : Z) : M Obj :=
  try_catch
    (let query := filterQuery filters in
     let skip := (page - 1) * limit in
     articles <- News.find query News.newestFirst limit skip ;;
     total <- News.countDocuments query ;;
     ret [("success", JBool true);
          ("totalResults", JNum total);
          ("articles", articlesOf articles);
          ("page", JNum page);
          ("totalPages", JNum (ceilDiv total limit));
          ("source", JStr "database")])
    (fun error =>
       Logger.error "Error fetching news from database" ;;;
       throw error).

Definition getLatestNews (filters : Obj) : M Obj :=
  try_catch
    (Logger.info "Fetching latest news from database" ;;;
     getNewsFromDB filters 50 1)
    (fun error => Logger.error "Error fetching latest news" ;;; throw error).

Definition searchNews (query : string) (filters : Obj) : M Obj :=
  try_catch
    (Logger.info "Searching news in database" ;;;
     dbResults <- News.searchArticles query (JNum 100) ;;
     ret [("success", JBool true);
          ("totalResults", JNum (Z.of_nat (length dbResults)));
          ("articles", articlesOf dbResults);
          ("source", JStr "database")])
    (fun error => Logger.error "Error searching news" ;;; throw error).

Definition getNewsByCategory (category : JsVal) (filters : Obj) : M Obj :=
  getLatestNews (fset "category" category filters).

(** The pipeline [$match], [$group] by [source.id], [$sort] by count. *)
Definition sourceId (d : Obj) : JsVal :=
  let v := get (fget "source" d) "id" in if nullish v then JNull else v.

Fixpoint countInto (d : Obj) (groups : list Obj) : list Obj :=
  match groups with
  | [] =>
      [[("_id", sourceId d); ("id", get (fget "source" d) "id");
        ("name", get (fget "source" d) "name"); ("count", JNum 1)]]
  | g :: rest =>
      if js_eqb (fget "_id" g) (sourceId d)
      then fset "count" (JNum (numOf (fget "count" g) + 1)) g :: rest
      else g :: countInto d rest
  end.

Definition aggregateSources (query : Obj) : M (list Obj) :=
  News.connected ;;;
  docs <- gets news_articles ;;
  ret (merge_sort News.mostFirst
         (fold_left (fun groups d => countInto d groups)
            (List.filter (News.matches query) docs) [])).

Definition getSources (filters : Obj) : M Obj :=
  try_catch
    (Logger.info "Fetching sources from database" ;;;
     let query := [] in
     let query := addIf "country" (fget "country" filters) query in
     let query := addIf "language" (fget "language" filters) query in
     let query := addIf "category" (fget "category" filters) query in
     sources <- aggregateSources query ;;
     ret [("success", JBool true);
          ("totalResults", JNum (Z.of_nat (length sources)));
          ("sources",
            JArr (map (fun s => JObj [("id", fget "id" s);
                                      ("name", fget "name" s);
                                      ("articleCount", fget "count" s)])
                    sources))])
    (fun error => Logger.error "Error fetching sources" ;;; throw error).

Definition getTrendingNews (limit : Z) : M Obj :=
  try_catch
    (articles <- News.find [] News.newestFetchedFirst limit 0 ;;
     ret [("success", JBool true);
          ("totalResults", JNum (Z.of_nat (length articles)));
          ("articles", articlesOf articles);
          ("source", JStr "database")])
    (fun error => Logger.error "Error fetching trending news" ;;; throw error).

Definition getStats : M Obj :=
  try_catch
    (total <- News.countDocuments [] ;;
     newsDataCount <- News.countDocuments [("sourceApi", JStr "newsdata.io")] ;;
     newsApiOrgCount <- News.countDocuments [("sourceApi", JStr "newsapi.org")] ;;
     t <- gets now ;;
     recentCount <-
       News.countDocuments
         [("fetchedAt",
            JObj [("$gte", JDate (Some (t - 24 * 60 * 60 * 1000)))])] ;;
     ret [("total", JNum total);
          ("bySource",
            JObj [("newsDataIo", JNum newsDataCount);
                  ("newsApiOrg", JNum newsApiOrgCount)]);
          ("recentArticles", JNum recentCount)])
    (fun error => Logger.error "Error getting stats" ;;; throw error).
Definition saveArticlesToDB (articles : list Obj) : M Obj :=
  try_catch
    (if (length articles =? 0)%nat then
       ret [("saved", JNum 0); ("skipped", JNum 0)]
     else
       let bulkOps := map News.upsertOp articles in
       result <- News.bulkWrite bulkOps ;;
       Logger.info "Articles saved to database" ;;;
       ret [("saved", JNum (upsertedCount result));
            ("updated", JNum (modifiedCount result));
            ("skipped",
              JNum (Z.of_nat (length articles) - upsertedCount result
                    - modifiedCount result))])
    (fun error =>
       Logger.error "Error saving articles to database" ;;;
       throw error).

(** One branch of [Promise.allSettled]. *)
Definition settle (m : M JsVal) : M (Res JsVal) :=
  try_catch (v <- m ;; ret (Ok v)) (fun reason => ret (Throw reason)).

Definition fulfilledField (r : Res JsVal) (k : string) : JsVal :=
  match r with
  | Ok value => getopt value k
  | Throw _ => JBool false
  end.

(** The write path outside the slot system ([POST /api/news/refresh]). *)
Definition refreshCache (filters : Obj) : M Obj :=
  try_catch
    (Logger.info "Refreshing news cache" ;;;
     newsDataResult <- settle (NewsApiService.getLatestNews filters) ;;
     newsApiOrgResult <-
       settle (NewsApiOrgService.getTopHeadlines
                 [("country", fget "country" filters);
                  ("category", fget "category" filters);
                  ("pageSize", JNum 100)]) ;;
     fromNewsData <-
       (if truthy (fulfilledField newsDataResult "results") then
          lift (arrayMap normalizeNewsDataArticle
                  (fulfilledField newsDataResult "results"))
        else ret []) ;;
     fromNewsApiOrg <-
       (if truthy (fulfilledField newsApiOrgResult "articles") then
          lift (arrayMap
                  (fun article =>
                     normalizeNewsApiOrgArticle article
                       (cond (fget "category" filters)
                          (JArr [fget "category" filters]) (JArr []))
                       (cond (fget "country" filters)
                          (JArr [fget "country" filters]) (JArr [])))
                  (fulfilledField newsApiOrgResult "articles"))
        else ret []) ;;
     let normalizedArticles := fromNewsData ++ fromNewsApiOrg in
     if (0 <? length normalizedArticles)%nat then
       result <- saveArticlesToDB normalizedArticles ;;
       Logger.info "Cache refreshed successfully" ;;;
       ret result
     else ret [("saved", JNum 0); ("updated", JNum 0); ("skipped", JNum 0)])
    (fun error => Logger.error "Error refreshing cache" ;;; throw error).
End WithEnv.
End UnifiedNewsService.

(** ** The manual trigger: [scheduler.controller.js], [utils/responseHandler.js] *)

Record Response := {
  statusCode : Z;
  body : Obj;
}.

Definition sendSuccessResponse (data : JsVal) (message : string)
    (status : Z) : M Response :=
  t <- gets now ;;
  ret {| statusCode := status;
         body := [("success", JBool true); ("message", JStr message);
                  ("data", data); ("timestamp", JDate (Some t))] |}.

Definition sendErrorResponse (message : JsVal) (status : Z) : M Response :=
  t <- gets now ;;
  ret {| statusCode := status;
         body := [("success", JBool false);
                  ("message",
                    match message with
                    | JUndef => JStr "Error"
                    | _ => message
                    end);
                  ("timestamp", JDate (Some t))] |}.

Module SchedulerController.
Section WithEnv.
Context `{Env}.

(** The fetch is started and not awaited: its rejection is only logged and
    the answer does not depend on how it ends. *)
Definition triggerManualFetch (req : JsVal) : M Response :=
  try_catch
    (if nullish (get req "body") then
       throw (TypeError "Cannot destructure property 'schedule'")
     else
       let schedule := get (get req "body") "schedule" in
       if negb (truthy schedule) then
         sendErrorResponse
           (JStr "Schedule name is required (MORNING, AFTERNOON, EVENING, NIGHT, EARLY_MORNING)")
           400
       else
         Logger.info "Triggering manual fetch" ;;;
         try_catch (NewsFetchScheduler.triggerManualFetch schedule)
           (fun error => Logger.error "Manual fetch failed") ;;;
         name <- lift (template schedule) ;;
         sendSuccessResponse
           (JObj [("schedule", schedule); ("status", JStr "triggered")])
           ("Manual fetch for " +:+ name +:+ " has been triggered")
           202)
    (fun error =>
       Logger.error "Error triggering manual fetch" ;;;
       sendErrorResponse (get error "message") 500).
End WithEnv.
End SchedulerController.

(** * Vocabulary of the statements *)

(** The outcome of a computation without its trace. *)
Definition run {A} (m : M A) (s : State) : Res A * State := (m s).1.

(** The key as the specification words it:
    [providerTag + "_" + (providerNativeId ?? canonicalUrl)]. *)
Definition spec_articleId `{Env} (providerTag : string) (nativeId canonicalUrl : JsVal)
    : string :=
  providerTag +:+ "_" +:+ str (jcoalesce nativeId canonicalUrl).

(** ** A concrete host, for the runs below *)

Definition parseIso (s : string) : option Z :=
  if String.eqb s "2024-05-01T08:00:00Z" then Some 1714550400000
  else if String.eqb s "2024-05-01T09:00:00Z" then Some 1714554000000
  else if String.eqb s "2024-05-01T10:00:00Z" then Some 1714557600000
  else None.

(** [trim] and [toLowerCase] on ASCII text. *)
Fixpoint trimStart (s : string) : string :=
  match s with
  | String c s' => if Ascii.is_space c then trimStart s' else s
  | EmptyString => s
  end.

Definition trimAscii (s : string) : string :=
  String.rev (trimStart (String.rev (trimStart s))).

Definition lowerChar (c : Ascii.ascii) : Ascii.ascii :=
  let n := Ascii.nat_of_ascii c in
  if ((65 <=? n) && (n <=? 90))%nat then Ascii.ascii_of_nat (n + 32) else c.

Fixpoint lowerAscii (s : string) : string :=
  match s with
  | String c s' => String (lowerChar c) (lowerAscii s')
  | EmptyString => s
  end.

Definition testEnv : Env :=
  {| Date_parse := parseIso;
     Date_toString := fun _ => "Invalid Date";
     textScore := fun _ _ => 0;
     NEWS_API_CONFIG :=
       {| BASE_URL := "https://newsdata.io/api/1"; API_KEY := "key-a";
          TIMEOUT := 10000 |};
     NEWS_API_ORG_CONFIG :=
       {| BASE_URL := "https://newsapi.org/v2"; API_KEY := "key-b";
          TIMEOUT := 10000 |};
     String_trim := trimAscii;
     String_toLowerCase := lowerAscii;
     castOther := fun _ _ => None |}.

Definition nativeA (id link : string) : JsVal :=
  JObj [("article_id", JStr id); ("link", JStr link);
        ("title", JStr "Markets open higher");
        ("pubDate", JStr "2024-05-01T08:00:00Z")].

Definition headlineB (u title : string) : JsVal :=
  JObj [("title", JStr title); ("url", JStr u);
        ("publishedAt", JStr "2024-05-01T09:00:00Z");
        ("source", JObj [("id", JNull); ("name", JStr "B Times")])].

(** ** The collection under its schema *)

(** [articleId] is a [String] path ... *)
Definition wellKeyed (d : Obj) : Prop := exists i, fget "articleId" d = JStr i.

Definition ids (docs : list Obj) : list JsVal := map (fget "articleId") docs.

(** ... under a unique index. *)
Definition uniqueIds (docs : list Obj) : Prop :=
  Forall wellKeyed docs /\ NoDup (ids docs).

Definition hasId (i : string) (docs : list Obj) : bool :=
  existsb (fun d => js_eqb (fget "articleId" d) (JStr i)) docs.

(** [count(store, articleId = i)] *)
Definition countId (i : string) (docs : list Obj) : nat :=
  length (List.filter (fun d => js_eqb (fget "articleId" d) (JStr i)) docs).

(** The stored record of a key: [findOne({ articleId: i })]. *)
Definition findById (i : string) (docs : list Obj) : option Obj :=
  List.find (News.matches [("articleId", JStr i)]) docs.

(** The operations of a batch that pass the cast, as the store gets them. *)
Definition validOps `{Env} (articles : list Obj) : list UpdateOne :=
  omap News.castOp (map News.upsertOp articles).

(** What one bulk write of a batch makes of the collection. *)
Definition writeAll `{Env} (t : Z) (articles : list Obj) (docs : list Obj)
    : list Obj * BulkWriteResult :=
  fold_left (News.applyOp t) (validOps articles) (docs, News.noWrites).

(** The records of a batch that pass the cast, as it leaves them. *)
Definition accepted `{Env} (articles : list Obj) : list Obj :=
  omap News.castUpdate articles.

(** The [articleId] under which a record keyed [i] is stored. *)
Definition storedId `{Env} (i : string) : string := News.setString true false i.

(** The bulk write of a batch asks the store when a record passes the
    cast, and throws exactly when it asks a store it cannot reach. *)
Definition asksStore `{Env} (articles : list Obj) : bool :=
  negb (length (validOps articles) =? 0)%nat.

Definition notConnected : JsVal :=
  mkError "MongooseError" "news_articles: not connected".

Definition writeThrows `{Env} (articles : list Obj) (s : State) : bool :=
  asksStore articles && negb (dbUp s).

(** [d] is what a keyed upsert of the cast record [r'] leaves under its
    key, where [old] was stored before: the fields of [r'], and for the
    other fields ([updatedAt] apart, which the store maintains) those of
    [old]. *)
Definition upsertLeaves (r' : Obj) (old : option Obj) (d : Obj) : Prop :=
  (forall k, fhas k r' = true -> fget k d = fget k r')
  /\ (forall d0 k,
        old = Some d0 -> fhas k r' = false -> k <> "updatedAt" ->
        fget k d = fget k d0).

(** Committing the record [r] once at each of the given times. *)
Fixpoint commits {A} (save : list Obj -> M A) (r : Obj) (times : list Z)
    (s : State) : State :=
  match times with
  | [] => s
  | t :: times' => commits save r times' (final (save [r]) (set_now t s))
  end.

(** What committing [r], keyed [i], at the given times leaves: when the
    cast accepts [r], exactly one record under its key, which is the record
    that was stored under the key, updated in place, or else one new
    record; when the cast rejects [r], the collection as it was. *)
Definition committedOnce `{Env} {A} (save : list Obj -> M A) (r : Obj)
    (i : string) (times : list Z) (s : State) : Prop :=
  let docs := news_articles s in
  let docs' := news_articles (commits save r times s) in
  match News.castUpdate r with
  | Some r' =>
      countId (storedId i) docs' = 1%nat
      /\ length docs'
         = (length docs + (if hasId (storedId i) docs then 0 else 1))%nat
      /\ exists d,
           findById (storedId i) docs' = Some d
           /\ upsertLeaves r' (findById (storedId i) docs) d
  | None => docs' = docs
  end.

(** Any way of saving that ends in the keyed bulk write. *)
Definition writesThrough `{Env} {A} (save : list Obj -> M A) : Prop :=
  forall articles s,
    articles <> [] -> dbUp s = true ->
    final (save articles) s
    = set_news_articles (writeAll (now s) articles (news_articles s)).1 s.

(** A store that already holds one article of provider B. *)
Definition storedB : Obj :=
  [("articleId", JStr "newsapi_https://b.example/0");
   ("title", JStr "Yesterday"); ("url", JStr "https://b.example/0");
   ("publishedAt", JDate (Some 1714464000000));
   ("fetchedAt", JDate (Some 1714470000000));
   ("isDeleted", JBool false); ("duplicate", JBool false)].

Definition quietAxios (r : Request) : AxiosError + JsVal := inl ErrRequest.

Definition stateWith (docs : list Obj) (ax : Request -> AxiosError + JsVal)
    : State :=
  {| news_articles := docs; dbUp := true; now := 1714560000000; axios := ax;
     lastFetchTimes := NewsFetchScheduler.initialLastFetchTimes;
     fetchStats := NewsFetchScheduler.initialFetchStats |}.

(** A normalized record of provider B. *)
Definition recordB : Obj :=
  [("articleId", JStr "newsapi_https://b.example/1");
   ("title", JStr "Three"); ("description", JStr ""); ("content", JStr "");
   ("url", JStr "https://b.example/1"); ("urlToImage", JNull);
   ("publishedAt", JDate (Some 1714554000000));
   ("source", JObj [("id", JNull); ("name", JStr "B Times")]);
   ("author", JNull); ("category", JArr [JStr "business"]);
   ("country", JArr [JStr "in"]); ("language", JStr "en");
   ("keywords", JArr []); ("sourceApi", JStr "newsapi.org")].

(** ** What the normalizers take *)





(** ** What a slot fetches *)

(** The articles a fetch delivers (none when it throws). *)
Definition delivered (m : M (list Obj)) (s : State) : list Obj :=
  match result m s with
  | Ok l => l
  | Throw _ => []
  end.

Definition deliveredA `{Env} (s : State) (config : Obj) : list Obj :=
  delivered (NewsFetchScheduler.fetchFromNewsData config) s.

Definition deliveredB `{Env} (s : State) (config : Obj) : list Obj :=
  delivered (NewsFetchScheduler.fetchFromNewsApiOrg config) s.

(** The batch of a slot: what each parameter set of provider A delivers,
    then what each parameter set of provider B delivers. *)
Definition slotBatch `{Env} (schedule : Schedule) (s : State) : list Obj :=
  flat_map (deliveredA s) (newsDataConfig schedule)
  ++ flat_map (deliveredB s) (newsApiConfig schedule).

Definition httpCalls (t : list Event) : nat := length (List.filter isHttp t).

(** The state a slot execution ends in when its batch was saved. *)
Definition afterSuccess `{Env} (name : string) (batch : list Obj) (s : State)
    : State :=
  {| news_articles := (writeAll (now s) batch (news_articles s)).1;
     dbUp := dbUp s; now := now s; axios := axios s;
     lastFetchTimes := <[name := JDate (Some (now s))]> (lastFetchTimes s);
     fetchStats :=
       {| totalFetches := totalFetches (fetchStats s) + 1;
          successfulFetches := successfulFetches (fetchStats s) + 1;
          failedFetches := failedFetches (fetchStats s);
          articlesSaved :=
            articlesSaved (fetchStats s)
            + upsertedCount (writeAll (now s) batch (news_articles s)).2 |} |}.

(** The number of outbound HTTP calls a computation issues. *)
Definition calls {A} (m : M A) (s : State) : nat := httpCalls (trace m s).

(** ** Providers for the runs below *)

Definition isFor (country category : string) (r : Request) : bool :=
  js_eqb (fget "country" (params r)) (JStr country)
  && js_eqb (fget "category" (params r)) (JStr category).

Definition bodyA (articles : list JsVal) : JsVal :=
  JObj [("status", JStr "success");
        ("totalResults", JNum (Z.of_nat (length articles)));
        ("results", JArr articles)].

Definition bodyB (articles : list JsVal) : JsVal :=
  JObj [("status", JStr "ok");
        ("totalResults", JNum (Z.of_nat (length articles)));
        ("articles", JArr articles)].

Definition isNewsData (r : Request) : bool :=
  String.eqb (url r) "https://newsdata.io/api/1/news".

(** Both providers answer every request; the articles given are those for
    business news of India, every other parameter set has none. *)
Definition serving (a b : list JsVal) (r : Request) : AxiosError + JsVal :=
  if isNewsData r then
    inr (bodyA (if isFor "in" "business" r then a else []))
  else
    inr (bodyB (if isFor "in" "business" r then b else [])).

(** Provider A rejects every request (rate limit), provider B answers. *)
Definition failingA (b : list JsVal) (r : Request) : AxiosError + JsVal :=
  if isNewsData r then
    inl (ErrResponse 429 (JObj [("message", JStr "Rate limit exceeded")]))
  else
    inr (bodyB (if isFor "in" "business" r then b else [])).

Definition execMorning : M unit :=
  @NewsFetchScheduler.executeScheduledFetch testEnv (JStr "MORNING").

Definition b1 : JsVal := headlineB "https://b.example/1" "Three".


(** A headline of provider B whose date does not parse. *)
Definition undated : JsVal :=
  JObj [("title", JStr "Eight"); ("url", JStr "https://b.example/8");
        ("publishedAt", JStr "yesterday")].

Definition lunchRequest : JsVal :=
  JObj [("body", JObj [("schedule", JStr "LUNCH")])].

(** A stored article that was soft-deleted. *)
Definition deletedDoc : Obj :=
  [("articleId", JStr "newsapi_https://b.example/7");
   ("title", JStr "Withdrawn"); ("url", JStr "https://b.example/7");
   ("publishedAt", JDate (Some 1714557600000));
   ("fetchedAt", JDate (Some 1714558000000));
   ("isDeleted", JBool true); ("deletedAt", JDate (Some 1714559000000));
   ("duplicate", JBool false)].

(** ** Read isolation *)

(** Two states of the process that hold the same article store; they may
    differ in what the providers would answer, in the scheduler's counters
    and last-fetch times, and in the clock. *)
Definition sameStore (s1 s2 : State) : Prop :=
  news_articles s1 = news_articles s2 /\ dbUp s1 = dbUp s2.

Definition sameStoreAndClock (s1 s2 : State) : Prop :=
  sameStore s1 s2 /\ now s1 = now s2.

(** The result of [m] is a function of what [R] keeps. *)
Definition determinedBy (R : relation State) {A} (m : M A) : Prop :=
  forall s1 s2,
    R s1 s2 -> result m s1 = result m s2 /\ R (final m s1) (final m s2).

(** [m] changes nothing and issues no outbound call. *)
Definition pureRead {A} (m : M A) : Prop :=
  forall s, final m s = s /\ calls m s = 0%nat.

(** Executed in [s], [m] issues no call to an upstream client and leaves
    the process as it was, and its result is the same in every state [s2]
    that [R] relates to [s]. *)
Definition isolated (R : relation State) {A} (m : M A) (s s2 : State) : Prop :=
  calls m s = 0%nat
  /\ final m s = s
  /\ (R s s2 -> result m s = result m s2).

(** * Further vocabulary *)

(** ** What ingestion leaves alone *)

(** Fields of a stored record that no normalized record carries. *)
Definition keptKeys : list string :=
  ["isDeleted"; "deletedAt"; "fetchedAt"; "createdAt"; "schemaVersion"].

(** [d'] is the record [d], possibly updated: same key, same kept fields. *)
Definition sameKept (d d' : Obj) : Prop :=
  fget "articleId" d' = fget "articleId" d
  /\ forall k, In k keptKeys -> fget k d' = fget k d.

(** The field names of the records the normalizers build. *)
Definition normalizedKeys : list string :=
  ["articleId"; "title"; "description"; "content"; "url"; "urlToImage";
   "publishedAt"; "source"; "author"; "category"; "country"; "language";
   "keywords"; "sourceApi"; "sentiment"; "creator"; "video_url"; "ai_tag";
   "duplicate"].

Definition onlyNormalizedKeys (r : Obj) : Prop :=
  forall k, fhas k r = true -> In k normalizedKeys.

(** A stored record that was soft-deleted and is then served again by
    provider B. *)
Definition withdrawnAgain : JsVal :=
  headlineB "https://b.example/7" "Withdrawn, corrected".

(** ** Reading back what was saved *)

(** The record stored under the key of [r] carries every field of [r] as
    the cast left it: [title] trimmed and [language] trimmed and in lower
    case, when they are strings. *)
Definition readsBack `{Env} (r : Obj) (docs : list Obj) : Prop :=
  exists i r' d',
    fget "articleId" r = JStr i
    /\ News.castUpdate r = Some r'
    /\ findById (storedId i) docs = Some d'
    /\ (forall k, fhas k r' = true -> fget k d' = fget k r')
    /\ (forall x, fget "title" r = JStr x ->
                  fget "title" d' = JStr (News.setString true false x))
    /\ (forall x, fget "language" r = JStr x ->
                  fget "language" d' = JStr (News.setString true true x)).

(** A record of provider B as it may come: title padded, language in
    upper case. *)
Definition paddedB : Obj :=
  [("articleId", JStr "newsapi_https://b.example/3");
   ("title", JStr " padded "); ("description", JStr ""); ("content", JStr "");
   ("url", JStr "https://b.example/3"); ("urlToImage", JNull);
   ("publishedAt", JDate (Some 1714557600000));
   ("source", JObj [("id", JNull); ("name", JStr "B Times")]);
   ("author", JNull); ("category", JArr [JStr "business"]);
   ("country", JArr [JStr "in"]); ("language", JStr "EN");
   ("keywords", JArr []); ("sourceApi", JStr "newsapi.org")].

Definition recordB2 : Obj :=
  [("articleId", JStr "newsapi_https://b.example/2");
   ("title", JStr "Four"); ("description", JStr ""); ("content", JStr "");
   ("url", JStr "https://b.example/2"); ("urlToImage", JNull);
   ("publishedAt", JDate (Some 1714557600000));
   ("source", JObj [("id", JNull); ("name", JStr "B Times")]);
   ("author", JNull); ("category", JArr [JStr "business"]);
   ("country", JArr [JStr "in"]); ("language", JStr "en");
   ("keywords", JArr []); ("sourceApi", JStr "newsapi.org")].

Definition downState (docs : list Obj) : State :=
  {| news_articles := docs; dbUp := false; now := 1714560000000;
     axios := quietAxios;
     lastFetchTimes := NewsFetchScheduler.initialLastFetchTimes;
     fetchStats := NewsFetchScheduler.initialFetchStats |}.

(** ** Defaults of the normalizers *)

(** Fields the NewsData.io normalizer always fills. *)
Definition filledKeysA : list string :=
  ["articleId"; "description"; "content"; "publishedAt"; "source";
   "category"; "country"; "language"; "keywords"; "sourceApi"; "creator";
   "duplicate"].

(** Fields the NewsAPI.org normalizer always fills. *)
Definition filledKeysB : list string :=
  ["articleId"; "description"; "content"; "publishedAt"; "source";
   "language"; "keywords"; "sourceApi"].

(** Fields that are [null] when the article has none, never [undefined]. *)
Definition nullableKeysA : list string :=
  ["urlToImage"; "author"; "sentiment"; "video_url"; "ai_tag"].

Definition nullableKeysB : list string := ["urlToImage"; "author"].

(** What [fetchFromNewsApiOrg] stamps on every record of a parameter set. *)
Definition taggedBy (config r : Obj) : Prop :=
  fget "sourceApi" r = JStr "newsapi.org"
  /\ fget "language" r = JStr "en"
  /\ fget "keywords" r = JArr []
  /\ fget "category" r
     = (if truthy (fget "category" config)
        then JArr [fget "category" config] else JArr [])
  /\ fget "country" r
     = (if truthy (fget "country" config)
        then JArr [fget "country" config] else JArr []).

(** ** The other methods of the upstream clients *)

(** [constants/index.js] *)
Definition NEWS_CATEGORIES : list JsVal :=
  [JStr "breaking"; JStr "business"; JStr "world"; JStr "top";
   JStr "technology"; JStr "sports"; JStr "entertainment"; JStr "health";
   JStr "science"; JStr "politics"].
Definition NEWS_LANGUAGES : list JsVal := [JStr "en"; JStr "hi"].
Definition NEWS_COUNTRIES : list JsVal := [JStr "in"; JStr "us"].

(** A destructuring default: [{ k = d } = o]. *)
Definition orDefault (v d : JsVal) : JsVal :=
  match v with
  | JUndef => d
  | _ => v
  end.

Module NewsDataClient.
Section WithEnv.
Context `{Env}.

(** [NewsApiService.getNewsSources] *)
Definition getNewsSources (filters : Obj) : M JsVal :=
  try_catch
    (let country :=
       orDefault (fget "country" filters)
         (JStr (arrayJoin Date_toString "," NEWS_COUNTRIES)) in
     let language :=
       orDefault (fget "language" filters)
         (JStr (arrayJoin Date_toString "," NEWS_LANGUAGES)) in
     let category :=
       orDefault (fget "category" filters)
         (JStr (arrayJoin Date_toString "," NEWS_CATEGORIES)) in
     data <- axios_request
               {| url := BASE_URL NEWS_API_CONFIG +:+ "/sources";
                  params :=
                    [("apikey", JStr (API_KEY NEWS_API_CONFIG));
                     ("country", country); ("language", language);
                     ("category", category)];
                  timeout := None |} ;;
     ret (JObj [("success", JBool true); ("data", data)]))
    (fun error => throw (NewsApiService.handleError error)).

(** [NewsApiService.searchNews] *)
Definition searchNews (query : JsVal) (filters : Obj) : M JsVal :=
  try_catch
    (let country := fget "country" filters in
     let language := fget "language" filters in
     let category := fget "category" filters in
     let page := orDefault (fget "page" filters) (JNum 1) in
     let params :=
       [("apikey", JStr (API_KEY NEWS_API_CONFIG)); ("q", query);
        ("page", page)] in
     let params := addIf "country" country params in
     let params := addIf "language" language params in
     let params := addIf "category" category params in
     data <- axios_request
               {| url := BASE_URL NEWS_API_CONFIG +:+ "/news";
                  params := params; timeout := None |} ;;
     ret (JObj [("success", JBool true); ("data", data)]))
    (fun error => throw (NewsApiService.handleError error)).
End WithEnv.
End NewsDataClient.

Module NewsApiOrgClient.
Section WithEnv.
Context `{Env}.

(** [NewsApiOrgService.searchEverything] *)
Definition searchEverything (query : JsVal) (filters : Obj) : M JsVal :=
  let params := [("q", query)] in
  let params := addIf "sources" (fget "sources" filters) params in
  let params := addIf "domains" (fget "domains" filters) params in
  let params :=
    addIf "excludeDomains" (fget "excludeDomains" filters) params in
  let params := addIf "from" (fget "from" filters) params in
  let params := addIf "to" (fget "to" filters) params in
  let params := addIf "language" (fget "language" filters) params in
  let params := addIf "sortBy" (fget "sortBy" filters) params in
  let params := addIf "pageSize" (fget "pageSize" filters) params in
  let params := addIf "page" (fget "page" filters) params in
  NewsApiOrgService.makeRequest "/everything" params.

(** [NewsApiOrgService.getSources] *)
Definition getSources (filters : Obj) : M JsVal :=
  let params := [] in
  let params := addIf "category" (fget "category" filters) params in
  let params := addIf "language" (fget "language" filters) params in
  let params := addIf "country" (fget "country" filters) params in
  NewsApiOrgService.makeRequest "/sources" params.

(** [{ ...filters, category }] *)
Definition getTopHeadlinesByCategory (category : JsVal) (filters : Obj)
    : M JsVal :=
  NewsApiOrgService.getTopHeadlines (fset "category" category filters).

Definition getTopHeadlinesByCountry (country : JsVal) (filters : Obj)
    : M JsVal :=
  NewsApiOrgService.getTopHeadlines (fset "country" country filters).
End WithEnv.
End NewsApiOrgClient.

(** ** Outbound requests *)

Definition requestsOf (t : list Event) : list Request :=
  omap (fun e => match e with Http r => Some r | Log _ _ => None end) t.

(** The requests a computation sends, in order. *)
Definition requests {A} (m : M A) (s : State) : list Request :=
  requestsOf (trace m s).

(** Client B signs with [apiKey], client A with [apikey]. *)
Definition signedB `{Env} (r : Request) : Prop :=
  fget "apiKey" (params r) = JStr (API_KEY NEWS_API_ORG_CONFIG)
  /\ timeout r = Some (TIMEOUT NEWS_API_ORG_CONFIG).

Definition signedA `{Env} (r : Request) : Prop :=
  fget "apikey" (params r) = JStr (API_KEY NEWS_API_CONFIG)
  /\ timeout r = None.

(** The request of [NewsApiService.getLatestNews]. *)
Definition latestRequest `{Env} (filters : Obj) : Request :=
  let country := fget "country" filters in
  let language := fget "language" filters in
  let category := fget "category" filters in
  let q := fget "q" filters in
  let page :=
    match fget "page" filters with
    | JUndef => JNum 1
    | p => p
    end in
  let params := [("apikey", JStr (API_KEY NEWS_API_CONFIG))] in
  let params := addIf "country" country params in
  let params := addIf "language" language params in
  let params := addIf "category" category params in
  let params := addIf "q" q params in
  let params := addIf "page" page params in
  {| url := BASE_URL NEWS_API_CONFIG +:+ "/news"; params := params;
     timeout := None |}.

(** The request of [NewsApiOrgService.getTopHeadlines]. *)
Definition topHeadlinesRequest `{Env} (filters : Obj) : Request :=
  let params := [] in
  let params := addIf "country" (fget "country" filters) params in
  let params := addIf "category" (fget "category" filters) params in
  let params := addIf "q" (fget "q" filters) params in
  let params := addIf "sources" (fget "sources" filters) params in
  let params := addIf "pageSize" (fget "pageSize" filters) params in
  let params := addIf "page" (fget "page" filters) params in
  {| url := BASE_URL NEWS_API_ORG_CONFIG +:+ "/top-headlines";
     params := fset "apiKey" (JStr (API_KEY NEWS_API_ORG_CONFIG)) params;
     timeout := Some (TIMEOUT NEWS_API_ORG_CONFIG) |}.

Definition headlineParams : list string :=
  ["country"; "category"; "q"; "sources"; "pageSize"; "page"].

Definition latestParams : list string :=
  ["country"; "language"; "category"; "q"].

(** [r] carries no parameter outside [keys]. *)
Definition onlyKeys (keys : list string) (r : Request) : Prop :=
  forall k, fhas k (params r) = true -> In k keys.

(** Each of [keys] is forwarded from [filters] when it is truthy there, and
    left out otherwise. *)
Definition forwards (keys : list string) (filters : Obj) (r : Request)
    : Prop :=
  forall k, In k keys ->
    fget k (params r)
    = if truthy (fget k filters) then fget k filters else JUndef.

(** How client A reports a failed call. *)
Definition statusOf (e : AxiosError) : Z :=
  match e with
  | ErrResponse status _ => status
  | ErrRequest => 503
  | ErrSetup _ => 500
  end.

(** The outcome of a call of client A that sent the request [r]. *)
Definition outcomeA (m : M JsVal) (s : State) (r : Request) : Prop :=
  match axios s r with
  | inr data =>
      result m s = Ok (JObj [("success", JBool true); ("data", data)])
  | inl e =>
      exists o, result m s = Throw (JObj o)
                /\ fget "success" o = JBool false
                /\ fget "status" o = JNum (statusOf e)
                /\ nullish (fget "message" o) = false
  end.

(** The outcome of a call of client B that sent the request [r]. *)
Definition outcomeB (m : M JsVal) (s : State) (r : Request) : Prop :=
  match axios s r with
  | inr data => result m s = Ok data
  | inl e =>
      exists name message,
        result m s = Throw (mkError name message)
        /\ (name = "Error" \/ name = "TypeError")
  end.

(** One call of a client: exactly one request, signed, with the outcome of
    that request, and no change to the process. *)
Definition callsOnce (signed : Request -> Prop)
    (outcome : M JsVal -> State -> Request -> Prop) (m : M JsVal)
    (s : State) : Prop :=
  exists r,
    m s = (result m s, s, [Http r]) /\ signed r /\ outcome m s r.

(** ** The requests of a slot, and of a day *)

Definition slotRequests `{Env} (schedule : Schedule) : list Request :=
  map latestRequest (newsDataConfig schedule)
  ++ map topHeadlinesRequest (newsApiConfig schedule).

Definition toNewsData (r : Request) : bool := fhas "apikey" (params r).
Definition toNewsApiOrg (r : Request) : bool := fhas "apiKey" (params r).

(** [config/fetchSchedule.config.js] *)
Module FetchScheduleConfig.

(** [Object.keys(FETCH_SCHEDULE)] *)
Definition keys : list string :=
  ["EARLY_MORNING"; "MORNING"; "AFTERNOON"; "EVENING"; "NIGHT"].

(** [Object.values(FETCH_SCHEDULE)] *)
Definition values : list Schedule :=
  omap (fun key => FETCH_SCHEDULE !! key) keys.

Record ApiLimit := {
  dailyLimit : Z;
  perFetchLimit : Z;
}.

Record ApiLimits := {
  limits_newsDataIo : ApiLimit;
  limits_newsApiOrg : ApiLimit;
}.

Definition API_LIMITS : ApiLimits :=
  {| limits_newsDataIo := {| dailyLimit := 200; perFetchLimit := 40 |};
     limits_newsApiOrg := {| dailyLimit := 100; perFetchLimit := 20 |} |}.

Record Credits := {
  estimated : Z;
  limit : Z;
  remaining : Z;
}.

Record DailyCredits := {
  newsDataIo : Credits;
  newsApiOrg : Credits;
}.

Definition getEstimatedDailyCredits : DailyCredits :=
  let schedules := values in
  let newsDataTotal :=
    fold_left
      (fun sum schedule => sum + Z.of_nat (length (newsDataConfig schedule)))
      schedules 0 in
  let newsApiTotal :=
    fold_left
      (fun sum schedule => sum + Z.of_nat (length (newsApiConfig schedule)))
      schedules 0 in
  {| newsDataIo :=
       {| estimated := newsDataTotal;
          limit := dailyLimit (limits_newsDataIo API_LIMITS);
          remaining :=
            dailyLimit (limits_newsDataIo API_LIMITS) - newsDataTotal |};
     newsApiOrg :=
       {| estimated := newsApiTotal;
          limit := dailyLimit (limits_newsApiOrg API_LIMITS);
          remaining :=
            dailyLimit (limits_newsApiOrg API_LIMITS) - newsApiTotal |} |}.
End FetchScheduleConfig.

(** Each of the given slots fires once, one after the other. *)
Fixpoint runSlots `{Env} (names : list string) : M unit :=
  match names with
  | [] => ret tt
  | name :: rest =>
      NewsFetchScheduler.executeScheduledFetch (JStr name) ;;;
      runSlots rest
  end.

(** The number of requests of [t] that go to a provider. *)
Definition countTo (p : Request -> bool) (t : list Request) : Z :=
  Z.of_nat (length (List.filter p t)).

(** ** Listings *)

(** Neither soft-deleted nor a duplicate. *)
Definition visible (d : Obj) : bool := News.matches News.notDeleted d.



Definition countWhere (p : Obj -> bool) (docs : list Obj) : Z :=
  Z.of_nat (length (List.filter p docs)).


(** ** Answers of the read service *)

(** A read of the service: nothing changes; with the store reachable it
    answers an object that satisfies [P], without it, it rejects with the
    store's error. *)
Definition answers (P : Obj -> Prop) (m : M Obj) (s : State) : Prop :=
  final m s = s
  /\ if dbUp s then exists o, result m s = Ok o /\ P o
     else result m s = Throw notConnected.

(** The articles of an answer and the total it reports. *)
Definition carries (o : Obj) (l : list Obj) (total : Z) : Prop :=
  fget "articles" o = JArr (map JObj l)
  /\ fget "totalResults" o = JNum total.

(** Fetched within the 30 minutes before [t]. *)
Definition freshAt (t : Z) (d : Obj) : Prop :=
  exists f, News.fetchedAt d = Some f /\ t - 30 * 60 * 1000 <= f.

(** The sum of the [articleCount]s of a sources answer. *)
Definition articleCounts (o : Obj) : Z :=
  match fget "sources" o with
  | JArr xs => fold_right (fun x acc => numOf (get x "articleCount") + acc) 0 xs
  | _ => 0
  end.

Definition totalCount (groups : list Obj) : Z :=
  fold_right (fun g acc => numOf (fget "count" g) + acc) 0 groups.

(** The query [getSources] builds from its filters. *)
Definition sourcesQuery (filters : Obj) : Obj :=
  let query := [] in
  let query := addIf "country" (fget "country" filters) query in
  let query := addIf "language" (fget "language" filters) query in
  let query := addIf "category" (fget "category" filters) query in
  query.

(** [sourceApi] is a [String] path. *)
Definition typedSourceApi (d : Obj) : Prop :=
  exists x, fget "sourceApi" d = JStr x.

Definition statsOf (o : Obj) : Z * Z * Z * Z :=
  (numOf (fget "total" o),
   numOf (get (fget "bySource" o) "newsDataIo"),
   numOf (get (fget "bySource" o) "newsApiOrg"),
   numOf (fget "recentArticles" o)).

Definition recordA : Obj :=
  [("articleId", JStr "newsdata_a1"); ("title", JStr "One");
   ("url", JStr "https://a.example/1");
   ("publishedAt", JDate (Some 1714550400000));
   ("fetchedAt", JDate (Some 1714559000000));
   ("sourceApi", JStr "newsdata.io");
   ("isDeleted", JBool false); ("duplicate", JBool false)].

(** ** The controllers of the read service: [unifiedNews.controller.js] *)

(** [Array.prototype.slice(start, end)] *)
Definition slice {A} (start stop : Z) (l : list A) : list A :=
  let len := Z.of_nat (length l) in
  let k := if start <? 0 then Z.max (len + start) 0 else Z.min start len in
  let final := if stop <? 0 then Z.max (len + stop) 0 else Z.min stop len in
  take (Z.to_nat (final - k)) (drop (Z.to_nat k) l).

(** [sendPaginatedResponse(res, data, pagination, message = "Success")] *)
Definition sendPaginatedResponse (data pagination message : JsVal)
    : M Response :=
  t <- gets now ;;
  ret {| statusCode := 200;
         body :=
           [("success", JBool true);
            ("message", orDefault message (JStr "Success"));
            ("data", data);
            ("pagination",
              JObj [("currentPage", get pagination "currentPage" ||| JNum 1);
                    ("totalPages", get pagination "totalPages" ||| JNum 1);
                    ("totalItems", get pagination "totalItems" ||| JNum 0);
                    ("itemsPerPage",
                      get pagination "itemsPerPage" ||| JNum 10)]);
            ("timestamp", JDate (Some t))] |}.

Module UnifiedNewsController.
Section WithEnv.
Context `{Env}.

(** [parseInt] of a query value; [None] is [NaN]. *)
Variable parseInt : JsVal -> option Z.

(** [parseInt(v) || d] *)
Definition parseIntOr (v : JsVal) (d : Z) : Z :=
  match parseInt v with
  | Some n => if n =? 0 then d else n
  | None => d
  end.

(** [req.query], on which the handlers read members. *)
Definition queryOf (req : JsVal) : M JsVal :=
  if nullish (get req "query") then
    throw (TypeError "Cannot read properties of undefined")
  else ret (get req "query").

(** The answer of the paginated handlers: the call passes [page], [limit],
    [data.totalResults] and the message where [sendPaginatedResponse] has
    [pagination] and [message]. *)
Definition respond (data : Obj) (page limit : Z) (message : string)
    : M Response :=
  match fget "articles" data with
  | JArr xs =>
      if (0 <? length xs)%nat then
        sendPaginatedResponse
          (JArr (slice ((page - 1) * limit) (page * limit) xs))
          (JNum page) (JNum limit)
      else sendSuccessResponse (JObj data) message 200
  | _ => sendSuccessResponse (JObj data) message 200
  end.

Definition getLatestNews (req : JsVal) : M Response :=
  try_catch
    (Logger.info "Fetching latest news" ;;;
     query <- queryOf req ;;
     let filters :=
       [("country", get query "country");
        ("category", get query "category");
        ("language", get query "language")] in
     let page := parseIntOr (get query "page") 1 in
     let limit := parseIntOr (get query "limit") 50 in
     data <- UnifiedNewsService.getLatestNews filters ;;
     respond data page limit "Latest news fetched successfully")
    (fun error =>
       Logger.error "Error fetching latest news" ;;;
       sendErrorResponse (get error "message") 500).

Definition getNewsByCountry (req : JsVal) : M Response :=
  try_catch
    (if nullish (get req "params") then
       throw (TypeError "Cannot destructure property 'country'")
     else
       let country := get (get req "params") "country" in
       Logger.info "Fetching news by country" ;;;
       query <- queryOf req ;;
       let filters :=
         [("country", country);
          ("category", get query "category");
          ("language", get query "language")] in
       let page := parseIntOr (get query "page") 1 in
       let limit := parseIntOr (get query "limit") 50 in
       data <- UnifiedNewsService.getLatestNews filters ;;
       name <- lift (template country) ;;
       respond data page limit
         ("News for country '" +:+ name +:+ "' fetched successfully"))
    (fun error =>
       Logger.error "Error fetching news by country" ;;;
       sendErrorResponse (get error "message") 500).

Definition getTrendingNews (req : JsVal) : M Response :=
  try_catch
    (query <- queryOf req ;;
     let limit := parseIntOr (get query "limit") 20 in
     Logger.info "Fetching trending news" ;;;
     data <- UnifiedNewsService.getTrendingNews limit ;;
     sendSuccessResponse (JObj data) "Trending news fetched successfully" 200)
    (fun error =>
       Logger.error "Error fetching trending news" ;;;
       sendErrorResponse (get error "message") 500).
End WithEnv.
End UnifiedNewsController.





(** A handler that answers: it resolves with a response whose status is
    one of [codes] and whose [success] flag agrees with the status. *)
Definition good (codes : list Z) (r : Response) : Prop :=
  In (statusCode r) codes
  /\ fget "success" (body r) = JBool (statusCode r <? 400).

Definition answersWith (codes : list Z) (m : M Response) (s : State) : Prop :=
  exists r, result m s = Ok r /\ good codes r.

(** If [m] resolves, its response is good. *)
Definition resolvesGood (codes : list Z) (m : M Response) : Prop :=
  forall s r, result m s = Ok r -> good codes r.

(** ** The life cycle of the scheduler: [start], [stop],
    [checkAndFetchInitialData] *)

(** The environment variables [SCHEDULER_CONFIG] reads. *)
Record ProcessEnv := {
  SCHEDULER_ENABLED : option string;
  SCHEDULER_TIMEZONE : option string;
  SCHEDULER_RUN_ON_STARTUP : option string;
}.

Record SchedulerConfig := {
  enabled : bool;
  timezone : string;
  runOnStartup : bool;
  checkEmptyOnStartup : bool;
}.

(** [process.env.X !== "false"] *)
Definition notFalse (v : option string) : bool :=
  match v with
  | Some x => negb (String.eqb x "false")
  | None => true
  end.

Definition SCHEDULER_CONFIG (env : ProcessEnv) : SchedulerConfig :=
  {| enabled := notFalse (SCHEDULER_ENABLED env);
     timezone :=
       match SCHEDULER_TIMEZONE env with
       | Some tz => if String.eqb tz "" then "Asia/Kolkata" else tz
       | None => "Asia/Kolkata"
       end;
     runOnStartup := notFalse (SCHEDULER_RUN_ON_STARTUP env);
     checkEmptyOnStartup := true |}.

(** An entry of [scheduledJobs]; the cron task itself belongs to the
    host. *)
Record Job := {
  job_name : string;
  job_time : string;
  job_description : string;
  job_timezone : string;
}.

(** [isRunning] and [scheduledJobs] of the singleton. *)
Record Timers := {
  isRunning : bool;
  scheduledJobs : list Job;
}.

(** What [start] leaves to happen after it returns. *)
Inductive Startup : Type :=
| NoStartup
| CheckInitialData
| MorningAfter5s.

Module SchedulerLifecycle.
Section WithEnv.
Context `{Env}.
Variable env : ProcessEnv.

(** The state the constructor leaves. *)
Definition constructed : Timers := {| isRunning := false; scheduledJobs := [] |}.

(** [cron.schedule(schedule.time, ..., { timezone })] and the entry pushed
    for it. *)
Definition cronSchedule (scheduleName : string) : option Job :=
  match FETCH_SCHEDULE !! scheduleName with
  | Some schedule =>
      Some {| job_name := scheduleName; job_time := time schedule;
              job_description := description schedule;
              job_timezone := timezone (SCHEDULER_CONFIG env) |}
  | None => None
  end.

Definition start (t : Timers) : Timers * list Event * Startup :=
  if isRunning t then
    (t, [Log Warn "Scheduler is already running"], NoStartup)
  else if negb (enabled (SCHEDULER_CONFIG env)) then
    (t, [Log Info "Scheduler is disabled in configuration"], NoStartup)
  else
    let jobs := omap cronSchedule FetchScheduleConfig.keys in
    ({| isRunning := true; scheduledJobs := scheduledJobs t ++ jobs |},
     [Log Info "Starting News Fetch Scheduler"]
     ++ map (fun j => Log Info ("Scheduled: " +:+ job_name j)) jobs
     ++ [Log Info "Fetch Schedule Overview:";
         Log Info "Estimated Daily API Credits:"],
     if checkEmptyOnStartup (SCHEDULER_CONFIG env) then CheckInitialData
     else if runOnStartup (SCHEDULER_CONFIG env) then MorningAfter5s
     else NoStartup).

Definition stop (t : Timers) : Timers * list Event :=
  if negb (isRunning t) then (t, [Log Warn "Scheduler is not running"])
  else
    ({| isRunning := false; scheduledJobs := [] |},
     [Log Info "Stopping News Fetch Scheduler"]
     ++ map (fun j => Log Info ("Stopped: " +:+ job_name j)) (scheduledJobs t)
     ++ [Log Info "News Fetch Scheduler stopped"]).

(** The callback of the 3 s timer. *)
Definition initialFetch : M unit :=
  try_catch
    (NewsFetchScheduler.executeScheduledFetch (JStr "MORNING") ;;;
     Logger.info "Initial data fetch completed")
    (fun error => Logger.error "Initial data fetch failed").

(** Resolves with the timer callback it has set, if any. *)
Definition checkAndFetchInitialData : M (option (M unit)) :=
  try_catch
    (Logger.info "Checking database for existing articles..." ;;;
     count <- News.countDocuments [] ;;
     if count =? 0 then
       Logger.info "Database is empty. Fetching initial data..." ;;;
       ret (Some initialFetch)
     else
       Logger.info "Database already contains articles" ;;;
       ret None)
    (fun error =>
       Logger.error "Error checking database for initial data" ;;;
       ret None).
End WithEnv.
End SchedulerLifecycle.

(** Calls of [start] and [stop], in any order. *)
Inductive LifecycleCall : Type :=
| CallStart
| CallStop.

Definition afterCall (env : ProcessEnv) (t : Timers) (c : LifecycleCall)
    : Timers :=
  match c with
  | CallStart => (SchedulerLifecycle.start env t).1.1
  | CallStop => (SchedulerLifecycle.stop t).1
  end.

(** A job of the configured slot of its name, at the slot's time. *)
Definition jobOfSchedule (j : Job) : Prop :=
  exists schedule,
    FETCH_SCHEDULE !! job_name j = Some schedule
    /\ job_time j = time schedule.

(** Stopped without jobs, or running with one job per configured slot. *)
Definition timersConsistent (env : ProcessEnv) (t : Timers) : Prop :=
  if isRunning t then
    enabled (SCHEDULER_CONFIG env) = true
    /\ map job_name (scheduledJobs t) = FetchScheduleConfig.keys
    /\ Forall jobOfSchedule (scheduledJobs t)
  else scheduledJobs t = [].

Definition defaultEnv : ProcessEnv :=
  {| SCHEDULER_ENABLED := None; SCHEDULER_TIMEZONE := None;
     SCHEDULER_RUN_ON_STARTUP := None |}.

(** ** A NewsData.io route: [news.controller.js] and [errorHandler.js] *)

(** A response whose status is whatever the code passes to
    [res.status]. *)
Record RawResponse := {
  rawStatus : JsVal;
  rawBody : Obj;
}.

(** [sendErrorResponse(res, message = "Error", statusCode = 500,
    errors = null)] *)
Definition sendErrorResponse4 (message statusCode errors : JsVal)
    : M RawResponse :=
  t <- gets now ;;
  let response :=
    [("success", JBool false);
     ("message", orDefault message (JStr "Error"));
     ("timestamp", JDate (Some t))] in
  let response :=
    if truthy errors then fset "errors" errors response else response in
  ret {| rawStatus := orDefault statusCode (JNum 500); rawBody := response |}.

(** [sendSuccessResponse(res, data, message)] with the default status. *)
Definition sendSuccessResponse200 (data : JsVal) (message : string)
    : M RawResponse :=
  t <- gets now ;;
  ret {| rawStatus := JNum 200;
         rawBody := [("success", JBool true); ("message", JStr message);
                     ("data", data); ("timestamp", JDate (Some t))] |}.

(** What a handler with a [next] does: it answers, or it hands an error
    on. *)
Inductive Handled : Type :=
| Responded (r : RawResponse)
| Next (error : JsVal).

Module NewsController.
Section WithEnv.
Context `{Env}.

Definition getNewsSources (req : JsVal) : M Handled :=
  try_catch
    (if nullish (get req "query") then
       throw (TypeError "Cannot destructure property 'country'")
     else
       let country := get (get req "query") "country" in
       let language := get (get req "query") "language" in
       let category := get (get req "query") "category" in
       let filters := [] in
       let filters := addIf "country" country filters in
       let filters := addIf "language" language filters in
       let filters := addIf "category" category filters in
       result <- NewsDataClient.getNewsSources filters ;;
       if truthy (get result "success") then
         r <- sendSuccessResponse200 (get result "data")
                "News sources fetched successfully" ;;
         ret (Responded r)
       else
         r <- sendErrorResponse4 (get result "message")
                (get result "status" ||| JNum 500) (get result "data") ;;
         ret (Responded r))
    (fun error => ret (Next error)).
End WithEnv.
End NewsController.

(** [errorHandler(err, req, res, next)]; [development] is
    [process.env.NODE_ENV === "development"]. *)
Definition errorHandler (development : bool) (err : JsVal) : M RawResponse :=
  Logger.error "Error occurred" ;;;
  if js_eqb (get err "name") (JStr "ValidationError") then
    sendErrorResponse4 (JStr "Validation failed") (JNum 400) (get err "errors")
  else if js_eqb (get err "name") (JStr "UnauthorizedError") then
    sendErrorResponse4 (JStr "Unauthorized access") (JNum 401) JUndef
  else if js_eqb (get err "name") (JStr "NotFoundError") then
    sendErrorResponse4 (JStr "Resource not found") (JNum 404) JUndef
  else
    let statusCode :=
      get err "statusCode" ||| get err "status" ||| JNum 500 in
    let message := get err "message" ||| JStr "Internal server error" in
    sendErrorResponse4 message statusCode
      (if development then JObj [("stack", get err "stack")] else JNull).

(** The route [GET /api/newsdata/sources]: the handler, then the error
    handler for what it hands on. *)
Definition sourcesRoute `{Env} (development : bool) (req : JsVal)
    : M RawResponse :=
  handled <- NewsController.getNewsSources req ;;
  match handled with
  | Responded r => ret r
  | Next error => errorHandler development error
  end.

(** The request of [NewsApiService.getNewsSources] for a query. *)
Definition sourcesRequest `{Env} (query : JsVal) : Request :=
  let filters := [] in
  let filters := addIf "country" (get query "country") filters in
  let filters := addIf "language" (get query "language") filters in
  let filters := addIf "category" (get query "category") filters in
  {| url := BASE_URL NEWS_API_CONFIG +:+ "/sources";
     params :=
       [("apikey", JStr (API_KEY NEWS_API_CONFIG));
        ("country",
          orDefault (fget "country" filters)
            (JStr (arrayJoin Date_toString "," NEWS_COUNTRIES)));
        ("language",
          orDefault (fget "language" filters)
            (JStr (arrayJoin Date_toString "," NEWS_LANGUAGES)));
        ("category",
          orDefault (fget "category" filters)
            (JStr (arrayJoin Date_toString "," NEWS_CATEGORIES)))];
     timeout := None |}.

Definition rateLimited (r : Request) : AxiosError + JsVal :=
  inl (ErrResponse 429 (JObj [("message", JStr "Rate limit exceeded")])).

Definition sourcesQueryRequest : JsVal :=
  JObj [("query", JObj [("country", JStr "in")])].

(** ** Starting and stopping over HTTP: [scheduler.controller.js] *)

Definition emitAll (events : list Event) : M unit :=
  fun s => (Ok tt, s, events).

Module SchedulerControls.
Section WithEnv.
Variable env : ProcessEnv.

(** The handler answers as soon as [start] has returned; what [start]
    left to happen is still to come. *)
Definition startScheduler (t : Timers) : M (Response * Timers * Startup) :=
  try_catch
    (Logger.info "Starting scheduler via API" ;;;
     let started := SchedulerLifecycle.start env t in
     emitAll started.1.2 ;;;
     r <- sendSuccessResponse (JObj [("status", JStr "running")])
            "Scheduler started successfully" 200 ;;
     ret (r, started.1.1, started.2))
    (fun error =>
       Logger.error "Error starting scheduler" ;;;
       r <- sendErrorResponse (get error "message") 500 ;;
       ret (r, t, NoStartup)).

Definition stopScheduler (t : Timers) : M (Response * Timers) :=
  try_catch
    (Logger.info "Stopping scheduler via API" ;;;
     let stopped := SchedulerLifecycle.stop t in
     emitAll stopped.2 ;;;
     r <- sendSuccessResponse (JObj [("status", JStr "stopped")])
            "Scheduler stopped successfully" 200 ;;
     ret (r, stopped.1))
    (fun error =>
       Logger.error "Error stopping scheduler" ;;;
       r <- sendErrorResponse (get error "message") 500 ;;
       ret (r, t)).
End WithEnv.
End SchedulerControls.

Definition disabledEnv : ProcessEnv :=
  {| SCHEDULER_ENABLED := Some "false"; SCHEDULER_TIMEZONE := None;
     SCHEDULER_RUN_ON_STARTUP := None |}.

(** * Verification *)

(** ** Objects *)

Lemma fget_fset k k' v o :
  fget k (fset k' v o) = if String.eqb k' k then v else fget k o.
Proof.
  induction o as [|[k0 v0] o IH]; simpl.
  - destruct (String.eqb k' k); reflexivity.
  - destruct (String.eqb k0 k') eqn:E0; simpl.
    + apply String.eqb_eq in E0. subst k0.
      destruct (String.eqb k' k); reflexivity.
    + rewrite IH. destruct (String.eqb k0 k) eqn:E1; [|reflexivity].
      apply String.eqb_eq in E1. subst k0.
      rewrite String.eqb_sym, E0. reflexivity.
Qed.

Lemma fget_assign k src o :
  fget k (assign src o) = if fhas k src then fget k src else fget k o.
Proof.
  induction src as [|[k0 v0] src IH]; simpl; [reflexivity|].
  rewrite fget_fset. destruct (String.eqb k0 k); simpl; [reflexivity|].
  apply IH.
Qed.

Lemma fhas_fget k o : fhas k o = false -> fget k o = JUndef.
Proof.
  induction o as [|[k0 v0] o IH]; simpl; [reflexivity|].
  destruct (String.eqb k0 k); simpl; [discriminate|apply IH].
Qed.

Lemma fget_fhas k o : fget k o <> JUndef -> fhas k o = true.
Proof.
  intros Hne. destruct (fhas k o) eqn:E; [reflexivity|].
  elim Hne. apply fhas_fget, E.
Qed.

(** ** Running a computation *)


Lemma result_run {A} (m : M A) s : result m s = (run m s).1.
Proof. reflexivity. Qed.

Lemma final_run {A} (m : M A) s : final m s = (run m s).2.
Proof. reflexivity. Qed.

Lemma run_ret {A} (a : A) s : run (ret a) s = (Ok a, s).
Proof. reflexivity. Qed.

Lemma run_throw {A} e s : run (@throw A e) s = (Throw e, s).
Proof. reflexivity. Qed.

Lemma run_lift {A} (r : Res A) s : run (lift r) s = (r, s).
Proof. reflexivity. Qed.

Lemma run_emit e s : run (emit e) s = (Ok tt, s).
Proof. reflexivity. Qed.

Lemma run_gets {A} (f : State -> A) s : run (gets f) s = (Ok (f s), s).
Proof. reflexivity. Qed.

Lemma run_modify f s : run (modify f) s = (Ok tt, f s).
Proof. reflexivity. Qed.

Lemma run_bind {A B} (m : M A) (f : A -> M B) s :
  run (bind m f) s =
  match run m s with
  | (Ok a, s') => run (f a) s'
  | (Throw e, s') => (Throw e, s')
  end.
Proof.
  unfold run, bind. destruct (m s) as [[[a|e] s'] t]; simpl; [|reflexivity].
  destruct (f a s') as [[r s''] t']. reflexivity.
Qed.

Lemma run_try_catch {A} (m : M A) (h : JsVal -> M A) s :
  run (try_catch m h) s =
  match run m s with
  | (Ok a, s') => (Ok a, s')
  | (Throw e, s') => run (h e) s'
  end.
Proof.
  unfold run, try_catch. destruct (m s) as [[[a|e] s'] t]; simpl; [reflexivity|].
  destruct (h e s') as [[r s''] t']. reflexivity.
Qed.

Lemma trace_bind {A B} (m : M A) (f : A -> M B) s :
  trace (bind m f) s =
  trace m s ++
  match run m s with
  | (Ok a, s') => trace (f a) s'
  | (Throw e, s') => []
  end.
Proof.
  unfold trace, run, bind. destruct (m s) as [[[a|e] s'] t]; simpl.
  - destruct (f a s') as [[r s''] t']. reflexivity.
  - symmetry. apply app_nil_r.
Qed.

Lemma trace_try_catch {A} (m : M A) (h : JsVal -> M A) s :
  trace (try_catch m h) s =
  trace m s ++
  match run m s with
  | (Ok a, s') => []
  | (Throw e, s') => trace (h e) s'
  end.
Proof.
  unfold trace, run, try_catch. destruct (m s) as [[[a|e] s'] t]; simpl.
  - symmetry. apply app_nil_r.
  - destruct (h e s') as [[r s''] t']. reflexivity.
Qed.

Ltac run_step :=
  first [ rewrite run_bind | rewrite run_try_catch | rewrite run_ret
        | rewrite run_throw | rewrite run_lift | rewrite run_emit
        | rewrite run_gets | rewrite run_modify ].

Ltac run_simpl := repeat (run_step; cbn [fst snd]).

(** ** The dedup key *)

Section DedupKey.
Context {E : Env}.


Lemma normalizeNewsDataArticle_articleId a r :
  normalizeNewsDataArticle a = Ok r ->
  fget "articleId" r
  = JStr ("newsdata_" +:+ str (get a "article_id" ||| get a "link")).
Proof.
  unfold normalizeNewsDataArticle. destruct (nullish a); [discriminate|].
  destruct (negb _); [discriminate|].
  destruct (creatorJoin _); [|discriminate].
  intros [= <-]. reflexivity.
Qed.

Lemma normalizeNewsApiOrgArticle_articleId a c k r :
  normalizeNewsApiOrgArticle a c k = Ok r ->
  fget "articleId" r = JStr ("newsapi_" +:+ str (get a "url")).
Proof.
  unfold normalizeNewsApiOrgArticle. destruct (nullish a); [discriminate|].
  destruct (negb _); [discriminate|].
  intros [= <-]. reflexivity.
Qed.

(** C3, as the code has it. The dedup key of a NewsData.io article is
    ["newsdata_"] followed by its [article_id] when that is truthy and by its
    [link] otherwise ([||], so an empty native id counts as absent); the key
    of a NewsAPI.org article is ["newsapi_"] followed by its [url]. Two
    articles of one provider with the same truthy native id, or with no
    truthy native id and the same URL, get the same [articleId]; articles of
    different providers never do. *)
Theorem articleId_derivation (a1 a2 b1 b2 c1 k1 c2 k2 : JsVal)
    (r1 r2 q1 q2 : Obj) :
  normalizeNewsDataArticle a1 = Ok r1 ->
  normalizeNewsDataArticle a2 = Ok r2 ->
  normalizeNewsApiOrgArticle b1 c1 k1 = Ok q1 ->
  normalizeNewsApiOrgArticle b2 c2 k2 = Ok q2 ->
  fget "articleId" r1
  = JStr ("newsdata_" +:+ str (get a1 "article_id" ||| get a1 "link"))
  /\ fget "articleId" q1 = JStr ("newsapi_" +:+ str (get b1 "url"))
  /\ (truthy (get a1 "article_id") = true ->
      get a1 "article_id" = get a2 "article_id" ->
      fget "articleId" r1 = fget "articleId" r2)
  /\ (truthy (get a1 "article_id") = false ->
      truthy (get a2 "article_id") = false ->
      get a1 "link" = get a2 "link" ->
      fget "articleId" r1 = fget "articleId" r2)
  /\ (get b1 "url" = get b2 "url" ->
      fget "articleId" q1 = fget "articleId" q2)
  /\ fget "articleId" r1 <> fget "articleId" q1.
Proof.
  intros Ha1 Ha2 Hb1 Hb2.
  apply normalizeNewsDataArticle_articleId in Ha1, Ha2.
  apply normalizeNewsApiOrgArticle_articleId in Hb1, Hb2.
  rewrite Ha1, Ha2, Hb1, Hb2. repeat split.
  - intros Ht Heq. unfold jor. rewrite <- Heq, Ht. reflexivity.
  - intros Ht1 Ht2 Heq. unfold jor. rewrite Ht1, Ht2, Heq. reflexivity.
  - intros ->. reflexivity.
  - simpl. discriminate.
Qed.
End DedupKey.


Lemma articleId_derivation_witness :
  let a1 := nativeA "n1" "https://a.example/1" in
  let a2 := nativeA "n1" "https://a.example/other" in
  let b := headlineB "https://a.example/1" "Markets open higher" in
  exists r1 r2 q,
    @normalizeNewsDataArticle testEnv a1 = Ok r1
    /\ @normalizeNewsDataArticle testEnv a2 = Ok r2
    /\ @normalizeNewsApiOrgArticle testEnv b (JArr []) (JArr []) = Ok q
    /\ fget "articleId" r1 = JStr "newsdata_n1"
    /\ fget "articleId" r1 = fget "articleId" r2
    /\ fget "articleId" r1 <> fget "articleId" q.
Proof.
  intros a1 a2 b.
  destruct (@normalizeNewsDataArticle testEnv a1) as [r1|] eqn:H1;
    [|discriminate].
  destruct (@normalizeNewsDataArticle testEnv a2) as [r2|] eqn:H2;
    [|discriminate].
  destruct (@normalizeNewsApiOrgArticle testEnv b (JArr []) (JArr []))
    as [q|] eqn:H3; [|discriminate].
  destruct (@articleId_derivation testEnv a1 a2 b b (JArr []) (JArr [])
              (JArr []) (JArr []) r1 r2 q q H1 H2 H3 H3)
    as (Hk & _ & Hsame & _ & _ & Hdiff).
  exists r1, r2, q. repeat split; try reflexivity.
  - exact Hk.
  - apply Hsame; reflexivity.
  - exact Hdiff.
Defined.

(** C3 as stated fails on an empty native id: the specification's
    [??] keeps the empty string, the code's [||] falls back to the link, so
    two NewsData.io articles with the same (empty) native id and different
    links get different keys. *)
Lemma articleId_empty_native_id :
  let a1 := nativeA "" "https://a.example/1" in
  let a2 := nativeA "" "https://a.example/2" in
  get a1 "article_id" = get a2 "article_id"
  /\ nullish (get a1 "article_id") = false
  /\ exists r1 r2,
       @normalizeNewsDataArticle testEnv a1 = Ok r1
       /\ @normalizeNewsDataArticle testEnv a2 = Ok r2
       /\ fget "articleId" r1 <> fget "articleId" r2
       /\ fget "articleId" r1
          <> JStr (@spec_articleId testEnv "newsdata"
                     (get a1 "article_id") (get a1 "link")).
Proof.
  intros a1 a2. split; [reflexivity|]. split; [reflexivity|].
  eexists _, _. split; [reflexivity|]. split; [reflexivity|].
  split; vm_compute; discriminate.
Qed.

(** ** Keyed upserts *)

Lemma matches_key d x i :
  fget "articleId" d = JStr x ->
  News.matches [("articleId", JStr i)] d = String.eqb x i.
Proof.
  intros Hd. unfold News.matches. simpl. rewrite Hd.
  unfold News.matchCond, News.matchEq. simpl.
  rewrite orb_false_r, andb_true_r. reflexivity.
Qed.

Lemma updateDoc_key r t d i :
  fget "articleId" r = JStr i ->
  fget "articleId" (News.updateDoc r t d) = JStr i.
Proof.
  intros Hr. unfold News.updateDoc. rewrite fget_fset. simpl.
  rewrite fget_assign, fget_fhas; [exact Hr|]. rewrite Hr. discriminate.
Qed.

Lemma insertDoc_key flt r t i :
  fget "articleId" r = JStr i ->
  fget "articleId" (News.insertDoc flt r t) = JStr i.
Proof.
  intros Hr. unfold News.insertDoc.
  rewrite fget_assign, fget_fhas; [exact Hr|]. rewrite Hr. discriminate.
Qed.

Lemma hasId_In i docs :
  Forall wellKeyed docs -> hasId i docs = true <-> In (JStr i) (ids docs).
Proof.
  induction 1 as [|d ds [x Hx] _ IH]; simpl.
  - split; [discriminate|tauto].
  - rewrite Hx. simpl. rewrite orb_true_iff, IH, String.eqb_eq.
    split; (intros [Heq|Hin]; [left|right; exact Hin]); congruence.
Qed.

Lemma hasId_false i docs :
  Forall wellKeyed docs -> hasId i docs = false -> ~ In (JStr i) (ids docs).
Proof.
  intros Hk Hf Hin. apply hasId_In in Hin; [congruence|exact Hk].
Qed.

(** One keyed upsert: an update keeps the key list, an insert appends the
    key. *)
Lemma updateFirst_key t r i docs :
  Forall wellKeyed docs ->
  fget "articleId" r = JStr i ->
  match News.updateFirst [("articleId", JStr i)] r t docs with
  | Some (docs', _) =>
      hasId i docs = true /\ ids docs' = ids docs /\ Forall wellKeyed docs'
  | None => hasId i docs = false
  end.
Proof.
  intros Hk Hr. induction Hk as [|d ds [x Hx] Hds IH]; [reflexivity|].
  cbn [News.updateFirst hasId existsb ids map].
  rewrite (matches_key d x i Hx), Hx. cbn [js_eqb].
  destruct (String.eqb x i) eqn:Ex; cbn [orb].
  - apply String.eqb_eq in Ex. subst x. split; [reflexivity|].
    cbn [ids map]. rewrite (updateDoc_key r t d i Hr).
    split; [reflexivity|].
    constructor; [|exact Hds]. exists i. apply updateDoc_key, Hr.
  - fold (hasId i ds).
    destruct (News.updateFirst _ r t ds) as [[ds' m]|]; [|exact IH].
    destruct IH as (Hh & Hids & Hk'). split; [exact Hh|].
    cbn [ids map]. fold (ids ds') (ids ds). rewrite Hids, Hx.
    split; [reflexivity|].
    constructor; [exists x; exact Hx|exact Hk'].
Qed.

Lemma applyOp_upsert t docs w r i :
  Forall wellKeyed docs ->
  fget "articleId" r = JStr i ->
  let acc := News.applyOp t (docs, w) (News.upsertOp r) in
  Forall wellKeyed acc.1
  /\ ids acc.1 = (if hasId i docs then ids docs else ids docs ++ [JStr i])
  /\ upsertedCount acc.2
     = upsertedCount w + (if hasId i docs then 0 else 1).
Proof.
  intros Hk Hr. unfold News.applyOp, News.upsertOp. cbn [op_filter op_set op_upsert fst snd].
  rewrite Hr. pose proof (updateFirst_key t r i docs Hk Hr) as Hu.
  destruct (News.updateFirst _ r t docs) as [[docs' m]|].
  - destruct Hu as (Hh & Hids & Hk'). rewrite Hh. cbn [fst snd upsertedCount].
    split; [exact Hk'|]. split; [exact Hids|]. lia.
  - rewrite Hu. cbn [fst snd upsertedCount]. split.
    + apply Forall_app. split; [exact Hk|]. constructor; [|constructor].
      exists i. apply insertDoc_key, Hr.
    + split; [|reflexivity]. unfold ids. rewrite map_app. simpl.
      rewrite (insertDoc_key _ r t i Hr). reflexivity.
Qed.

Lemma ids_length docs : length (ids docs) = length docs.
Proof. apply length_map. Qed.

(** A whole batch: the schema invariant is kept, keys are only added, every
    record of the batch has its key in the collection afterwards, and
    [upsertedCount] is the number of documents added. *)
Lemma fold_applyOp t articles : forall docs w,
  Forall wellKeyed docs ->
  Forall wellKeyed articles ->
  let acc := fold_left (News.applyOp t) (map News.upsertOp articles) (docs, w) in
  Forall wellKeyed acc.1
  /\ (NoDup (ids docs) -> NoDup (ids acc.1))
  /\ (forall x, In x (ids docs) -> In x (ids acc.1))
  /\ (forall r, In r articles -> In (fget "articleId" r) (ids acc.1))
  /\ upsertedCount acc.2
     = upsertedCount w + Z.of_nat (length acc.1) - Z.of_nat (length docs)
  /\ (length docs <= length acc.1)%nat.
Proof.
  induction articles as [|r rest IH]; intros docs w Hk Ha; cbn [map fold_left].
  - cbn [fst snd]. repeat split; try tauto; try lia. intros r [].
  - inversion Ha as [|? ? [i Hi] Hrest]; subst.
    pose proof (applyOp_upsert t docs w r i Hk Hi) as (Hk1 & Hids1 & Hup1).
    destruct (News.applyOp t (docs, w) (News.upsertOp r)) as [docs1 w1].
    cbn [fst snd] in Hk1, Hids1, Hup1.
    specialize (IH docs1 w1 Hk1 Hrest).
    destruct IH as (Hk2 & Hnd2 & Hmono2 & Hin2 & Hup2 & Hlen2).
    assert (Hmono1 : forall x, In x (ids docs) -> In x (ids docs1)).
    { intros x Hx. rewrite Hids1. destruct (hasId i docs); [exact Hx|].
      apply in_or_app. left. exact Hx. }
    assert (Hin1 : In (JStr i) (ids docs1)).
    { rewrite Hids1. destruct (hasId i docs) eqn:Eh.
      - apply hasId_In; assumption.
      - apply in_or_app. right. left. reflexivity. }
    assert (Hlen1 : Z.of_nat (length docs1)
                    = Z.of_nat (length docs) + (if hasId i docs then 0 else 1)).
    { rewrite <- (ids_length docs1), Hids1. destruct (hasId i docs).
      - rewrite ids_length. lia.
      - rewrite length_app, ids_length. simpl. lia. }
    split; [exact Hk2|]. split.
    { intros Hnd. apply Hnd2. rewrite Hids1. destruct (hasId i docs) eqn:Eh;
        [exact Hnd|].
      apply NoDup_app. split; [exact Hnd|]. split.
      - intros x Hx Hx'. apply list_elem_of_In in Hx, Hx'.
        destruct Hx' as [<-|[]].
        exact (hasId_false i docs Hk Eh Hx).
      - apply NoDup_singleton. }
    split; [intros x Hx; apply Hmono2, Hmono1, Hx|]. split.
    { intros r' [<-|Hr']; [rewrite Hi; apply Hmono2, Hin1|apply Hin2, Hr']. }
    split; [rewrite Hup2, Hup1; lia|].
    destruct (hasId i docs); lia.
Qed.

Lemma countId_absent i docs :
  Forall wellKeyed docs -> ~ In (JStr i) (ids docs) -> countId i docs = 0%nat.
Proof.
  induction 1 as [|d ds [x Hx] _ IH]; [reflexivity|].
  unfold countId in *. cbn [List.filter ids map]. rewrite Hx. cbn [js_eqb].
  intros Hnot. destruct (String.eqb x i) eqn:Ex.
  - apply String.eqb_eq in Ex. subst x. elim Hnot. left. reflexivity.
  - apply IH. intros Hin. apply Hnot. right. exact Hin.
Qed.

Lemma countId_unique i docs :
  uniqueIds docs -> In (JStr i) (ids docs) -> countId i docs = 1%nat.
Proof.
  intros [Hk Hnd]. induction Hk as [|d ds [x Hx] Hds IH]; [intros []|].
  cbn [ids map] in Hnd. rewrite Hx in Hnd.
  apply NoDup_cons in Hnd as [Hnotin Hnd]. rewrite list_elem_of_In in Hnotin.
  unfold countId in *. cbn [List.filter ids map]. rewrite Hx. cbn [js_eqb].
  intros [Heq|Hin].
  - injection Heq as ->. rewrite String.eqb_refl. cbn [length]. f_equal.
    apply (countId_absent i ds Hds Hnotin).
  - destruct (String.eqb x i) eqn:Ex.
    + apply String.eqb_eq in Ex. subst x. contradiction.
    + apply IH; assumption.
Qed.

Lemma set_news_articles_same s : set_news_articles (news_articles s) s = s.
Proof. destruct s; reflexivity. Qed.

Lemma insertDoc_matches r t i :
  fget "articleId" r = JStr i ->
  News.matches [("articleId", JStr i)]
    (News.insertDoc [("articleId", JStr i)] r t) = true.
Proof.
  intros Hr. rewrite (matches_key _ i i); [apply String.eqb_refl|].
  apply insertDoc_key, Hr.
Qed.

Lemma updateFirst_find t r i docs :
  fget "articleId" r = JStr i ->
  match News.updateFirst [("articleId", JStr i)] r t docs with
  | Some (docs', _) =>
      exists d, findById i docs = Some d
                /\ findById i docs' = Some (News.updateDoc r t d)
  | None => findById i docs = None
  end.
Proof.
  intros Hr. unfold findById.
  induction docs as [|d ds IH]; [reflexivity|].
  cbn [News.updateFirst List.find].
  destruct (News.matches [("articleId", JStr i)] d) eqn:Em.
  - exists d. split; [reflexivity|]. cbn [List.find].
    rewrite (matches_key _ i i (updateDoc_key r t d i Hr)), String.eqb_refl.
    reflexivity.
  - destruct (News.updateFirst _ r t ds) as [[ds' m]|]; [|exact IH].
    destruct IH as (d0 & Hf & Hf'). exists d0. split; [exact Hf|].
    cbn [List.find]. rewrite Em. exact Hf'.
Qed.

Lemma find_app_None {A} (p : A -> bool) l x :
  List.find p l = None -> p x = true -> List.find p (l ++ [x]) = Some x.
Proof.
  induction l as [|y l IH]; simpl; intros Hf Hx.
  - rewrite Hx. reflexivity.
  - destruct (p y); [discriminate|]. apply IH; assumption.
Qed.

(** One keyed upsert of a record as the cast left it: the record stored
    under its key carries its fields, and keeps the others of the record it
    replaces. *)
Lemma applyOp_upsertLeaves t docs w r' key :
  fget "articleId" r' = JStr key ->
  fhas "updatedAt" r' = false ->
  exists d,
    findById key (News.applyOp t (docs, w) (News.upsertOp r')).1 = Some d
    /\ upsertLeaves r' (findById key docs) d.
Proof.
  intros Hr Hu. unfold News.applyOp, News.upsertOp.
  cbn [op_filter op_set op_upsert fst snd]. rewrite Hr.
  pose proof (updateFirst_find t r' key docs Hr) as Hf.
  destruct (News.updateFirst _ r' t docs) as [[docs' m]|].
  - destruct Hf as (d0 & Hd0 & Hd'). exists (News.updateDoc r' t d0).
    cbn [fst]. split; [exact Hd'|]. rewrite Hd0. unfold News.updateDoc. split.
    + intros k Hk. rewrite fget_fset.
      destruct (String.eqb "updatedAt" k) eqn:Ek.
      * apply String.eqb_eq in Ek. subst k. congruence.
      * rewrite fget_assign, Hk. reflexivity.
    + intros d1 k [= <-] Hk Hne. rewrite fget_fset.
      destruct (String.eqb "updatedAt" k) eqn:Ek.
      * apply String.eqb_eq in Ek. congruence.
      * rewrite fget_assign, Hk. reflexivity.
  - rewrite Hf. cbn [fst]. eexists. split.
    + apply find_app_None; [exact Hf|apply insertDoc_matches, Hr].
    + split.
      * intros k Hk. unfold News.insertDoc. rewrite fget_assign, Hk.
        reflexivity.
      * intros d0 k Hd0. discriminate.
Qed.

(** ** The cast *)

Section CastFacts.
Context {E : Env}.

Lemma castObject_fhas cast o : forall o' k,
  News.castObject cast o = Some o' -> fhas k o = false -> fhas k o' = false.
Proof.
  induction o as [|[k0 v0] o IH]; intros o' k; cbn [News.castObject fhas].
  - intros [= <-] _. reflexivity.
  - intros Hc Hh. apply orb_false_iff in Hh as [Hk Hh].
    destruct (cast k0 v0).
    + destruct (News.castObject cast o) as [o1|]; [|discriminate].
      cbn in Hc. injection Hc as <-. cbn [fhas]. rewrite Hk.
      apply (IH o1 k eq_refl Hh).
    + apply (IH o' k Hc Hh).
    + discriminate.
Qed.

Lemma castUpdate_fhas r r' k :
  News.castUpdate r = Some r' -> fhas k r = false -> fhas k r' = false.
Proof. apply castObject_fhas. Qed.

Lemma castSet_articleId i :
  News.castSet "articleId" (JStr i) = News.Stored (JStr (storedId i)).
Proof. reflexivity. Qed.

(** The cast keeps the key a string: it trims it. *)
Lemma castUpdate_key r : forall r' i,
  fget "articleId" r = JStr i ->
  News.castUpdate r = Some r' ->
  fget "articleId" r' = JStr (storedId i).
Proof.
  unfold News.castUpdate.
  induction r as [|[k0 v0] r IH]; intros r' i; cbn [News.castObject fget];
    [discriminate|].
  destruct (String.eqb k0 "articleId") eqn:Ek.
  - apply String.eqb_eq in Ek. subst k0. intros ->.
    rewrite castSet_articleId.
    destruct (News.castObject News.castSet r) as [o1|]; [|discriminate].
    cbn. intros [= <-]. reflexivity.
  - intros Hi. destruct (News.castSet k0 v0).
    + destruct (News.castObject News.castSet r) as [o1|] eqn:Eo;
        [|discriminate].
      cbn. intros [= <-]. cbn [fget]. rewrite Ek. apply (IH o1 i Hi eq_refl).
    + apply IH, Hi.
    + discriminate.
Qed.

(** [timestamps] keeps [updatedAt] to the store. *)
Lemma castUpdate_updatedAt r : forall r',
  News.castUpdate r = Some r' -> fhas "updatedAt" r' = false.
Proof.
  unfold News.castUpdate.
  induction r as [|[k0 v0] r IH]; intros r'; cbn [News.castObject].
  - intros [= <-]. reflexivity.
  - destruct (News.castSet k0 v0) eqn:Ec.
    + destruct (News.castObject News.castSet r) as [o1|]; [|discriminate].
      cbn. intros [= <-]. cbn [fhas]. rewrite (IH o1 eq_refl), orb_false_r.
      destruct (String.eqb k0 "updatedAt") eqn:Ek; [|reflexivity].
      apply String.eqb_eq in Ek. subst k0. discriminate.
    + apply IH.
    + discriminate.
Qed.

Lemma castFilter_key i :
  News.castFilter [("articleId", JStr i)]
  = Some [("articleId", JStr (storedId i))].
Proof. reflexivity. Qed.

(** The cast of a keyed upsert is the keyed upsert of the cast record. *)
Lemma castOp_upsertOp r i :
  fget "articleId" r = JStr i ->
  News.castOp (News.upsertOp r) = News.upsertOp <$> News.castUpdate r.
Proof.
  intros Hr. unfold News.castOp, News.upsertOp.
  cbn [op_filter op_set op_upsert]. rewrite Hr, castFilter_key.
  destruct (News.castUpdate r) as [r'|] eqn:Er; [|reflexivity].
  cbn. rewrite (castUpdate_key r r' i Hr Er). reflexivity.
Qed.

Lemma castOp_rejected r :
  News.castUpdate r = None -> News.castOp (News.upsertOp r) = None.
Proof.
  intros Hr. unfold News.castOp. cbn [News.upsertOp op_set]. rewrite Hr.
  destruct (News.castFilter _); reflexivity.
Qed.

Lemma validOps_accepted articles :
  Forall wellKeyed articles ->
  validOps articles = map News.upsertOp (accepted articles).
Proof.
  unfold validOps, accepted.
  induction 1 as [|r l [i Hi] _ IH]; [reflexivity|].
  cbn [map omap list_omap]. rewrite (castOp_upsertOp r i Hi), IH.
  destruct (News.castUpdate r); reflexivity.
Qed.

Lemma accepted_wellKeyed articles :
  Forall wellKeyed articles -> Forall wellKeyed (accepted articles).
Proof.
  unfold accepted. induction 1 as [|r l [i Hi] _ IH]; [constructor|].
  cbn [omap list_omap]. destruct (News.castUpdate r) as [r'|] eqn:Er;
    [|exact IH].
  constructor; [|exact IH]. exists (storedId i).
  apply (castUpdate_key r r' i Hi Er).
Qed.

Lemma accepted_In r' articles :
  In r' (accepted articles)
  <-> exists r, In r articles /\ News.castUpdate r = Some r'.
Proof.
  unfold accepted. rewrite <- list_elem_of_In, list_elem_of_omap.
  split; intros (r & Hr & Hc); exists r; split; try exact Hc;
    apply list_elem_of_In, Hr.
Qed.

Lemma validOps_one r r' i :
  fget "articleId" r = JStr i ->
  News.castUpdate r = Some r' ->
  validOps [r] = [News.upsertOp r'].
Proof.
  intros Hr Hc. unfold validOps. cbn [map omap list_omap].
  rewrite (castOp_upsertOp r i Hr), Hc. reflexivity.
Qed.

Lemma validOps_none r : News.castUpdate r = None -> validOps [r] = [].
Proof.
  intros Hc. unfold validOps. cbn [map omap list_omap].
  rewrite (castOp_rejected r Hc). reflexivity.
Qed.

(** ** Saving a batch *)

Lemma bulkWrite_run articles s :
  run (News.bulkWrite (map News.upsertOp articles)) s =
  if writeThrows articles s then (Throw notConnected, s)
  else
    (Ok (writeAll (now s) articles (news_articles s)).2,
     set_news_articles (writeAll (now s) articles (news_articles s)).1 s).
Proof.
  unfold News.bulkWrite, writeThrows, asksStore, writeAll.
  fold (validOps articles).
  destruct (length (validOps articles) =? 0)%nat eqn:El; cbn [negb andb].
  - apply Nat.eqb_eq, length_zero_iff_nil in El. rewrite El. run_simpl.
    cbn [fold_left fst snd]. rewrite set_news_articles_same. reflexivity.
  - unfold News.connected. run_simpl. destruct (dbUp s); run_simpl;
      reflexivity.
Qed.

Lemma writeThrows_nil s : writeThrows [] s = false.
Proof. reflexivity. Qed.

Lemma writeThrows_up articles s : dbUp s = true -> writeThrows articles s = false.
Proof. intros Hup. unfold writeThrows. rewrite Hup. apply andb_false_r. Qed.

Lemma writeAll_nil t docs : writeAll t [] docs = (docs, News.noWrites).
Proof. reflexivity. Qed.

Lemma saveArticlesToDB_run articles s :
  run (NewsFetchScheduler.saveArticlesToDB articles) s =
  if writeThrows articles s then (Throw notConnected, s)
  else
    (Ok {| saved := upsertedCount
                      (writeAll (now s) articles (news_articles s)).2;
           updated := modifiedCount
                        (writeAll (now s) articles (news_articles s)).2 |},
     set_news_articles (writeAll (now s) articles (news_articles s)).1 s).
Proof.
  unfold NewsFetchScheduler.saveArticlesToDB.
  destruct articles as [|a l].
  - cbn [length Nat.eqb]. rewrite writeThrows_nil, writeAll_nil. run_simpl.
    cbn [fst snd]. rewrite set_news_articles_same. reflexivity.
  - cbn [length Nat.eqb]. unfold Logger.error. run_simpl.
    rewrite bulkWrite_run.
    destruct (writeThrows (a :: l) s); run_simpl; reflexivity.
Qed.

Lemma bulkUpsert_run articles s :
  run (News.bulkUpsert articles) s =
  if writeThrows articles s then (Throw notConnected, s)
  else
    (Ok {| success := upsertedCount
                        (writeAll (now s) articles (news_articles s)).2
                      + modifiedCount
                          (writeAll (now s) articles (news_articles s)).2;
           upserted := upsertedCount
                         (writeAll (now s) articles (news_articles s)).2;
           modified := modifiedCount
                         (writeAll (now s) articles (news_articles s)).2;
           errors := 0 |},
     set_news_articles (writeAll (now s) articles (news_articles s)).1 s).
Proof.
  unfold News.bulkUpsert.
  destruct articles as [|a l].
  - cbn [length Nat.eqb]. rewrite writeThrows_nil, writeAll_nil. run_simpl.
    cbn [fst snd]. rewrite set_news_articles_same. reflexivity.
  - cbn [length Nat.eqb]. run_simpl. rewrite bulkWrite_run.
    destruct (writeThrows (a :: l) s); run_simpl; reflexivity.
Qed.

Lemma unified_save_run articles s :
  run (UnifiedNewsService.saveArticlesToDB articles) s =
  if writeThrows articles s then (Throw notConnected, s)
  else
    (Ok (if (length articles =? 0)%nat
         then [("saved", JNum 0); ("skipped", JNum 0)]
         else
           [("saved",
              JNum (upsertedCount
                      (writeAll (now s) articles (news_articles s)).2));
            ("updated",
              JNum (modifiedCount
                      (writeAll (now s) articles (news_articles s)).2));
            ("skipped",
              JNum (Z.of_nat (length articles)
                    - upsertedCount
                        (writeAll (now s) articles (news_articles s)).2
                    - modifiedCount
                        (writeAll (now s) articles (news_articles s)).2))]),
     set_news_articles (writeAll (now s) articles (news_articles s)).1 s).
Proof.
  unfold UnifiedNewsService.saveArticlesToDB.
  destruct articles as [|a l].
  - cbn [length Nat.eqb]. rewrite writeThrows_nil, writeAll_nil. run_simpl.
    cbn [fst snd]. rewrite set_news_articles_same. reflexivity.
  - cbn [length Nat.eqb]. unfold Logger.info, Logger.error. run_simpl.
    rewrite bulkWrite_run.
    destruct (writeThrows (a :: l) s); run_simpl; reflexivity.
Qed.

Lemma scheduler_save_writesThrough :
  writesThrough NewsFetchScheduler.saveArticlesToDB.
Proof.
  intros articles s Hne Hup.
  rewrite final_run, saveArticlesToDB_run, (writeThrows_up _ _ Hup).
  reflexivity.
Qed.

Lemma bulkUpsert_writesThrough : writesThrough News.bulkUpsert.
Proof.
  intros articles s Hne Hup.
  rewrite final_run, bulkUpsert_run, (writeThrows_up _ _ Hup). reflexivity.
Qed.

Lemma unified_save_writesThrough :
  writesThrough UnifiedNewsService.saveArticlesToDB.
Proof.
  intros articles s Hne Hup.
  rewrite final_run, unified_save_run, (writeThrows_up _ _ Hup). reflexivity.
Qed.

(** ** One record, committed again and again *)

Lemma upsertLeaves_trans r' old d1 d2 :
  upsertLeaves r' old d1 -> upsertLeaves r' (Some d1) d2 ->
  upsertLeaves r' old d2.
Proof.
  intros [_ H1] [Hr2 H2]. split; [exact Hr2|].
  intros d0 k Hold Hk Hne. rewrite (H2 d1 k eq_refl Hk Hne).
  apply (H1 d0 k Hold Hk Hne).
Qed.

(** One commit of a record the cast accepts. *)
Lemma commit_once t r r' i docs :
  uniqueIds docs ->
  fget "articleId" r = JStr i ->
  News.castUpdate r = Some r' ->
  uniqueIds (writeAll t [r] docs).1
  /\ In (JStr (storedId i)) (ids (writeAll t [r] docs).1)
  /\ length (writeAll t [r] docs).1
     = (length docs + (if hasId (storedId i) docs then 0 else 1))%nat
  /\ exists d,
       findById (storedId i) (writeAll t [r] docs).1 = Some d
       /\ upsertLeaves r' (findById (storedId i) docs) d.
Proof.
  intros [Hk Hnd] Hr Hc. unfold writeAll.
  rewrite (validOps_one r r' i Hr Hc). cbn [fold_left].
  pose proof (castUpdate_key r r' i Hr Hc) as Hr'.
  pose proof (applyOp_upsert t docs News.noWrites r' (storedId i) Hk Hr')
    as (Hk1 & Hids1 & _).
  destruct (applyOp_upsertLeaves t docs News.noWrites r' (storedId i) Hr'
              (castUpdate_updatedAt r r' Hc)) as (d & Hd & Hleaves).
  cbn zeta in Hk1, Hids1.
  split; [split; [exact Hk1|]|].
  { rewrite Hids1. destruct (hasId (storedId i) docs) eqn:Eh; [exact Hnd|].
    apply NoDup_app. split; [exact Hnd|]. split.
    - intros x Hx Hx'. apply list_elem_of_In in Hx, Hx'.
      destruct Hx' as [<-|[]]. exact (hasId_false _ docs Hk Eh Hx).
    - apply NoDup_singleton. }
  split.
  { rewrite Hids1. destruct (hasId (storedId i) docs) eqn:Eh.
    - apply hasId_In; assumption.
    - apply in_or_app. right. left. reflexivity. }
  split.
  { rewrite <- (ids_length (News.applyOp _ _ _).1), Hids1.
    destruct (hasId (storedId i) docs).
    - rewrite ids_length. lia.
    - rewrite length_app, ids_length. cbn [length]. lia. }
  exists d. split; assumption.
Qed.

(** One commit of a record the cast rejects. *)
Lemma commit_rejected t r docs :
  News.castUpdate r = None -> (writeAll t [r] docs).1 = docs.
Proof.
  intros Hc. unfold writeAll. rewrite (validOps_none r Hc). reflexivity.
Qed.

Lemma commits_once {A} (save : list Obj -> M A) r r' i :
  writesThrough save ->
  fget "articleId" r = JStr i ->
  News.castUpdate r = Some r' ->
  forall times s,
    uniqueIds (news_articles s) -> dbUp s = true -> times <> [] ->
    uniqueIds (news_articles (commits save r times s))
    /\ countId (storedId i) (news_articles (commits save r times s)) = 1%nat
    /\ length (news_articles (commits save r times s))
       = (length (news_articles s)
          + (if hasId (storedId i) (news_articles s) then 0 else 1))%nat
    /\ exists d,
         findById (storedId i) (news_articles (commits save r times s))
         = Some d
         /\ upsertLeaves r' (findById (storedId i) (news_articles s)) d.
Proof.
  intros Hsave Hr Hc. induction times as [|t times IH]; intros s Hu Hup Hne;
    [congruence|].
  cbn [commits].
  assert (Hfin : final (save [r]) (set_now t s)
                 = set_news_articles
                     (writeAll t [r] (news_articles s)).1 (set_now t s)).
  { apply (Hsave [r] (set_now t s)); [discriminate|exact Hup]. }
  rewrite Hfin.
  destruct (commit_once t r r' i (news_articles s) Hu Hr Hc)
    as (Hu1 & Hin1 & Hlen1 & d1 & Hd1 & Hl1).
  set (s1 := set_news_articles _ (set_now t s)).
  destruct times as [|t' times'].
  - cbn [commits]. split; [exact Hu1|].
    split; [apply countId_unique; assumption|].
    split; [exact Hlen1|]. exists d1. split; assumption.
  - destruct (IH s1 Hu1 Hup) as (Hu2 & Hc2 & Hlen2 & d2 & Hd2 & Hl2);
      [discriminate|].
    split; [exact Hu2|]. split; [exact Hc2|]. split.
    { rewrite Hlen2. subst s1. cbn [news_articles set_news_articles].
      destruct Hu1 as [Hk1 _].
      rewrite (proj2 (hasId_In (storedId i) _ Hk1) Hin1), Hlen1. lia. }
    exists d2. split; [exact Hd2|].
    subst s1. cbn [news_articles set_news_articles] in Hl2.
    rewrite Hd1 in Hl2. eapply upsertLeaves_trans; eassumption.
Qed.

Lemma commits_rejected {A} (save : list Obj -> M A) r :
  writesThrough save ->
  News.castUpdate r = None ->
  forall times s,
    dbUp s = true ->
    news_articles (commits save r times s) = news_articles s.
Proof.
  intros Hsave Hc. induction times as [|t times IH]; intros s Hup;
    [reflexivity|].
  cbn [commits].
  rewrite (Hsave [r] (set_now t s)); [|discriminate|exact Hup].
  rewrite IH; [|exact Hup]. cbn [news_articles set_news_articles set_now].
  apply commit_rejected, Hc.
Qed.

Lemma committedOnce_holds {A} (save : list Obj -> M A) r i times s :
  writesThrough save ->
  uniqueIds (news_articles s) ->
  dbUp s = true ->
  fget "articleId" r = JStr i ->
  times <> [] ->
  committedOnce save r i times s.
Proof.
  intros Hsave Hu Hup Hr Hne. unfold committedOnce.
  destruct (News.castUpdate r) as [r'|] eqn:Hc.
  - destruct (commits_once save r r' i Hsave Hr Hc times s Hu Hup Hne)
      as (_ & Hcount & Hlen & Hd).
    split; [exact Hcount|]. split; [exact Hlen|exact Hd].
  - apply (commits_rejected save r Hsave Hc times s Hup).
Qed.

(** C1, as the code has it. Under the schema of the collection
    ([articleId] a string under a unique index), committing a record [r]
    through the bulk upsert of the ingestion path [N >= 1] times, at any
    times, to a store that can be reached: when the cast of the schema
    accepts [r], it leaves exactly one stored record under [r]'s
    [articleId] as stored (trimmed); the collection has grown by that one
    record when the key was new and not at all when it was stored, and the
    record carries every field of [r] as cast, the other fields being those
    of the record it replaces (updated in place). When the cast rejects [r],
    the collection stays as it was. This holds for the scheduler's
    [saveArticlesToDB], for [News.bulkUpsert] and for the read service's
    [saveArticlesToDB]. *)
Theorem upsert_idempotent (s : State) (r : Obj) (i : string) (times : list Z) :
  uniqueIds (news_articles s) ->
  dbUp s = true ->
  fget "articleId" r = JStr i ->
  (1 <= length times)%nat ->
  committedOnce NewsFetchScheduler.saveArticlesToDB r i times s
  /\ committedOnce News.bulkUpsert r i times s
  /\ committedOnce UnifiedNewsService.saveArticlesToDB r i times s.
Proof.
  intros Hu Hup Hr Hn.
  assert (Hne : times <> []) by (destruct times; [simpl in Hn; lia|discriminate]).
  repeat split.
  - apply committedOnce_holds; auto using scheduler_save_writesThrough.
  - apply committedOnce_holds; auto using bulkUpsert_writesThrough.
  - apply committedOnce_holds; auto using unified_save_writesThrough.
Qed.

(** ** [fetchedAt] *)

(** One keyed upsert of a record that carries no [fetchedAt] of its own:
    the stored record keeps the [fetchedAt] it had, and gets the time of
    the write only when it is inserted. *)
Lemma writeAll_fetchedAt t r r' i docs :
  fget "articleId" r = JStr i ->
  News.castUpdate r = Some r' ->
  fhas "fetchedAt" r = false ->
  exists d',
    findById (storedId i) (writeAll t [r] docs).1 = Some d'
    /\ fget "fetchedAt" d'
       = match findById (storedId i) docs with
         | Some d => fget "fetchedAt" d
         | None => JDate (Some t)
         end.
Proof.
  intros Hr Hc Hf. unfold writeAll. rewrite (validOps_one r r' i Hr Hc).
  cbn [fold_left].
  pose proof (castUpdate_key r r' i Hr Hc) as Hr'.
  pose proof (castUpdate_fhas r r' "fetchedAt" Hc Hf) as Hf'.
  unfold News.applyOp, News.upsertOp. cbn [op_filter op_set op_upsert fst snd].
  rewrite Hr'. pose proof (updateFirst_find t r' (storedId i) docs Hr') as Hu.
  destruct (News.updateFirst _ r' t docs) as [[docs' m]|].
  - destruct Hu as (d & Hd & Hd'). exists (News.updateDoc r' t d).
    cbn [fst]. split; [exact Hd'|]. rewrite Hd.
    unfold News.updateDoc. rewrite fget_fset. cbn.
    rewrite fget_assign, Hf'. reflexivity.
  - rewrite Hu. cbn [fst]. eexists. split.
    + apply find_app_None; [exact Hu|apply insertDoc_matches, Hr'].
    + unfold News.insertDoc. rewrite fget_assign, Hf'.
      cbn [assign fold_right fst snd]. rewrite fget_fset. reflexivity.
Qed.

(** C9, as the code has it. The ingestion path never writes [fetchedAt]
    itself: after an upsert of a record (which carries no [fetchedAt]) that
    the cast of the schema accepts, the stored record of its [articleId]
    has the time of the write as its [fetchedAt] when the upsert inserted
    it (the schema default), and keeps the [fetchedAt] it had when the
    upsert updated it; a record the cast rejects is not committed and
    leaves the collection, and so every [fetchedAt], as it was. This holds
    for the scheduler's and for the read service's [saveArticlesToDB]. *)
Theorem fetchedAt_set_on_insert_only (s : State) (r : Obj) (i : string) :
  dbUp s = true ->
  fget "articleId" r = JStr i ->
  fhas "fetchedAt" r = false ->
  let earlier :=
    match findById (storedId i) (news_articles s) with
    | Some d => fget "fetchedAt" d
    | None => JDate (Some (now s))
    end in
  let s1 := final (NewsFetchScheduler.saveArticlesToDB [r]) s in
  let s2 := final (UnifiedNewsService.saveArticlesToDB [r]) s in
  match News.castUpdate r with
  | Some _ =>
      (exists d',
          findById (storedId i) (news_articles s1) = Some d'
          /\ fget "fetchedAt" d' = earlier)
      /\ (exists d',
            findById (storedId i) (news_articles s2) = Some d'
            /\ fget "fetchedAt" d' = earlier)
  | None =>
      news_articles s1 = news_articles s /\ news_articles s2 = news_articles s
  end.
Proof.
  intros Hup Hr Hf earlier s1 s2. subst s1 s2.
  rewrite scheduler_save_writesThrough; [|discriminate|exact Hup].
  rewrite unified_save_writesThrough; [|discriminate|exact Hup].
  cbn [news_articles set_news_articles].
  destruct (News.castUpdate r) as [r'|] eqn:Hc.
  - split; eapply writeAll_fetchedAt; eassumption.
  - split; apply commit_rejected, Hc.
Qed.
End CastFacts.

Lemma storedB_uniqueIds : uniqueIds [storedB].
Proof.
  split.
  - constructor; [eexists; reflexivity|constructor].
  - apply NoDup_singleton.
Qed.

Lemma upsert_idempotent_witness :
  let s := stateWith [storedB; fset "title" (JStr "Two") recordB] quietAxios in
  let times := [1714560000000; 1714570000000; 1714580000000] in
  let docs' :=
    news_articles
      (commits (@NewsFetchScheduler.saveArticlesToDB testEnv) recordB times s) in
  countId "newsapi_https://b.example/1" docs' = 1%nat
  /\ length docs' = 2%nat
  /\ exists d,
       findById "newsapi_https://b.example/1" docs' = Some d
       /\ fget "title" d = JStr "Three".
Proof.
  intros s times docs'.
  assert (Hu : uniqueIds (news_articles s)).
  { split.
    - constructor; [eexists; reflexivity|].
      constructor; [eexists; reflexivity|constructor].
    - cbn. apply NoDup_cons. split; [|apply NoDup_singleton].
      intros Hin. apply list_elem_of_In in Hin. destruct Hin as [Hin|[]].
      discriminate Hin. }
  destruct (@upsert_idempotent testEnv s recordB "newsapi_https://b.example/1"
              times Hu eq_refl eq_refl) as (Hc & _).
  { simpl. lia. }
  unfold committedOnce in Hc. cbv zeta in Hc.
  change (@News.castUpdate testEnv recordB) with (Some recordB) in Hc.
  destruct Hc as (Hcount & Hlen & d & Hd & Hcarries & _).
  split; [exact Hcount|]. split; [exact Hlen|].
  exists d. split; [exact Hd|]. apply (Hcarries "title"). reflexivity.
Defined.

(** C1 as stated fails on a normalized record that the cast of the schema
    rejects: the record of a NewsAPI.org article whose [publishedAt] does
    not parse carries an Invalid Date, every commit of it is left out of the
    bulk write, and after three commits the store holds no record with its
    [articleId]. *)
Lemma invalid_date_record_is_not_stored :
  let s := stateWith [] quietAxios in
  let times := [1714560000000; 1714570000000; 1714580000000] in
  exists r,
    @normalizeNewsApiOrgArticle testEnv undated (JArr []) (JArr []) = Ok r
    /\ fget "articleId" r = JStr "newsapi_https://b.example/8"
    /\ fget "publishedAt" r = JDate None
    /\ countId "newsapi_https://b.example/8"
         (news_articles
            (commits (@NewsFetchScheduler.saveArticlesToDB testEnv) r times s))
       = 0%nat
    /\ countId "newsapi_https://b.example/8"
         (news_articles (commits (@News.bulkUpsert testEnv) r times s))
       = 0%nat
    /\ countId "newsapi_https://b.example/8"
         (news_articles
            (commits (@UnifiedNewsService.saveArticlesToDB testEnv) r times s))
       = 0%nat.
Proof.
  intros s times. eexists. split; [reflexivity|].
  split; [reflexivity|]. split; [reflexivity|].
  split; [vm_compute; reflexivity|]. split; vm_compute; reflexivity.
Qed.

Lemma fetchedAt_set_on_insert_only_witness :
  let s := set_now 1714570000000 (stateWith [storedB] quietAxios) in
  exists d',
    findById "newsapi_https://b.example/0"
      (news_articles
         (final (@NewsFetchScheduler.saveArticlesToDB testEnv
                   [fset "articleId" (JStr "newsapi_https://b.example/0")
                      recordB]) s))
    = Some d'
    /\ fget "fetchedAt" d' = JDate (Some 1714470000000).
Proof.
  intros s.
  pose proof (@fetchedAt_set_on_insert_only testEnv s
                (fset "articleId" (JStr "newsapi_https://b.example/0") recordB)
                "newsapi_https://b.example/0" eq_refl eq_refl eq_refl) as H.
  cbv zeta in H.
  change (@News.castUpdate testEnv
            (fset "articleId" (JStr "newsapi_https://b.example/0") recordB))
    with (Some (fset "articleId" (JStr "newsapi_https://b.example/0") recordB))
    in H.
  exact (proj1 H).
Defined.

(** C9 as stated fails on the update of an existing [articleId]: the record
    committed at one time and committed again later still has the time of
    the first write as its [fetchedAt]. *)
Lemma fetchedAt_not_touched_on_update :
  let s0 := stateWith [] quietAxios in
  let s1 := final (@NewsFetchScheduler.saveArticlesToDB testEnv [recordB]) s0 in
  let s2 := final (@NewsFetchScheduler.saveArticlesToDB testEnv [recordB])
              (set_now 1714570000000 s1) in
  exists d,
    findById "newsapi_https://b.example/1" (news_articles s2) = Some d
    /\ fget "updatedAt" d = JDate (Some 1714570000000)
    /\ fget "fetchedAt" d = JDate (Some 1714560000000)
    /\ fget "fetchedAt" d <> JDate (Some 1714570000000).
Proof.
  intros s0 s1 s2. eexists. split; [vm_compute; reflexivity|].
  split; [reflexivity|]. split; [reflexivity|]. discriminate.
Qed.

(** ** The slot executor *)

Section Slot.
Context {E : Env}.

(** [getLatestNews] resolves to an object with the keys [success] and
    [data] only, so the [results] that [fetchFromNewsData] reads off it is
    always [undefined]: whatever NewsData.io answers, nothing is delivered. *)
Lemma fetchFromNewsData_run config s :
  run (NewsFetchScheduler.fetchFromNewsData config) s = (Ok [], s).
Proof.
  unfold NewsFetchScheduler.fetchFromNewsData, NewsApiService.getLatestNews,
    axios_request, Logger.error.
  run_simpl. destruct (axios s _); run_simpl; reflexivity.
Qed.

Lemma deliveredA_nil s config : deliveredA s config = [].
Proof.
  unfold deliveredA, delivered. rewrite result_run, fetchFromNewsData_run.
  reflexivity.
Qed.

Lemma fetchFromNewsApiOrg_run config s :
  run (NewsFetchScheduler.fetchFromNewsApiOrg config) s
  = (Ok (deliveredB s config), s).
Proof.
  unfold deliveredB, delivered. rewrite result_run.
  unfold NewsFetchScheduler.fetchFromNewsApiOrg,
    NewsApiOrgService.getTopHeadlines, NewsApiOrgService.makeRequest,
    axios_request, Logger.error.
  run_simpl. destruct (axios s _) as [e|data]; run_simpl; [reflexivity|].
  destruct (truthy (getopt data "articles")); run_simpl; [|reflexivity].
  destruct (arrayMap _ _); run_simpl; reflexivity.
Qed.

Lemma fetchEach_run fetch done (get1 : State -> Obj -> list Obj) configs :
  (forall c s, run (fetch c) s = (Ok (get1 s c), s)) ->
  forall acc s,
    run (NewsFetchScheduler.fetchEach fetch done configs acc) s
    = (Ok (acc ++ flat_map (get1 s) configs), s).
Proof.
  intros Hf. induction configs as [|c cs IH]; intros acc s;
    cbn [NewsFetchScheduler.fetchEach flat_map].
  - run_simpl. rewrite app_nil_r. reflexivity.
  - unfold Logger.info. run_simpl. rewrite Hf. run_simpl. rewrite IH.
    rewrite app_assoc. reflexivity.
Qed.

Lemma flat_map_nil {A B} (f : A -> list B) l :
  (forall x, f x = []) -> flat_map f l = [].
Proof.
  intros Hf. induction l as [|x l IH]; simpl; [reflexivity|].
  rewrite Hf, IH. reflexivity.
Qed.

Lemma slotBatch_B schedule s :
  slotBatch schedule s = flat_map (deliveredB s) (newsApiConfig schedule).
Proof.
  unfold slotBatch. rewrite (flat_map_nil (deliveredA s)); [reflexivity|].
  apply deliveredA_nil.
Qed.

(** The body of a slot execution, case by case. *)
Lemma fetchAndSave_run name schedule s :
  run (NewsFetchScheduler.fetchAndSave (JStr name) schedule) s =
  match slotBatch schedule s with
  | [] => (Ok tt, set_fetchStats (bump_total (fetchStats s)) s)
  | batch =>
      if writeThrows batch s then (Throw notConnected, s)
      else (Ok tt, afterSuccess name batch s)
  end.
Proof.
  unfold NewsFetchScheduler.fetchAndSave, Logger.info, Logger.warn,
    modify_stats.
  run_simpl. rewrite (fetchEach_run _ _ deliveredA);
    [|intros; rewrite deliveredA_nil; apply fetchFromNewsData_run].
  run_simpl. rewrite (fetchEach_run _ _ deliveredB); [|apply fetchFromNewsApiOrg_run].
  run_simpl. cbn [app]. fold (slotBatch schedule s).
  destruct (slotBatch schedule s) as [|a l] eqn:Eb; cbn [length Nat.ltb Nat.leb].
  - run_simpl. reflexivity.
  - run_simpl. rewrite saveArticlesToDB_run.
    destruct (writeThrows (a :: l) s); run_simpl; reflexivity.
Qed.

Lemma executeScheduledFetch_run name schedule s :
  FETCH_SCHEDULE !! name = Some schedule ->
  run (NewsFetchScheduler.executeScheduledFetch (JStr name)) s =
  match slotBatch schedule s with
  | [] => (Ok tt, set_fetchStats (bump_total (fetchStats s)) s)
  | batch =>
      if writeThrows batch s
      then (Ok tt, set_fetchStats (bump_failed (bump_total (fetchStats s))) s)
      else (Ok tt, afterSuccess name batch s)
  end.
Proof.
  intros Hs. unfold NewsFetchScheduler.executeScheduledFetch,
    NewsFetchScheduler.lookupSchedule.
  cbn [template printable str toString]. run_simpl. rewrite Hs.
  unfold Logger.info, Logger.error, modify_stats.
  run_simpl. rewrite fetchAndSave_run.
  destruct (slotBatch schedule s) as [|a l]; [reflexivity|]. cbv zeta.
  destruct (writeThrows (a :: l) s); run_simpl; reflexivity.
Qed.
End Slot.

(** ** Outbound calls *)

Lemma httpCalls_app t1 t2 : httpCalls (t1 ++ t2) = (httpCalls t1 + httpCalls t2)%nat.
Proof. unfold httpCalls. rewrite List.filter_app, length_app. reflexivity. Qed.

Lemma calls_bind {A B} (m : M A) (f : A -> M B) s :
  calls (bind m f) s =
  (calls m s + match run m s with
               | (Ok a, s') => calls (f a) s'
               | (Throw _, _) => 0
               end)%nat.
Proof.
  unfold calls. rewrite trace_bind, httpCalls_app.
  destruct (run m s) as [[a|e] s']; reflexivity.
Qed.

Lemma calls_try_catch {A} (m : M A) (h : JsVal -> M A) s :
  calls (try_catch m h) s =
  (calls m s + match run m s with
               | (Ok _, _) => 0
               | (Throw e, s') => calls (h e) s'
               end)%nat.
Proof.
  unfold calls. rewrite trace_try_catch, httpCalls_app.
  destruct (run m s) as [[a|e] s']; reflexivity.
Qed.

Lemma calls_ret {A} (a : A) s : calls (ret a) s = 0%nat.
Proof. reflexivity. Qed.
Lemma calls_throw {A} e s : calls (@throw A e) s = 0%nat.
Proof. reflexivity. Qed.
Lemma calls_lift {A} (r : Res A) s : calls (lift r) s = 0%nat.
Proof. reflexivity. Qed.
Lemma calls_gets {A} (f : State -> A) s : calls (gets f) s = 0%nat.
Proof. reflexivity. Qed.
Lemma calls_modify f s : calls (modify f) s = 0%nat.
Proof. reflexivity. Qed.
Lemma calls_log l msg s : calls (emit (Log l msg)) s = 0%nat.
Proof. reflexivity. Qed.
Lemma calls_http r s : calls (emit (Http r)) s = 1%nat.
Proof. reflexivity. Qed.

Ltac calls_step :=
  first [ rewrite calls_bind | rewrite calls_try_catch | rewrite calls_ret
        | rewrite calls_throw | rewrite calls_lift | rewrite calls_gets
        | rewrite calls_modify | rewrite calls_log | rewrite calls_http
        | run_step ].

Ltac calls_simpl := repeat (calls_step; cbn [fst snd]).

Section SlotCalls.
Context {E : Env}.




Lemma bulkWrite_calls ops s : calls (News.bulkWrite ops) s = 0%nat.
Proof.
  unfold News.bulkWrite, News.connected.
  destruct (length _ =? 0)%nat; calls_simpl; [reflexivity|].
  destruct (dbUp s); calls_simpl; reflexivity.
Qed.

Lemma saveArticlesToDB_calls articles s :
  calls (NewsFetchScheduler.saveArticlesToDB articles) s = 0%nat.
Proof.
  unfold NewsFetchScheduler.saveArticlesToDB, Logger.error.
  destruct articles as [|a l]; cbn [length Nat.eqb]; calls_simpl;
    [reflexivity|].
  rewrite bulkWrite_calls, bulkWrite_run.
  destruct (writeThrows (a :: l) s); calls_simpl; reflexivity.
Qed.

End SlotCalls.

(** ** What the normalizers deliver *)

Lemma mapRes_Forall {A B} (f : A -> Res B) (P : B -> Prop) l : forall ys,
  (forall x y, f x = Ok y -> P y) ->
  mapRes f l = Ok ys -> Forall P ys.
Proof.
  induction l as [|x l IH]; intros ys Hf; cbn [mapRes].
  - intros [= <-]. constructor.
  - destruct (f x) as [y|e] eqn:Ex; [|discriminate].
    destruct (mapRes f l) as [ys'|e]; [|discriminate].
    intros [= <-]. constructor; [eapply Hf, Ex|apply IH; [exact Hf|reflexivity]].
Qed.

Section Delivered.
Context {E : Env}.

Lemma arrayMap_Forall f (P : Obj -> Prop) v ys :
  (forall x y, f x = Ok y -> P y) ->
  arrayMap f v = Ok ys -> Forall P ys.
Proof.
  intros Hf. destruct v; cbn [arrayMap]; try discriminate.
  apply mapRes_Forall, Hf.
Qed.

Lemma deliveredB_wellKeyed s config : Forall wellKeyed (deliveredB s config).
Proof.
  unfold deliveredB, delivered. rewrite result_run.
  unfold NewsFetchScheduler.fetchFromNewsApiOrg,
    NewsApiOrgService.getTopHeadlines, NewsApiOrgService.makeRequest,
    axios_request, Logger.error.
  run_simpl. destruct (axios s _) as [e|data]; run_simpl; [constructor|].
  destruct (truthy (getopt data "articles")); run_simpl; [|constructor].
  destruct (arrayMap _ _) as [ys|e] eqn:Em; run_simpl; [|constructor].
  revert Em. apply arrayMap_Forall. intros x y Hy. eexists.
  eapply normalizeNewsApiOrgArticle_articleId, Hy.
Qed.

Lemma slotBatch_wellKeyed schedule s : Forall wellKeyed (slotBatch schedule s).
Proof.
  rewrite slotBatch_B. induction (newsApiConfig schedule) as [|c cs IH];
    cbn [flat_map]; [constructor|].
  apply Forall_app. split; [apply deliveredB_wellKeyed|exact IH].
Qed.
End Delivered.



(** ** Accounting of a slot execution *)

Section Accounting.
Context {E : Env}.

Lemma saveArticlesToDB_result articles s :
  result (NewsFetchScheduler.saveArticlesToDB articles) s
  = if writeThrows articles s then Throw notConnected
    else Ok {| saved := upsertedCount
                          (writeAll (now s) articles (news_articles s)).2;
               updated := modifiedCount
                            (writeAll (now s) articles (news_articles s)).2 |}.
Proof.
  rewrite result_run, saveArticlesToDB_run.
  destruct (writeThrows articles s); reflexivity.
Qed.

Lemma writeThrows_iff articles s :
  writeThrows articles s = true
  <-> dbUp s = false /\ validOps articles <> [].
Proof.
  unfold writeThrows, asksStore.
  rewrite andb_true_iff, !negb_true_iff, Nat.eqb_neq, length_zero_iff_nil.
  tauto.
Qed.

(** C7, as the code has it. Every execution of a configured slot returns
    without throwing and increments [totalFetches] by exactly 1. When no
    article was fetched it increments neither [successfulFetches] nor
    [failedFetches] and leaves [lastFetchTimes] as it was. When at least
    one article was fetched, it increments [successfulFetches] by 1 and
    sets [lastFetchTimes] of the slot to the time of the execution exactly
    when [saveArticlesToDB] resolved, and increments [failedFetches] by 1
    exactly when [saveArticlesToDB] threw: which it does exactly when the
    store cannot be reached and at least one record of the batch passes the
    cast of the schema. Successes and failures are counted per slot
    execution. *)
Theorem slot_accounting (s : State) (name : string) (schedule : Schedule) :
  FETCH_SCHEDULE !! name = Some schedule ->
  let m := NewsFetchScheduler.executeScheduledFetch (JStr name) in
  let f := fetchStats s in
  let f' := fetchStats (final m s) in
  result m s = Ok tt
  /\ totalFetches f' = totalFetches f + 1
  /\ match slotBatch schedule s with
     | [] =>
         successfulFetches f' = successfulFetches f
         /\ failedFetches f' = failedFetches f
         /\ lastFetchTimes (final m s) = lastFetchTimes s
     | batch =>
         match result (NewsFetchScheduler.saveArticlesToDB batch) s with
         | Ok _ =>
             successfulFetches f' = successfulFetches f + 1
             /\ failedFetches f' = failedFetches f
             /\ lastFetchTimes (final m s)
                = <[name := JDate (Some (now s))]> (lastFetchTimes s)
         | Throw _ =>
             successfulFetches f' = successfulFetches f
             /\ failedFetches f' = failedFetches f + 1
             /\ lastFetchTimes (final m s) = lastFetchTimes s
         end
     end
  /\ ((exists e,
         result (NewsFetchScheduler.saveArticlesToDB (slotBatch schedule s)) s
         = Throw e)
      <-> dbUp s = false /\ validOps (slotBatch schedule s) <> []).
Proof.
  intros Hs m f f'. subst m f f'.
  rewrite result_run, final_run, (executeScheduledFetch_run name schedule s Hs).
  split; [|split; [|split]].
  - destruct (slotBatch schedule s) as [|a l]; [reflexivity|]. cbv zeta.
    destruct (writeThrows (a :: l) s); reflexivity.
  - destruct (slotBatch schedule s) as [|a l]; [cbn; lia|]. cbv zeta.
    destruct (writeThrows (a :: l) s); cbn; lia.
  - destruct (slotBatch schedule s) as [|a l];
      [cbn; repeat split; reflexivity|].
    cbv zeta. rewrite saveArticlesToDB_result.
    destruct (writeThrows (a :: l) s); cbn; repeat split; reflexivity.
  - rewrite saveArticlesToDB_result, <- writeThrows_iff.
    destruct (writeThrows (slotBatch schedule s) s).
    + split; [reflexivity|]. intros _. eexists. reflexivity.
    + split; [intros [e He]; discriminate|discriminate].
Qed.

End Accounting.

Lemma slot_accounting_witness :
  let s := stateWith [] (failingA [b1]) in
  totalFetches (fetchStats (final execMorning s)) = 1.
Proof.
  intros s.
  destruct (@slot_accounting testEnv s "MORNING" MORNING eq_refl)
    as (_ & Ht & _).
  exact Ht.
Defined.

(** C7 as stated fails when the slot fetches no article: both providers
    answer every parameter set of MORNING with an empty list, the execution
    returns without throwing and commits nothing, [totalFetches] is
    incremented, and neither [successfulFetches] nor [failedFetches] is;
    [lastFetchTimes.MORNING] stays [null]. *)
Lemma empty_slot_counts_neither :
  let s := stateWith [] (serving [] []) in
  let s' := final execMorning s in
  result execMorning s = Ok tt
  /\ news_articles s' = news_articles s
  /\ totalFetches (fetchStats s') = totalFetches (fetchStats s) + 1
  /\ successfulFetches (fetchStats s') = successfulFetches (fetchStats s)
  /\ failedFetches (fetchStats s') = failedFetches (fetchStats s)
  /\ lastFetchTimes s' !! "MORNING" = Some JNull.
Proof. vm_compute. repeat split. Qed.



(** ** The basic-ingestion scenario *)

(** C4 at its own scenario. For MORNING, NewsData.io answers with two
    valid articles and NewsAPI.org with one. The two articles of provider A
    reach [getLatestNews] and would normalize, but [fetchFromNewsData]
    reads [results] off the wrapper and delivers nothing: after the
    execution the store holds one record, not three, and [articlesSaved] has
    grown by 1, not 3; [lastFetchTimes.MORNING] is set. *)
Lemma morning_scenario_drops_provider_a :
  let a1 := nativeA "a1" "https://a.example/1" in
  let a2 := nativeA "a2" "https://a.example/2" in
  let s := stateWith [] (serving [a1; a2] [b1]) in
  let s' := final execMorning s in
  result (@NewsApiService.getLatestNews testEnv (nd "business" "in")) s
  = Ok (JObj [("success", JBool true); ("data", bodyA [a1; a2])])
  /\ (exists r1 r2,
        @normalizeNewsDataArticle testEnv a1 = Ok r1
        /\ @normalizeNewsDataArticle testEnv a2 = Ok r2
        /\ fget "articleId" r1 = JStr "newsdata_a1"
        /\ fget "articleId" r2 = JStr "newsdata_a2")
  /\ @deliveredA testEnv s (nd "business" "in") = []
  /\ ids (news_articles s') = [JStr "newsapi_https://b.example/1"]
  /\ articlesSaved (fetchStats s') = articlesSaved (fetchStats s) + 1
  /\ lastFetchTimes s' !! "MORNING" = Some (JDate (Some (now s))).
Proof.
  intros a1 a2 s s'. split; [vm_compute; reflexivity|]. split.
  - eexists _, _. repeat split; vm_compute; reflexivity.
  - vm_compute. repeat split.
Qed.

(** ** Required fields *)






Section RequiredFields.
Context {E : Env}.









Lemma castUpdate_fget r : forall r' k,
  News.castUpdate r = Some r' ->
  fhas k r = true ->
  match News.castSet k (fget k r) with
  | News.Stored v' => fget k r' = v'
  | News.Dropped => True
  | News.CastError => False
  end.
Proof.
  unfold News.castUpdate.
  induction r as [|[k0 v0] r IH]; intros r' k; cbn [News.castObject fget fhas];
    [discriminate|].
  destruct (String.eqb k0 k) eqn:Ek.
  - apply String.eqb_eq in Ek. subst k0. intros Hc _.
    destruct (News.castSet k v0); [|exact I|discriminate].
    destruct (News.castObject News.castSet r) as [o1|]; [|discriminate].
    cbn in Hc. injection Hc as <-. cbn [fget]. rewrite String.eqb_refl.
    reflexivity.
  - cbn [orb]. intros Hc Hk. destruct (News.castSet k0 v0).
    + destruct (News.castObject News.castSet r) as [o1|]; [|discriminate].
      cbn in Hc. injection Hc as <-. cbn [fget]. rewrite Ek.
      apply (IH o1 k eq_refl Hk).
    + apply (IH r' k Hc Hk).
    + discriminate.
Qed.






End RequiredFields.



(** ** The manual trigger *)

Section ManualTrigger.
Context {E : Env}.

Lemma executeScheduledFetch_unknown name s :
  printable name = true ->
  FETCH_SCHEDULE !! str name = None ->
  let m := NewsFetchScheduler.executeScheduledFetch name in
  let inherited :=
    existsb (String.eqb (str name)) NewsFetchScheduler.inheritedNames in
  run m s
  = (Ok tt,
     if inherited
     then set_fetchStats (bump_failed (bump_total (fetchStats s))) s
     else s)
  /\ calls m s = 0%nat
  /\ (inherited = false -> trace m s = [Log Error "Invalid schedule name"]).
Proof.
  intros Hp Hnone m inherited. subst m inherited.
  unfold NewsFetchScheduler.executeScheduledFetch,
    NewsFetchScheduler.lookupSchedule, template.
  rewrite Hp. split; [|split].
  - run_simpl. rewrite Hnone. destruct (existsb _ _); reflexivity.
  - calls_simpl. rewrite Hnone. destruct (existsb _ _); reflexivity.
  - intros Hinh. rewrite trace_bind, run_lift. cbn [fst snd].
    rewrite Hnone, Hinh. reflexivity.
Qed.

(** The scheduler's [triggerManualFetch] on a name that is given. *)
Lemma triggerManualFetch_run schedule s :
  truthy schedule = true ->
  run (NewsFetchScheduler.triggerManualFetch schedule) s
  = (if printable schedule
     then run (NewsFetchScheduler.executeScheduledFetch schedule) s
     else (Throw notPrimitive, s))
  /\ calls (NewsFetchScheduler.triggerManualFetch schedule) s
     = (if printable schedule
        then calls (NewsFetchScheduler.executeScheduledFetch schedule) s
        else 0%nat)
  /\ trace (NewsFetchScheduler.triggerManualFetch schedule) s
     = (if printable schedule
        then Log Info ("Manual fetch triggered: " +:+ str schedule)
             :: trace (NewsFetchScheduler.executeScheduledFetch schedule) s
        else []).
Proof.
  intros Ht.
  assert (Hdef : match schedule with
                 | JUndef => JStr "MORNING"
                 | _ => schedule
                 end = schedule)
    by (destruct schedule; try reflexivity; discriminate).
  unfold NewsFetchScheduler.triggerManualFetch. rewrite Hdef.
  unfold template, Logger.info.
  destruct (printable schedule); (split; [|split]).
  - run_simpl. reflexivity.
  - calls_simpl. reflexivity.
  - rewrite trace_bind, run_lift. cbn [fst snd].
    rewrite trace_bind, run_emit. cbn [fst snd]. reflexivity.
  - run_simpl. reflexivity.
  - calls_simpl. reflexivity.
  - rewrite trace_bind, run_lift. reflexivity.
Qed.

(** C10, as the code has it. A manual trigger without a schedule name (a
    missing or empty [schedule]) is rejected with status 400 and nothing
    else happens. A trigger whose schedule name is present, converts to a
    string (as every string, number and boolean does) and is not a
    configured slot is acknowledged like any other, with status 202 and
    [status: "triggered"]: the fetch is started without being awaited, no
    upstream call is issued for that name and the store and the last-fetch
    times stay as they were; unless the name is one every object inherits,
    the scheduler only logs the error [Invalid schedule name]. A trigger
    whose [schedule] does not convert to a string is answered with status
    500, and nothing else happens. *)
Theorem manual_trigger_unknown_slot (s : State) (req : JsVal) :
  let schedule := get (get req "body") "schedule" in
  let m := SchedulerController.triggerManualFetch req in
  nullish (get req "body") = false ->
  (truthy schedule = false ->
   exists resp,
     result m s = Ok resp
     /\ statusCode resp = 400
     /\ fget "success" (body resp) = JBool false
     /\ final m s = s
     /\ calls m s = 0%nat)
  /\ (truthy schedule = true ->
      printable schedule = true ->
      FETCH_SCHEDULE !! str schedule = None ->
      exists resp,
        result m s = Ok resp
        /\ statusCode resp = 202
        /\ fget "success" (body resp) = JBool true
        /\ get (fget "data" (body resp)) "status" = JStr "triggered"
        /\ calls m s = 0%nat
        /\ news_articles (final m s) = news_articles s
        /\ lastFetchTimes (final m s) = lastFetchTimes s
        /\ (existsb (String.eqb (str schedule))
              NewsFetchScheduler.inheritedNames = false ->
            final m s = s
            /\ In (Log Error "Invalid schedule name") (trace m s)))
  /\ (truthy schedule = true ->
      printable schedule = false ->
      exists resp,
        result m s = Ok resp
        /\ statusCode resp = 500
        /\ fget "success" (body resp) = JBool false
        /\ calls m s = 0%nat
        /\ final m s = s).
Proof.
  intros schedule m Hbody. subst m.
  unfold SchedulerController.triggerManualFetch. rewrite Hbody.
  fold schedule. split; [|split].
  - intros Hf. rewrite Hf. cbn [negb]. eexists.
    repeat split; reflexivity.
  - intros Ht Hp Hnone. rewrite Ht. cbn [negb].
    destruct (triggerManualFetch_run schedule s Ht) as (Hrun0 & Hcalls0 & Htr0).
    rewrite Hp in Hrun0, Hcalls0, Htr0.
    destruct (executeScheduledFetch_unknown schedule s Hp Hnone)
      as (Hrun & Hcalls & Htrace).
    cbv zeta in Hrun, Hcalls, Htrace.
    rewrite Hrun in Hrun0. rewrite Hcalls in Hcalls0.
    unfold template. rewrite Hp.
    unfold Logger.info, Logger.error, sendSuccessResponse.
    rewrite !result_run, !final_run.
    eexists. split; [run_simpl; rewrite Hrun0; run_simpl; reflexivity|].
    split; [reflexivity|]. split; [reflexivity|]. split; [reflexivity|].
    split; [calls_simpl; rewrite Hcalls0, Hrun0; calls_simpl; reflexivity|].
    split.
    { run_simpl. rewrite Hrun0. run_simpl.
      destruct (existsb _ _); reflexivity. }
    split.
    { run_simpl. rewrite Hrun0. run_simpl.
      destruct (existsb _ _); reflexivity. }
    intros Hown. split.
    { run_simpl. rewrite Hrun0. run_simpl. rewrite Hown. reflexivity. }
    repeat (first [rewrite trace_bind | rewrite trace_try_catch | run_step];
            cbn [fst snd]).
    rewrite Htr0, (Htrace Hown), Hrun0. cbn. right. right. left.
    reflexivity.
  - intros Ht Hp. rewrite Ht. cbn [negb].
    destruct (triggerManualFetch_run schedule s Ht) as (Hrun0 & Hcalls0 & _).
    rewrite Hp in Hrun0, Hcalls0.
    unfold template. rewrite Hp.
    unfold Logger.info, Logger.error, sendErrorResponse.
    rewrite !result_run, !final_run.
    eexists. split; [run_simpl; rewrite Hrun0; run_simpl; reflexivity|].
    split; [reflexivity|]. split; [reflexivity|].
    split; [calls_simpl; rewrite Hcalls0, Hrun0; calls_simpl; reflexivity|].
    run_simpl. rewrite Hrun0. run_simpl. reflexivity.
Qed.
End ManualTrigger.

Lemma manual_trigger_unknown_slot_witness :
  let s := stateWith [storedB] (serving [] [b1]) in
  let m := @SchedulerController.triggerManualFetch testEnv lunchRequest in
  exists resp,
    result m s = Ok resp /\ statusCode resp = 202 /\ calls m s = 0%nat.
Proof.
  intros s m.
  destruct (@manual_trigger_unknown_slot testEnv s lunchRequest eq_refl)
    as (_ & Hunknown & _).
  destruct (Hunknown eq_refl eq_refl eq_refl)
    as (resp & Hres & Hstatus & _ & _ & Hcalls & _).
  exists resp. split; [exact Hres|]. split; [exact Hstatus|exact Hcalls].
Defined.

(** C10 as stated fails for the caller: a manual trigger for ["LUNCH"],
    which is not a configured slot, is answered with status 202 and
    [success: true], an acknowledgment and not a rejection. *)
Lemma unknown_slot_is_acknowledged :
  let s := stateWith [storedB] (serving [] [b1]) in
  let m := @SchedulerController.triggerManualFetch testEnv lunchRequest in
  FETCH_SCHEDULE !! "LUNCH" = None
  /\ exists resp,
       result m s = Ok resp
       /\ statusCode resp = 202
       /\ fget "success" (body resp) = JBool true
       /\ fget "message" (body resp)
          = JStr "Manual fetch for LUNCH has been triggered".
Proof.
  intros s m. split; [reflexivity|].
  eexists. split; [vm_compute; reflexivity|]. repeat split.
Qed.

(** ** Latest news *)

Lemma optLe_total x y : News.optLe x y = true \/ News.optLe y x = true.
Proof.
  destruct x as [a|], y as [b|]; simpl; auto.
  destruct (Z.leb_spec a b); [left; reflexivity|right].
  apply Z.leb_le. lia.
Qed.

Lemma optLe_trans x y z :
  News.optLe x y = true -> News.optLe y z = true -> News.optLe x z = true.
Proof.
  destruct x as [a|], y as [b|], z as [c|]; simpl; try congruence.
  rewrite !Z.leb_le. lia.
Qed.

#[global] Instance newestFirst_total : Total News.newestFirst.
Proof. intros a b. apply optLe_total. Qed.

#[global] Instance newestFirst_trans : Transitive News.newestFirst.
Proof. intros a b c Hab Hbc. exact (optLe_trans _ _ _ Hbc Hab). Qed.

Lemma page_sorted (R : relation Obj) skip limit l :
  StronglySorted R l -> StronglySorted R (News.page skip limit l).
Proof.
  intros Hs. unfold News.page, News.limitTo.
  assert (Hd : StronglySorted R (drop (Z.to_nat skip) l)).
  { rewrite <- (take_drop (Z.to_nat skip) l) in Hs.
    eapply StronglySorted_app_1_r, Hs. }
  destruct (limit =? 0); [exact Hd|].
  rewrite <- (take_drop (Z.to_nat (Z.abs limit)) (drop (Z.to_nat skip) l)) in Hd.
  eapply StronglySorted_app_1_l, Hd.
Qed.

Lemma page_In skip limit l x : In x (News.page skip limit l) -> In x l.
Proof.
  unfold News.page, News.limitTo. intros Hin.
  assert (Hd : In x (drop (Z.to_nat skip) l)).
  { destruct (limit =? 0); [exact Hin|].
    apply list_elem_of_In. apply list_elem_of_In in Hin.
    eapply elem_of_sublist; [exact Hin|]. apply sublist_take. }
  apply list_elem_of_In. apply list_elem_of_In in Hd.
  eapply elem_of_sublist; [exact Hd|]. apply sublist_drop.
Qed.

Section LatestNews.
Context {E : Env}.

(** The latest-news read is ordered by [publishedAt], newest first. *)
Lemma latest_news_newest_first filters s o :
  result (UnifiedNewsService.getLatestNews filters) s = Ok o ->
  exists l,
    fget "articles" o = JArr (map JObj l)
    /\ StronglySorted News.newestFirst l.
Proof.
  rewrite result_run.
  unfold UnifiedNewsService.getLatestNews, UnifiedNewsService.getNewsFromDB,
    News.find, News.countDocuments, News.connected, Logger.info, Logger.error.
  destruct (dbUp s) eqn:Eup; repeat (run_step; cbn [fst snd]; rewrite ?Eup);
    [|discriminate].
  intros [= <-]. eexists. split; [reflexivity|].
  apply page_sorted, StronglySorted_merge_sort; apply _.
Qed.

Lemma destructure_run options s :
  run (News.destructure options) s = (Ok tt, s)
  \/ exists e, run (News.destructure options) s = (Throw e, s).
Proof. destruct options; eauto. Qed.

(** [News.findRecent], which the read service does not call, leaves out
    soft-deleted records. *)
Lemma findRecent_excludes_deleted hours options s l :
  result (News.findRecent hours options) s = Ok l ->
  Forall (fun d => fget "isDeleted" d <> JBool true) l.
Proof.
  rewrite result_run. unfold News.findRecent, News.find, News.connected.
  rewrite run_bind.
  destruct (destructure_run options s) as [->|[e ->]]; [|discriminate].
  run_simpl. destruct (dbUp s); run_simpl; [|discriminate].
  intros [= <-]. apply List.Forall_forall. intros d Hd.
  apply page_In in Hd. apply list_elem_of_In in Hd.
  rewrite merge_sort_Permutation in Hd. apply list_elem_of_In in Hd.
  apply List.filter_In in Hd as [_ Hm].
  unfold News.matches, News.notDeleted in Hm. cbn [forallb fst snd] in Hm.
  intros Hdel. rewrite Hdel in Hm.
  rewrite !andb_true_iff in Hm. destruct Hm as (_ & Hm & _).
  discriminate Hm.
Qed.
End LatestNews.

(** C8 at a store that holds a soft-deleted record: the latest-news read
    of the read service returns it (newest first, ahead of the live record),
    while [News.findRecent] on the same store leaves it out. *)
Lemma latest_news_returns_soft_deleted :
  let s := stateWith [storedB; deletedDoc] quietAxios in
  fget "isDeleted" deletedDoc = JBool true
  /\ (exists o,
        result (UnifiedNewsService.getLatestNews []) s = Ok o
        /\ fget "articles" o = JArr [JObj deletedDoc; JObj storedB])
  /\ result (News.findRecent 48 JUndef) s = Ok [storedB].
Proof.
  intros s. split; [reflexivity|]. split.
  - eexists. split; [vm_compute; reflexivity|]. reflexivity.
  - vm_compute. reflexivity.
Qed.

(** ** Read isolation *)

Section Determined.
Context (R : relation State).

Lemma determinedBy_ret {A} (a : A) : determinedBy R (ret a).
Proof. intros s1 s2 HR. split; [reflexivity|exact HR]. Qed.

Lemma determinedBy_throw {A} e : determinedBy R (@throw A e).
Proof. intros s1 s2 HR. split; [reflexivity|exact HR]. Qed.

Lemma determinedBy_emit e : determinedBy R (emit e).
Proof. intros s1 s2 HR. split; [reflexivity|exact HR]. Qed.

Lemma determinedBy_gets {A} (f : State -> A) :
  (forall s1 s2, R s1 s2 -> f s1 = f s2) -> determinedBy R (gets f).
Proof.
  intros Hf s1 s2 HR. split; [|exact HR].
  unfold result, gets. cbn. f_equal. apply Hf, HR.
Qed.

Lemma determinedBy_bind {A B} (m : M A) (f : A -> M B) :
  determinedBy R m -> (forall a, determinedBy R (f a)) ->
  determinedBy R (bind m f).
Proof.
  intros Hm Hf s1 s2 HR. destruct (Hm s1 s2 HR) as [Hres Hfin].
  rewrite !result_run, !final_run in *. rewrite !run_bind.
  destruct (run m s1) as [r1 s1'], (run m s2) as [r2 s2'].
  cbn [fst snd] in *. subst r2.
  destruct r1 as [a|e]; [|split; [reflexivity|exact Hfin]].
  specialize (Hf a s1' s2' Hfin). rewrite !result_run, !final_run in Hf.
  exact Hf.
Qed.

Lemma determinedBy_try_catch {A} (m : M A) (h : JsVal -> M A) :
  determinedBy R m -> (forall e, determinedBy R (h e)) ->
  determinedBy R (try_catch m h).
Proof.
  intros Hm Hh s1 s2 HR. destruct (Hm s1 s2 HR) as [Hres Hfin].
  rewrite !result_run, !final_run in *. rewrite !run_try_catch.
  destruct (run m s1) as [r1 s1'], (run m s2) as [r2 s2'].
  cbn [fst snd] in *. subst r2.
  destruct r1 as [a|e]; [split; [reflexivity|exact Hfin]|].
  specialize (Hh e s1' s2' Hfin). rewrite !result_run, !final_run in Hh.
  exact Hh.
Qed.
End Determined.

Lemma pureRead_ret {A} (a : A) : pureRead (ret a).
Proof. intros s. split; reflexivity. Qed.

Lemma pureRead_throw {A} e : pureRead (@throw A e).
Proof. intros s. split; reflexivity. Qed.

Lemma pureRead_log l msg : pureRead (emit (Log l msg)).
Proof. intros s. split; reflexivity. Qed.

Lemma pureRead_gets {A} (f : State -> A) : pureRead (gets f).
Proof. intros s. split; reflexivity. Qed.

Lemma pureRead_bind {A B} (m : M A) (f : A -> M B) :
  pureRead m -> (forall a, pureRead (f a)) -> pureRead (bind m f).
Proof.
  intros Hm Hf s. destruct (Hm s) as [Hfin Hc].
  rewrite final_run in Hfin. rewrite final_run, run_bind, calls_bind, Hc.
  destruct (run m s) as [[a|e] s']; cbn [fst snd] in *; subst s'.
  - destruct (Hf a s) as [Hfin' Hc']. rewrite final_run in Hfin'.
    split; [exact Hfin'|exact Hc'].
  - split; reflexivity.
Qed.

Lemma pureRead_try_catch {A} (m : M A) (h : JsVal -> M A) :
  pureRead m -> (forall e, pureRead (h e)) -> pureRead (try_catch m h).
Proof.
  intros Hm Hh s. destruct (Hm s) as [Hfin Hc].
  rewrite final_run in Hfin.
  rewrite final_run, run_try_catch, calls_try_catch, Hc.
  destruct (run m s) as [[a|e] s']; cbn [fst snd] in *; subst s'.
  - split; reflexivity.
  - destruct (Hh e s) as [Hfin' Hc']. rewrite final_run in Hfin'.
    split; [exact Hfin'|exact Hc'].
Qed.

Ltac keeps :=
  let H := fresh in
  intros ? ? H; unfold sameStoreAndClock, sameStore in H;
  destruct_and?; congruence.

Ltac read_step :=
  first
    [ apply determinedBy_ret | apply determinedBy_throw
    | apply determinedBy_emit | apply determinedBy_gets; keeps
    | apply determinedBy_bind; [|intros ?]
    | apply determinedBy_try_catch; [|intros ?]
    | apply pureRead_ret | apply pureRead_throw | apply pureRead_log
    | apply pureRead_gets
    | apply pureRead_bind; [|intros ?]
    | apply pureRead_try_catch; [|intros ?]
    | match goal with
      | |- determinedBy _ (if ?b then _ else _) => destruct b
      | |- pureRead (if ?b then _ else _) => destruct b
      end ].

Ltac read_ops :=
  unfold UnifiedNewsService.getNewsByCategory, UnifiedNewsService.getLatestNews,
    UnifiedNewsService.getNewsFromDB, UnifiedNewsService.searchNews,
    UnifiedNewsService.getTrendingNews, UnifiedNewsService.getSources,
    UnifiedNewsService.aggregateSources, UnifiedNewsService.getStats,
    News.searchArticles, News.find, News.countDocuments, News.connected,
    Logger.info, Logger.warn, Logger.error;
  cbv zeta; repeat read_step.

Section ReadService.
Context {E : Env}.

Lemma getLatestNews_determined filters :
  determinedBy sameStore (UnifiedNewsService.getLatestNews filters)
  /\ pureRead (UnifiedNewsService.getLatestNews filters).
Proof. split; read_ops. Qed.

Lemma searchNews_determined query filters :
  determinedBy sameStore (UnifiedNewsService.searchNews query filters)
  /\ pureRead (UnifiedNewsService.searchNews query filters).
Proof. split; read_ops. Qed.

Lemma getTrendingNews_determined limit :
  determinedBy sameStore (UnifiedNewsService.getTrendingNews limit)
  /\ pureRead (UnifiedNewsService.getTrendingNews limit).
Proof. split; read_ops. Qed.

Lemma getNewsByCategory_determined category filters :
  determinedBy sameStore (UnifiedNewsService.getNewsByCategory category filters)
  /\ pureRead (UnifiedNewsService.getNewsByCategory category filters).
Proof. split; read_ops. Qed.

Lemma getSources_determined filters :
  determinedBy sameStore (UnifiedNewsService.getSources filters)
  /\ pureRead (UnifiedNewsService.getSources filters).
Proof. split; read_ops. Qed.

Lemma getStats_determined :
  determinedBy sameStoreAndClock UnifiedNewsService.getStats
  /\ pureRead UnifiedNewsService.getStats.
Proof. split; read_ops. Qed.

Lemma isolated_intro (R : relation State) {A} (m : M A) s s2 :
  determinedBy R m /\ pureRead m -> isolated R m s s2.
Proof.
  intros [Hd Hp]. destruct (Hp s) as [Hfin Hc].
  split; [exact Hc|]. split; [exact Hfin|].
  intros HR. apply (Hd s s2 HR).
Qed.

(** C2, as the code has it. Executed in any state [s] and on any input,
    each operation of the read service - latest news, search, trending, by
    category, sources, stats - issues no call to either upstream client and
    changes nothing. The result of the first five is a function of the
    article store alone: it is the same in every state [s2] that holds the
    same store, whatever the providers would answer there, whatever the
    scheduler has recorded and whatever the time. The result of stats is a
    function of the store and of the clock, which its 24-hour count reads:
    it is the same in every state that holds the same store at the same
    time. *)
Theorem read_service_never_calls_upstream (filters : Obj) (query : string)
    (category : JsVal) (limit : Z) (s s2 : State) :
  isolated sameStore (UnifiedNewsService.getLatestNews filters) s s2
  /\ isolated sameStore (UnifiedNewsService.searchNews query filters) s s2
  /\ isolated sameStore (UnifiedNewsService.getTrendingNews limit) s s2
  /\ isolated sameStore
       (UnifiedNewsService.getNewsByCategory category filters) s s2
  /\ isolated sameStore (UnifiedNewsService.getSources filters) s s2
  /\ isolated sameStoreAndClock UnifiedNewsService.getStats s s2.
Proof.
  split; [apply isolated_intro, getLatestNews_determined|].
  split; [apply isolated_intro, searchNews_determined|].
  split; [apply isolated_intro, getTrendingNews_determined|].
  split; [apply isolated_intro, getNewsByCategory_determined|].
  split; [apply isolated_intro, getSources_determined|].
  apply isolated_intro, getStats_determined.
Qed.
End ReadService.

Lemma read_service_never_calls_upstream_witness :
  let s := stateWith [storedB] (serving [] [b1]) in
  let s2 := set_now 1714600000000 (stateWith [storedB] quietAxios) in
  calls (UnifiedNewsService.getLatestNews []) s = 0%nat
  /\ result (UnifiedNewsService.getLatestNews []) s
     = result (UnifiedNewsService.getLatestNews []) s2.
Proof.
  intros s s2.
  destruct (@read_service_never_calls_upstream testEnv [] "budget" JNull 20
              s s2) as ((Hcalls & _ & Hresult) & _).
  split; [exact Hcalls|]. apply Hresult. split; reflexivity.
Defined.

(** C2 as stated fails for stats, whose result is not a function of the
    store alone: one and the same store, holding one record, read at two
    times. Some eight hours after the record was fetched it is counted
    among the recent articles, 25 hours after it is not. *)
Lemma stats_depend_on_the_clock :
  let s1 := set_now 1714500000000 (stateWith [storedB] quietAxios) in
  let s2 := stateWith [storedB] quietAxios in
  sameStore s1 s2
  /\ (exists o1 o2,
        result UnifiedNewsService.getStats s1 = Ok o1
        /\ result UnifiedNewsService.getStats s2 = Ok o2
        /\ fget "total" o1 = fget "total" o2
        /\ fget "recentArticles" o1 = JNum 1
        /\ fget "recentArticles" o2 = JNum 0)
  /\ result UnifiedNewsService.getStats s1
     <> result UnifiedNewsService.getStats s2.
Proof.
  intros s1 s2. split; [split; reflexivity|]. split.
  - eexists _, _. split; [vm_compute; reflexivity|].
    split; [vm_compute; reflexivity|]. repeat split.
  - vm_compute. discriminate.
Qed.

(** The write path outside the slot system does call both providers: the
    count of outbound calls is not blind. *)
Lemma refreshCache_calls_both_providers :
  let s := stateWith [storedB] (serving [] [b1]) in
  let m := @UnifiedNewsService.refreshCache testEnv
             [("country", JStr "in"); ("category", JStr "business")] in
  calls m s = 2%nat
  /\ ids (news_articles (final m s))
     = [JStr "newsapi_https://b.example/0"; JStr "newsapi_https://b.example/1"].
Proof. vm_compute. split; reflexivity. Qed.

(** * Further properties of the code *)

(** ** The slot executor never rejects *)

Lemma result_try_catch_unit (m : M unit) (h : JsVal -> M unit) s :
  (forall e s', result (h e) s' = Ok tt) ->
  result (try_catch m h) s = Ok tt.
Proof.
  intros Hh. rewrite result_run, run_try_catch.
  destruct (run m s) as [[[]|e] s']; [reflexivity|].
  rewrite <- result_run. apply Hh.
Qed.

Section NeverRejects.
Context {E : Env}.

Lemma executeScheduledFetch_result scheduleName s :
  printable scheduleName = true ->
  result (NewsFetchScheduler.executeScheduledFetch scheduleName) s = Ok tt.
Proof.
  intros Hp. unfold NewsFetchScheduler.executeScheduledFetch, template.
  rewrite Hp, result_run, run_bind, run_lift. cbn [fst snd].
  destruct (NewsFetchScheduler.lookupSchedule (str scheduleName))
    as [schedule| |];
    try reflexivity;
    unfold Logger.info; rewrite run_bind, run_emit;
    cbn [fst snd]; rewrite <- result_run;
    apply result_try_catch_unit; reflexivity.
Qed.

(** X1. Whatever name it is given that converts to a string - a string, a
    number, a boolean, [null], [undefined], an object without a [toString]
    of its own - and whatever the providers and the store do,
    [executeScheduledFetch] resolves: it never rejects, so neither a cron
    job nor the bootstrap nor a manual trigger can bring an unhandled
    rejection from it; [triggerManualFetch] of the scheduler resolves
    likewise. On a name that does not convert, both reject with the
    TypeError of the conversion, and leave the process as it was. *)
Theorem executeScheduledFetch_never_rejects (scheduleName : JsVal) (s : State) :
  (printable scheduleName = true ->
   result (NewsFetchScheduler.executeScheduledFetch scheduleName) s = Ok tt
   /\ result (NewsFetchScheduler.triggerManualFetch scheduleName) s = Ok tt)
  /\ (printable scheduleName = false ->
      run (NewsFetchScheduler.executeScheduledFetch scheduleName) s
      = (Throw notPrimitive, s)
      /\ run (NewsFetchScheduler.triggerManualFetch scheduleName) s
         = (Throw notPrimitive, s)).
Proof.
  split; intros Hp.
  - split; [apply executeScheduledFetch_result, Hp|].
    unfold NewsFetchScheduler.triggerManualFetch, Logger.info, template.
    assert (Hp' : printable match scheduleName with
                            | JUndef => JStr "MORNING"
                            | _ => scheduleName
                            end = true)
      by (destruct scheduleName; try exact Hp; reflexivity).
    rewrite Hp', result_run, run_bind, run_lift. cbn [fst snd].
    rewrite run_bind, run_emit. cbn [fst snd].
    rewrite <- result_run. apply executeScheduledFetch_result, Hp'.
  - unfold NewsFetchScheduler.triggerManualFetch,
      NewsFetchScheduler.executeScheduledFetch, template.
    assert (Hdef : match scheduleName with
                   | JUndef => JStr "MORNING"
                   | _ => scheduleName
                   end = scheduleName)
      by (destruct scheduleName; try reflexivity; discriminate).
    rewrite Hdef, Hp. split; reflexivity.
Qed.
End NeverRejects.

Lemma executeScheduledFetch_never_rejects_witness :
  let s := stateWith [storedB] (serving [] [b1]) in
  result (@NewsFetchScheduler.executeScheduledFetch testEnv (JStr "LUNCH")) s
  = Ok tt
  /\ result (@NewsFetchScheduler.executeScheduledFetch testEnv
               (JObj [("toString", JNum 1)])) s
     = Throw notPrimitive.
Proof.
  intros s. split.
  - exact (proj1 (proj1 (@executeScheduledFetch_never_rejects testEnv
                           (JStr "LUNCH") s) eq_refl)).
  - pose proof (proj1 (proj2 (@executeScheduledFetch_never_rejects testEnv
                                (JObj [("toString", JNum 1)]) s) eq_refl))
      as H.
    rewrite result_run, H. reflexivity.
Defined.

(** ** What a bulk write leaves alone *)

Lemma sameKept_refl d : sameKept d d.
Proof. split; [reflexivity|intros; reflexivity]. Qed.

Lemma sameKept_trans d1 d2 d3 :
  sameKept d1 d2 -> sameKept d2 d3 -> sameKept d1 d3.
Proof.
  intros [Hi1 Hk1] [Hi2 Hk2]. split; [congruence|].
  intros k Hk. rewrite (Hk2 k Hk). apply Hk1, Hk.
Qed.

Lemma Forall2_sameKept_refl docs : Forall2 sameKept docs docs.
Proof. induction docs; constructor; [apply sameKept_refl|assumption]. Qed.

Lemma Forall2_sameKept_trans l1 : forall l2 l3,
  Forall2 sameKept l1 l2 -> Forall2 sameKept l2 l3 -> Forall2 sameKept l1 l3.
Proof.
  induction l1 as [|a l1 IH]; intros l2 l3 H12 H23.
  - inversion H12; subst. inversion H23; subst. constructor.
  - inversion H12 as [|? b ? l2' Hab H12']; subst.
    inversion H23 as [|? c ? l3' Hbc H23']; subst.
    constructor; [eapply sameKept_trans; eassumption|].
    eapply IH; eassumption.
Qed.

Lemma keptKeys_not_updatedAt k :
  In k keptKeys -> String.eqb "updatedAt" k = false.
Proof.
  unfold keptKeys. simpl.
  intros [<-|[<-|[<-|[<-|[<-|[]]]]]]; reflexivity.
Qed.

(** A record that carries none of the kept fields. *)
Lemma updateDoc_sameKept t r i d :
  wellKeyed d ->
  fget "articleId" r = JStr i ->
  (forall k, In k keptKeys -> fhas k r = false) ->
  News.matches [("articleId", JStr i)] d = true ->
  sameKept d (News.updateDoc r t d).
Proof.
  intros [x Hx] Hr Hkept Hm.
  rewrite (matches_key d x i Hx) in Hm. apply String.eqb_eq in Hm. subst x.
  split.
  - rewrite (updateDoc_key r t d i Hr). symmetry. exact Hx.
  - intros k Hk. unfold News.updateDoc.
    rewrite fget_fset, (keptKeys_not_updatedAt k Hk), fget_assign,
      (Hkept k Hk). reflexivity.
Qed.

Lemma updateFirst_sameKept t r i docs :
  Forall wellKeyed docs ->
  fget "articleId" r = JStr i ->
  (forall k, In k keptKeys -> fhas k r = false) ->
  match News.updateFirst [("articleId", JStr i)] r t docs with
  | Some (docs', _) => Forall2 sameKept docs docs'
  | None => True
  end.
Proof.
  intros Hk Hr Hkept. induction Hk as [|d ds Hd Hds IH]; [exact I|].
  cbn [News.updateFirst].
  destruct (News.matches [("articleId", JStr i)] d) eqn:Em.
  - constructor; [|apply Forall2_sameKept_refl].
    eapply updateDoc_sameKept; eassumption.
  - destruct (News.updateFirst _ r t ds) as [[ds' m]|]; [|exact I].
    constructor; [apply sameKept_refl|exact IH].
Qed.

Lemma applyOp_sameKept t docs w r i :
  Forall wellKeyed docs ->
  fget "articleId" r = JStr i ->
  (forall k, In k keptKeys -> fhas k r = false) ->
  exists upd extra,
    (News.applyOp t (docs, w) (News.upsertOp r)).1 = upd ++ extra
    /\ Forall2 sameKept docs upd.
Proof.
  intros Hk Hr Hkept. unfold News.applyOp, News.upsertOp.
  cbn [op_filter op_set op_upsert fst snd]. rewrite Hr.
  pose proof (updateFirst_sameKept t r i docs Hk Hr Hkept) as Hu.
  destruct (News.updateFirst _ r t docs) as [[docs' m]|]; cbn [fst].
  - exists docs', []. rewrite app_nil_r. split; [reflexivity|exact Hu].
  - eexists docs, _. split; [reflexivity|apply Forall2_sameKept_refl].
Qed.

Lemma writeAll_sameKept t batch : forall docs w,
  Forall wellKeyed docs ->
  Forall wellKeyed batch ->
  Forall (fun r => forall k, In k keptKeys -> fhas k r = false) batch ->
  exists upd extra,
    (fold_left (News.applyOp t) (map News.upsertOp batch) (docs, w)).1
    = upd ++ extra
    /\ Forall2 sameKept docs upd.
Proof.
  induction batch as [|r rest IH]; intros docs w Hk Hb Hn; cbn [map fold_left].
  - exists docs, []. rewrite app_nil_r.
    split; [reflexivity|apply Forall2_sameKept_refl].
  - inversion Hb as [|? ? [i Hi] Hrest]; subst.
    inversion Hn as [|? ? Hr Hnrest]; subst.
    destruct (applyOp_sameKept t docs w r i Hk Hi Hr) as (u1 & e1 & H1 & F1).
    pose proof (applyOp_upsert t docs w r i Hk Hi) as (Hk1 & _).
    destruct (News.applyOp t (docs, w) (News.upsertOp r)) as [docs1 w1].
    cbn [fst snd] in H1, Hk1. subst docs1.
    destruct (IH (u1 ++ e1) w1 Hk1 Hrest Hnrest) as (u2 & e2 & H2 & F2).
    apply Forall2_app_inv_l in F2 as (u2a & u2b & Fa & Fb & ->).
    exists u2a, (u2b ++ e2). rewrite H2, app_assoc.
    split; [reflexivity|]. eapply Forall2_sameKept_trans; eassumption.
Qed.

Lemma fhas_In k (o : Obj) : fhas k o = true -> In k (map fst o).
Proof.
  induction o as [|[k0 v0] o IH]; simpl; [discriminate|].
  destruct (String.eqb k0 k) eqn:E; simpl.
  - apply String.eqb_eq in E. intros _. left. exact E.
  - intros Hh. right. apply IH, Hh.
Qed.

Lemma normalized_not_kept r k :
  onlyNormalizedKeys r -> In k keptKeys -> fhas k r = false.
Proof.
  intros Hn Hk. destruct (fhas k r) eqn:E; [|reflexivity].
  apply Hn in E. exfalso. revert E. unfold keptKeys in Hk. simpl in Hk.
  destruct Hk as [<-|[<-|[<-|[<-|[<-|[]]]]]];
    unfold normalizedKeys; simpl; intuition discriminate.
Qed.

Section NormalizedKeys.
Context {E : Env}.

Lemma normalizeNewsApiOrgArticle_keys a c k r :
  normalizeNewsApiOrgArticle a c k = Ok r -> onlyNormalizedKeys r.
Proof.
  unfold normalizeNewsApiOrgArticle. destruct (nullish a); [discriminate|].
  destruct (negb _); [discriminate|].
  intros [= <-] x Hx. apply fhas_In in Hx. cbn [map fst] in Hx.
  unfold normalizedKeys. simpl in *. tauto.
Qed.

Lemma normalizeNewsDataArticle_keys a r :
  normalizeNewsDataArticle a = Ok r -> onlyNormalizedKeys r.
Proof.
  unfold normalizeNewsDataArticle. destruct (nullish a); [discriminate|].
  destruct (negb _); [discriminate|].
  destruct (creatorJoin _); [|discriminate].
  intros [= <-] x Hx. apply fhas_In in Hx. exact Hx.
Qed.

Lemma deliveredB_keys s config :
  Forall onlyNormalizedKeys (deliveredB s config).
Proof.
  unfold deliveredB, delivered. rewrite result_run.
  unfold NewsFetchScheduler.fetchFromNewsApiOrg,
    NewsApiOrgService.getTopHeadlines, NewsApiOrgService.makeRequest,
    axios_request, Logger.error.
  run_simpl. destruct (axios s _) as [e|data]; run_simpl; [constructor|].
  destruct (truthy (getopt data "articles")); run_simpl; [|constructor].
  destruct (arrayMap _ _) as [ys|e] eqn:Em; run_simpl; [|constructor].
  revert Em. apply arrayMap_Forall. intros x y Hy.
  eapply normalizeNewsApiOrgArticle_keys, Hy.
Qed.

Lemma slotBatch_keys schedule s :
  Forall onlyNormalizedKeys (slotBatch schedule s).
Proof.
  rewrite slotBatch_B. induction (newsApiConfig schedule) as [|c cs IH];
    cbn [flat_map]; [constructor|].
  apply Forall_app. split; [apply deliveredB_keys|exact IH].
Qed.

(** The store after a slot execution, whatever the name. *)
Lemma executeScheduledFetch_store name s :
  news_articles (final (NewsFetchScheduler.executeScheduledFetch (JStr name)) s)
  = news_articles s
  \/ exists schedule,
       FETCH_SCHEDULE !! name = Some schedule
       /\ news_articles
            (final (NewsFetchScheduler.executeScheduledFetch (JStr name)) s)
          = (writeAll (now s) (slotBatch schedule s) (news_articles s)).1.
Proof.
  rewrite final_run. destruct (FETCH_SCHEDULE !! name) as [schedule|] eqn:Es.
  - rewrite (executeScheduledFetch_run name schedule s Es).
    destruct (slotBatch schedule s) as [|a l] eqn:Eb; [left; reflexivity|].
    cbv zeta. destruct (writeThrows (a :: l) s); [left; reflexivity|].
    right. exists schedule. split; [reflexivity|rewrite Eb; reflexivity].
  - left.
    destruct (executeScheduledFetch_unknown (JStr name) s eq_refl Es)
      as (Hrun & _).
    cbn zeta in Hrun. rewrite Hrun. cbn [snd].
    destruct (existsb _ _); reflexivity.
Qed.

(** The cast adds no key to a record. *)
Lemma accepted_not_kept batch :
  Forall onlyNormalizedKeys batch ->
  Forall (fun r' => forall k, In k keptKeys -> fhas k r' = false)
    (accepted batch).
Proof.
  intros Hb. apply Forall_forall. intros r' Hr' k Hk.
  apply list_elem_of_In, accepted_In in Hr' as (r & Hr & Hc).
  apply (castUpdate_fhas r r' k Hc).
  rewrite Forall_forall in Hb.
  apply normalized_not_kept; [apply Hb, list_elem_of_In, Hr|exact Hk].
Qed.

Lemma writeAll_frame t batch docs :
  Forall wellKeyed docs ->
  Forall wellKeyed batch ->
  Forall onlyNormalizedKeys batch ->
  exists kept inserted,
    (writeAll t batch docs).1 = kept ++ inserted
    /\ Forall2 sameKept docs kept.
Proof.
  intros Hk Hb Hn. unfold writeAll. rewrite (validOps_accepted batch Hb).
  apply writeAll_sameKept;
    [exact Hk|apply accepted_wellKeyed, Hb|apply accepted_not_kept, Hn].
Qed.

Lemma slot_store_frame name s :
  Forall wellKeyed (news_articles s) ->
  exists kept inserted,
    news_articles
      (final (NewsFetchScheduler.executeScheduledFetch (JStr name)) s)
    = kept ++ inserted
    /\ Forall2 sameKept (news_articles s) kept.
Proof.
  intros Hk.
  destruct (executeScheduledFetch_store name s) as [->|(schedule & _ & ->)].
  - exists (news_articles s), []. rewrite app_nil_r.
    split; [reflexivity|apply Forall2_sameKept_refl].
  - apply writeAll_frame;
      [exact Hk|apply slotBatch_wellKeyed|apply slotBatch_keys].
Qed.

Lemma executeScheduledFetch_keeps_clock name s :
  now (final (NewsFetchScheduler.executeScheduledFetch (JStr name)) s) = now s
  /\ dbUp (final (NewsFetchScheduler.executeScheduledFetch (JStr name)) s)
     = dbUp s.
Proof.
  rewrite final_run. destruct (FETCH_SCHEDULE !! name) as [schedule|] eqn:Es.
  - rewrite (executeScheduledFetch_run name schedule s Es).
    destruct (slotBatch schedule s) as [|a l]; [split; reflexivity|].
    cbv zeta. destruct (writeThrows (a :: l) s); split; reflexivity.
  - destruct (executeScheduledFetch_unknown (JStr name) s eq_refl Es)
      as (Hrun & _).
    cbn zeta in Hrun. rewrite Hrun. cbn [snd].
    destruct (existsb _ _); split; reflexivity.
Qed.

(** X2. A slot execution never removes a stored record, never re-keys one
    and never touches its [isDeleted], [deletedAt], [fetchedAt],
    [createdAt] or [schemaVersion]: whatever the slot name and whatever the
    providers answer, the collection afterwards is the old records in
    their order, each with the same [articleId] and the same kept fields,
    followed by the records the execution inserted. In particular a
    soft-deleted article stays soft-deleted when it is fetched again. *)
Theorem slot_execution_keeps_stored_records (name : string) (s : State) :
  Forall wellKeyed (news_articles s) ->
  exists kept inserted,
    news_articles
      (final (NewsFetchScheduler.executeScheduledFetch (JStr name)) s)
    = kept ++ inserted
    /\ Forall2 sameKept (news_articles s) kept.
Proof. apply slot_store_frame. Qed.

(** X3. The schema invariant of the collection ([articleId] a string,
    unique) is an invariant of the scheduler: every slot execution, under
    any name and any provider behaviour, takes a collection that satisfies
    it to one that satisfies it, and never makes the collection smaller. *)
Theorem slot_execution_keeps_uniqueIds (name : string) (s : State) :
  uniqueIds (news_articles s) ->
  let s' := final (NewsFetchScheduler.executeScheduledFetch (JStr name)) s in
  uniqueIds (news_articles s')
  /\ (length (news_articles s) <= length (news_articles s'))%nat.
Proof.
  intros [Hk Hnd]. cbn zeta.
  destruct (executeScheduledFetch_store name s) as [->|(schedule & _ & ->)].
  - split; [split; assumption|lia].
  - unfold writeAll.
    rewrite (validOps_accepted _ (slotBatch_wellKeyed schedule s)).
    destruct (fold_applyOp (now s) (accepted (slotBatch schedule s))
                (news_articles s) News.noWrites Hk
                (accepted_wellKeyed _ (slotBatch_wellKeyed schedule s)))
      as (Hk' & Hnd' & _ & _ & _ & Hlen).
    split; [split; [exact Hk'|exact (Hnd' Hnd)]|exact Hlen].
Qed.
End NormalizedKeys.

Lemma deletedDoc_uniqueIds : uniqueIds [deletedDoc].
Proof.
  split.
  - constructor; [eexists; reflexivity|constructor].
  - apply NoDup_singleton.
Qed.

Lemma slot_execution_keeps_stored_records_witness :
  exists kept inserted,
    news_articles
      (final execMorning (stateWith [deletedDoc] (serving [] [withdrawnAgain])))
    = kept ++ inserted
    /\ Forall2 sameKept [deletedDoc] kept.
Proof.
  apply (@slot_execution_keeps_stored_records testEnv "MORNING").
  apply deletedDoc_uniqueIds.
Defined.

Lemma slot_execution_keeps_uniqueIds_witness :
  uniqueIds
    (news_articles
       (final execMorning (stateWith [deletedDoc] (serving [] [withdrawnAgain])))).
Proof.
  apply (@slot_execution_keeps_uniqueIds testEnv "MORNING"
           (stateWith [deletedDoc] (serving [] [withdrawnAgain]))
           deletedDoc_uniqueIds).
Defined.

(** ** Reading back what was saved *)

Lemma find_app_false {A} (p : A -> bool) l x :
  p x = false -> List.find p (l ++ [x]) = List.find p l.
Proof.
  intros Hx. induction l as [|y l IH]; simpl.
  - rewrite Hx. reflexivity.
  - destruct (p y); [reflexivity|exact IH].
Qed.

Lemma updateFirst_find_other t r j i docs :
  Forall wellKeyed docs ->
  fget "articleId" r = JStr j ->
  j <> i ->
  match News.updateFirst [("articleId", JStr j)] r t docs with
  | Some (docs', _) => findById i docs' = findById i docs
  | None => True
  end.
Proof.
  intros Hk Hr Hji. unfold findById.
  induction Hk as [|d ds [x Hx] Hds IH]; [exact I|].
  cbn [News.updateFirst]. rewrite (matches_key d x j Hx).
  destruct (String.eqb x j) eqn:Ex.
  - apply String.eqb_eq in Ex. subst x. cbn [List.find].
    rewrite (matches_key _ j i (updateDoc_key r t d j Hr)),
      (matches_key d j i Hx).
    apply String.eqb_neq in Hji. rewrite Hji. reflexivity.
  - destruct (News.updateFirst _ r t ds) as [[ds' m]|]; [|exact I].
    cbn [List.find]. rewrite IH. reflexivity.
Qed.

Lemma applyOp_find_other t docs w r j i :
  Forall wellKeyed docs ->
  fget "articleId" r = JStr j ->
  j <> i ->
  findById i (News.applyOp t (docs, w) (News.upsertOp r)).1
  = findById i docs.
Proof.
  intros Hk Hr Hji. unfold News.applyOp, News.upsertOp.
  cbn [op_filter op_set op_upsert fst snd]. rewrite Hr.
  pose proof (updateFirst_find_other t r j i docs Hk Hr Hji) as Hu.
  destruct (News.updateFirst _ r t docs) as [[docs' m]|]; cbn [fst].
  - exact Hu.
  - unfold findById. apply find_app_false.
    rewrite (matches_key _ j i (insertDoc_key _ r t j Hr)).
    apply String.eqb_neq, Hji.
Qed.

Lemma fold_find_other t rest i : forall docs w,
  Forall wellKeyed docs ->
  Forall wellKeyed rest ->
  ~ In (JStr i) (ids rest) ->
  findById i (fold_left (News.applyOp t) (map News.upsertOp rest) (docs, w)).1
  = findById i docs.
Proof.
  induction rest as [|r rest IH]; intros docs w Hk Hb Hnot; [reflexivity|].
  inversion Hb as [|? ? [j Hj] Hrest]; subst. cbn [map fold_left].
  pose proof (applyOp_upsert t docs w r j Hk Hj) as (Hk1 & _).
  assert (Hji : j <> i).
  { intros ->. apply Hnot. left. exact Hj. }
  pose proof (applyOp_find_other t docs w r j i Hk Hj Hji) as Hf.
  destruct (News.applyOp t (docs, w) (News.upsertOp r)) as [docs1 w1].
  cbn [fst snd] in Hk1, Hf. rewrite IH; [exact Hf|exact Hk1|exact Hrest|].
  intros Hin. apply Hnot. right. exact Hin.
Qed.

(** A batch of cast records, read back. *)
Lemma fold_readsBack t batch : forall docs w,
  Forall wellKeyed docs ->
  Forall wellKeyed batch ->
  NoDup (ids batch) ->
  Forall (fun r' => fhas "updatedAt" r' = false) batch ->
  forall r' key, In r' batch -> fget "articleId" r' = JStr key ->
    exists d',
      findById key
        (fold_left (News.applyOp t) (map News.upsertOp batch) (docs, w)).1
      = Some d'
      /\ forall k, fhas k r' = true -> fget k d' = fget k r'.
Proof.
  induction batch as [|r0 rest IH]; intros docs w Hk Hb Hnd Hu r' key Hin Hkey;
    [destruct Hin|].
  inversion Hb as [|? ? [i Hi] Hrest]; subst.
  inversion Hu as [|? ? Hu0 Hurest]; subst.
  cbn [ids map] in Hnd. apply NoDup_cons in Hnd as [Hnot Hnd].
  rewrite list_elem_of_In in Hnot. cbn [map fold_left].
  pose proof (applyOp_upsert t docs w r0 i Hk Hi) as (Hk1 & _).
  destruct Hin as [<-|Hin].
  - assert (key = i) by congruence. subst key.
    destruct (applyOp_upsertLeaves t docs w r0 i Hi Hu0)
      as (d' & Hf & Hfields & _).
    destruct (News.applyOp t (docs, w) (News.upsertOp r0)) as [docs1 w1].
    cbn [fst snd] in Hk1, Hf. exists d'. split; [|exact Hfields].
    rewrite fold_find_other; [exact Hf|exact Hk1|exact Hrest|].
    rewrite <- Hi. exact Hnot.
  - destruct (News.applyOp t (docs, w) (News.upsertOp r0)) as [docs1 w1].
    cbn [fst snd] in Hk1. apply IH; assumption.
Qed.

Section ReadBack.
Context {E : Env}.

Lemma accepted_updatedAt batch :
  Forall (fun r' => fhas "updatedAt" r' = false) (accepted batch).
Proof.
  apply Forall_forall. intros r' Hr'.
  apply list_elem_of_In, accepted_In in Hr' as (r & _ & Hc).
  apply (castUpdate_updatedAt r r' Hc).
Qed.

Lemma castUpdate_string r r' k trim lowercase x :
  News.castUpdate r = Some r' ->
  News.castSet k (JStr x) = News.Stored (JStr (News.setString trim lowercase x)) ->
  fget k r = JStr x ->
  fget k r' = JStr (News.setString trim lowercase x).
Proof.
  intros Hc Hs Hr.
  assert (Hh : fhas k r = true) by (apply fget_fhas; rewrite Hr; discriminate).
  pose proof (castUpdate_fget r r' k Hc Hh) as H. rewrite Hr, Hs in H.
  exact H.
Qed.

Lemma writeAll_readsBack t batch docs r r' :
  Forall wellKeyed docs ->
  Forall wellKeyed batch ->
  NoDup (ids (accepted batch)) ->
  In r batch ->
  News.castUpdate r = Some r' ->
  readsBack r (writeAll t batch docs).1.
Proof.
  intros Hk Hb Hnd Hin Hc.
  assert (Hr : wellKeyed r).
  { rewrite Forall_forall in Hb. apply Hb, list_elem_of_In, Hin. }
  destruct Hr as [i Hi].
  pose proof (castUpdate_key r r' i Hi Hc) as Hkey.
  assert (Hin' : In r' (accepted batch))
    by (apply accepted_In; exists r; split; assumption).
  unfold writeAll. rewrite (validOps_accepted batch Hb).
  destruct (fold_readsBack t (accepted batch) docs News.noWrites Hk
              (accepted_wellKeyed batch Hb) Hnd (accepted_updatedAt batch)
              r' (storedId i) Hin' Hkey) as (d' & Hf & Hfields).
  exists i, r', d'. split; [exact Hi|]. split; [exact Hc|].
  split; [exact Hf|]. split; [exact Hfields|]. split.
  - intros x Hx.
    rewrite (Hfields "title"),
      (castUpdate_string r r' "title" true false x Hc eq_refl Hx);
      [reflexivity|].
    apply fget_fhas.
    rewrite (castUpdate_string r r' "title" true false x Hc eq_refl Hx).
    discriminate.
  - intros x Hx.
    rewrite (Hfields "language"),
      (castUpdate_string r r' "language" true true x Hc eq_refl Hx);
      [reflexivity|].
    apply fget_fhas.
    rewrite (castUpdate_string r r' "language" true true x Hc eq_refl Hx).
    discriminate.
Qed.

(** X4. Save, then read: after a batch of keyed records has been saved
    into a store that can be reached, every record of the batch that the
    cast of the schema accepts - the accepted records having pairwise
    distinct keys - is found under its [articleId] as stored (trimmed),
    and the stored record carries every field of the record as the cast
    left it: a [title] that is a string is stored trimmed, a [language]
    trimmed and in lower case. This holds for each of the three save
    paths, whatever the store held before. *)
Theorem saved_batch_reads_back (s : State) (batch : list Obj) (r r' : Obj) :
  dbUp s = true ->
  Forall wellKeyed (news_articles s) ->
  Forall wellKeyed batch ->
  NoDup (ids (accepted batch)) ->
  In r batch ->
  News.castUpdate r = Some r' ->
  readsBack r
    (news_articles (final (NewsFetchScheduler.saveArticlesToDB batch) s))
  /\ readsBack r (news_articles (final (News.bulkUpsert batch) s))
  /\ readsBack r
       (news_articles (final (UnifiedNewsService.saveArticlesToDB batch) s)).
Proof.
  intros Hup Hk Hb Hnd Hin Hc.
  assert (Hne : batch <> []) by (intros ->; destruct Hin).
  rewrite (scheduler_save_writesThrough batch s Hne Hup),
    (bulkUpsert_writesThrough batch s Hne Hup),
    (unified_save_writesThrough batch s Hne Hup).
  cbn [news_articles set_news_articles].
  pose proof (writeAll_readsBack (now s) batch (news_articles s) r r'
                Hk Hb Hnd Hin Hc) as H.
  split; [exact H|split; exact H].
Qed.

(** ** Saving without a store *)

Lemma asksStore_false batch : asksStore batch = false -> validOps batch = [].
Proof.
  unfold asksStore. intros H. apply negb_false_iff, Nat.eqb_eq in H.
  apply length_zero_iff_nil, H.
Qed.

(** X5. When the store cannot be reached, a batch of which no record
    passes the cast of the schema - the empty batch among them - is still
    saved on every save path: the call resolves with zero counts without
    asking the store and changes nothing. A batch of which a record passes
    the cast rejects with the store's own error and changes nothing; the
    two services log the failure once before they rethrow,
    [News.bulkUpsert] rethrows without logging (the error carries no
    [writeErrors]). *)
Theorem save_without_store (s : State) (batch : list Obj) :
  dbUp s = false ->
  (NewsFetchScheduler.saveArticlesToDB batch s
   = if asksStore batch
     then (Throw notConnected, s,
           [Log Error "Error saving articles to database"])
     else (Ok {| saved := 0; updated := 0 |}, s, []))
  /\ (if asksStore batch
      then News.bulkUpsert batch s = (Throw notConnected, s, [])
      else exists r, News.bulkUpsert batch s = (Ok r, s, [])
                     /\ success r = 0 /\ errors r = 0)
  /\ (UnifiedNewsService.saveArticlesToDB batch s
      = if asksStore batch
        then (Throw notConnected, s,
              [Log Error "Error saving articles to database"])
        else
          match batch with
          | [] => (Ok [("saved", JNum 0); ("skipped", JNum 0)], s, [])
          | _ =>
              (Ok [("saved", JNum 0); ("updated", JNum 0);
                   ("skipped", JNum (Z.of_nat (length batch)))], s,
               [Log Info "Articles saved to database"])
          end).
Proof.
  intros Hup. destruct batch as [|a l].
  - split; [reflexivity|]. split; [|reflexivity].
    eexists. split; [reflexivity|]. split; reflexivity.
  - unfold asksStore, validOps.
    unfold NewsFetchScheduler.saveArticlesToDB, News.bulkUpsert,
      UnifiedNewsService.saveArticlesToDB, News.bulkWrite, News.connected,
      Logger.error, Logger.info, try_catch, bind, gets, throw, ret, emit.
    cbn [length Nat.eqb].
    destruct (length (omap News.castOp (map News.upsertOp (a :: l))) =? 0)%nat;
      cbn [negb].
    + split; [reflexivity|]. split.
      * eexists. split; [reflexivity|]. split; reflexivity.
      * cbn. rewrite !Z.sub_0_r. reflexivity.
    + rewrite Hup. cbn. split; [reflexivity|split; reflexivity].
Qed.
End ReadBack.

Lemma saved_batch_reads_back_witness :
  exists d,
    findById "newsapi_https://b.example/3"
      (news_articles
         (final (@NewsFetchScheduler.saveArticlesToDB testEnv [recordB; paddedB])
            (stateWith [storedB] quietAxios)))
    = Some d
    /\ fget "title" d = JStr "padded"
    /\ fget "language" d = JStr "en".
Proof.
  assert (Hb : Forall wellKeyed [recordB; paddedB]).
  { constructor; [eexists; reflexivity|].
    constructor; [eexists; reflexivity|constructor]. }
  assert (Hnd : NoDup (ids (@accepted testEnv [recordB; paddedB]))).
  { cbn. apply NoDup_cons. split; [|apply NoDup_singleton].
    rewrite list_elem_of_In. intros [Heq|[]]. discriminate Heq. }
  destruct (proj1 (@saved_batch_reads_back testEnv
                     (stateWith [storedB] quietAxios)
                     [recordB; paddedB] paddedB _ eq_refl
                     (proj1 storedB_uniqueIds) Hb Hnd
                     (or_intror (or_introl eq_refl)) eq_refl))
    as (i & r' & d & Hi & _ & Hd & _ & Ht & Hl).
  injection Hi as <-. exists d. split; [exact Hd|].
  split; [exact (Ht _ eq_refl)|exact (Hl _ eq_refl)].
Defined.

Lemma save_without_store_witness :
  @News.bulkUpsert testEnv [recordB] (downState [storedB])
  = (Throw notConnected, downState [storedB], [])
  /\ @NewsFetchScheduler.saveArticlesToDB testEnv
       [fset "publishedAt" (JDate None) recordB] (downState [storedB])
     = (Ok {| saved := 0; updated := 0 |}, downState [storedB], []).
Proof.
  split.
  - exact (proj1 (proj2 (@save_without_store testEnv (downState [storedB])
                           [recordB] eq_refl))).
  - exact (proj1 (@save_without_store testEnv (downState [storedB])
                    [fset "publishedAt" (JDate None) recordB] eq_refl)).
Defined.

(** ** Defaults of the normalizers *)

Lemma jor_not_nullish a b : nullish b = false -> nullish (a ||| b) = false.
Proof.
  intros Hb. unfold jor. destruct (truthy a) eqn:Ea; [|exact Hb].
  destruct a; try reflexivity; discriminate.
Qed.

Lemma jor_defined a b : b <> JUndef -> a ||| b <> JUndef.
Proof.
  intros Hb. unfold jor. destruct (truthy a) eqn:Ea; [|exact Hb].
  destruct a; try discriminate.
Qed.

Section NormalizerDefaults.
Context {E : Env}.

(** X6. A record that a normalizer returns has no hole where the schema
    wants a value: the fields with a default ([description], [content],
    [category], [country], [language], [keywords], [creator],
    [duplicate], besides [articleId], [publishedAt], [source] and
    [sourceApi]) are never [null] or [undefined], whatever the provider
    sent (a missing, [null], empty or otherwise falsy value is replaced by
    the default), the source always has a name, and the optional
    references ([urlToImage], [author], ...) are [null] rather than
    [undefined]. *)
Theorem normalized_records_are_filled (a c k : JsVal) (r : Obj) :
  (normalizeNewsDataArticle a = Ok r ->
   Forall (fun f => nullish (fget f r) = false) filledKeysA
   /\ Forall (fun f => fget f r <> JUndef) nullableKeysA
   /\ nullish (get (fget "source" r) "name") = false)
  /\ (normalizeNewsApiOrgArticle a c k = Ok r ->
      Forall (fun f => nullish (fget f r) = false) filledKeysB
      /\ Forall (fun f => fget f r <> JUndef) nullableKeysB
      /\ nullish (get (fget "source" r) "name") = false).
Proof.
  split.
  - unfold normalizeNewsDataArticle. destruct (nullish a); [discriminate|].
    destruct (negb _); [discriminate|].
    destruct (creatorJoin _) as [joined|]; [|discriminate].
    intros [= <-]. split; [|split].
    + repeat constructor; cbn [fget String.eqb Ascii.eqb Bool.eqb];
        try reflexivity; apply jor_not_nullish; reflexivity.
    + repeat constructor; cbn [fget String.eqb Ascii.eqb Bool.eqb];
        apply jor_defined; discriminate.
    + cbn [fget String.eqb Ascii.eqb Bool.eqb get].
      apply jor_not_nullish. reflexivity.
  - unfold normalizeNewsApiOrgArticle. destruct (nullish a); [discriminate|].
    destruct (negb _); [discriminate|].
    intros [= <-]. split; [|split].
    + repeat constructor; cbn [fget String.eqb Ascii.eqb Bool.eqb];
        try reflexivity; apply jor_not_nullish; reflexivity.
    + repeat constructor; cbn [fget String.eqb Ascii.eqb Bool.eqb];
        apply jor_defined; discriminate.
    + cbn [fget String.eqb Ascii.eqb Bool.eqb get].
      apply jor_not_nullish. reflexivity.
Qed.

(** X7. Every record that [fetchFromNewsApiOrg] delivers for a parameter
    set is stamped from the request, not from the article: its
    [category] and [country] are the one-element lists of the parameter
    set's category and country (empty when the set has none), its language
    is ["en"], its keywords are empty and its [sourceApi] is
    ["newsapi.org"], whatever the provider answered. *)
Theorem fetchFromNewsApiOrg_stamps_the_request (config : Obj) (s : State) :
  Forall (taggedBy config) (deliveredB s config).
Proof.
  unfold deliveredB, delivered. rewrite result_run.
  unfold NewsFetchScheduler.fetchFromNewsApiOrg,
    NewsApiOrgService.getTopHeadlines, NewsApiOrgService.makeRequest,
    axios_request, Logger.error.
  run_simpl. destruct (axios s _) as [e|data]; run_simpl; [constructor|].
  destruct (truthy (getopt data "articles")); run_simpl; [|constructor].
  destruct (arrayMap _ _) as [ys|e] eqn:Em; run_simpl; [|constructor].
  revert Em. apply arrayMap_Forall. intros x y.
  unfold normalizeNewsApiOrgArticle, cond, taggedBy.
  destruct (nullish x); [discriminate|].
  destruct (negb _); [discriminate|].
  destruct (truthy (fget "category" config)),
    (truthy (fget "country" config));
    intros [= <-];
    cbn [fget String.eqb Ascii.eqb Bool.eqb];
    (split; [reflexivity|]); (split; [reflexivity|]);
    (split; [reflexivity|]); split; reflexivity.
Qed.
End NormalizerDefaults.

Lemma normalized_records_are_filled_witness :
  nullish (fget "description" recordB) = false.
Proof.
  destruct (@normalized_records_are_filled testEnv b1
              (JArr [JStr "business"]) (JArr [JStr "in"]) recordB)
    as [_ HB].
  destruct (HB eq_refl) as (Hfilled & _).
  inversion Hfilled as [|? ? _ Hrest]. inversion Hrest as [|? ? Hd _].
  exact Hd.
Defined.

(** ** The upstream clients *)

Lemma fhas_fset k k' v o :
  fhas k (fset k' v o) = String.eqb k' k || fhas k o.
Proof.
  induction o as [|[k0 v0] o IH]; simpl.
  - reflexivity.
  - destruct (String.eqb k0 k') eqn:E0; simpl.
    + apply String.eqb_eq in E0. subst k0.
      destruct (String.eqb k' k); reflexivity.
    + rewrite IH.
      destruct (String.eqb k0 k), (String.eqb k' k); reflexivity.
Qed.

Lemma fget_addIf k k' v o :
  fget k (addIf k' v o)
  = if truthy v && String.eqb k' k then v else fget k o.
Proof.
  unfold addIf. destruct (truthy v); [|reflexivity].
  rewrite fget_fset. reflexivity.
Qed.

Lemma fhas_addIf k k' v o :
  fhas k (addIf k' v o) = (truthy v && String.eqb k' k) || fhas k o.
Proof.
  unfold addIf. destruct (truthy v); [|reflexivity].
  rewrite fhas_fset. reflexivity.
Qed.

Lemma requestsOf_app t1 t2 :
  requestsOf (t1 ++ t2) = requestsOf t1 ++ requestsOf t2.
Proof. apply omap_app. Qed.

Lemma requests_bind {A B} (m : M A) (f : A -> M B) s :
  requests (bind m f) s =
  requests m s ++ match run m s with
                  | (Ok a, s') => requests (f a) s'
                  | (Throw _, _) => []
                  end.
Proof.
  unfold requests. rewrite trace_bind, requestsOf_app.
  destruct (run m s) as [[a|e] s']; reflexivity.
Qed.

Lemma requests_try_catch {A} (m : M A) (h : JsVal -> M A) s :
  requests (try_catch m h) s =
  requests m s ++ match run m s with
                  | (Ok _, _) => []
                  | (Throw e, s') => requests (h e) s'
                  end.
Proof.
  unfold requests. rewrite trace_try_catch, requestsOf_app.
  destruct (run m s) as [[a|e] s']; reflexivity.
Qed.

Lemma requests_ret {A} (a : A) s : requests (ret a) s = [].
Proof. reflexivity. Qed.
Lemma requests_throw {A} e s : requests (@throw A e) s = [].
Proof. reflexivity. Qed.
Lemma requests_lift {A} (r : Res A) s : requests (lift r) s = [].
Proof. reflexivity. Qed.
Lemma requests_gets {A} (f : State -> A) s : requests (gets f) s = [].
Proof. reflexivity. Qed.
Lemma requests_modify f s : requests (modify f) s = [].
Proof. reflexivity. Qed.
Lemma requests_log l msg s : requests (emit (Log l msg)) s = [].
Proof. reflexivity. Qed.
Lemma requests_http r s : requests (emit (Http r)) s = [r].
Proof. reflexivity. Qed.

Ltac requests_step :=
  first [ rewrite requests_bind | rewrite requests_try_catch
        | rewrite requests_ret | rewrite requests_throw
        | rewrite requests_lift | rewrite requests_gets
        | rewrite requests_modify | rewrite requests_log
        | rewrite requests_http | run_step ].

Ltac requests_simpl := repeat (requests_step; cbn [fst snd app]).

Section Clients.
Context {E : Env}.

Lemma axios_request_eq r s :
  axios_request r s
  = (match axios s r with
     | inr data => Ok data
     | inl e => Throw (axiosErrorVal e)
     end, s, [Http r]).
Proof.
  unfold axios_request, bind, emit, gets. cbn.
  destruct (axios s r); reflexivity.
Qed.

Lemma makeRequest_eq endpoint ps s :
  NewsApiOrgService.makeRequest endpoint ps s
  = (match axios s
             {| url := BASE_URL NEWS_API_ORG_CONFIG +:+ endpoint;
                params := fset "apiKey" (JStr (API_KEY NEWS_API_ORG_CONFIG)) ps;
                timeout := Some (TIMEOUT NEWS_API_ORG_CONFIG) |} with
     | inr data => Ok data
     | inl e => Throw (NewsApiOrgService.handleError (axiosErrorVal e))
     end, s,
     [Http {| url := BASE_URL NEWS_API_ORG_CONFIG +:+ endpoint;
              params := fset "apiKey" (JStr (API_KEY NEWS_API_ORG_CONFIG)) ps;
              timeout := Some (TIMEOUT NEWS_API_ORG_CONFIG) |}]).
Proof.
  unfold NewsApiOrgService.makeRequest, try_catch. rewrite axios_request_eq.
  destruct (axios s _); reflexivity.
Qed.

Lemma handleErrorB_is_an_Error e :
  exists name message,
    NewsApiOrgService.handleError (axiosErrorVal e) = mkError name message
    /\ (name = "Error" \/ name = "TypeError").
Proof.
  destruct e as [status data| |m]; unfold NewsApiOrgService.handleError;
    cbn [axiosErrorVal get fget String.eqb Ascii.eqb Bool.eqb truthy
         printable].
  - destruct (nullish data);
      [eexists _, _; (split; [reflexivity|]); auto|].
    destruct (_ && _); eexists _, _; (split; [reflexivity|]); auto.
  - eexists _, _. split; [reflexivity|]. auto.
  - eexists _, _. split; [reflexivity|]. auto.
Qed.

Lemma makeRequest_callsOnce endpoint ps s :
  callsOnce signedB outcomeB (NewsApiOrgService.makeRequest endpoint ps) s.
Proof.
  eexists. unfold result. rewrite makeRequest_eq. cbn [fst snd].
  split; [reflexivity|]. split.
  - split; [|reflexivity]. cbn [params]. rewrite fget_fset, String.eqb_refl.
    reflexivity.
  - unfold outcomeB, result. rewrite makeRequest_eq. cbn [fst snd].
    destruct (axios s _) as [e|data]; [|reflexivity].
    destruct (handleErrorB_is_an_Error e) as (name & message & -> & Hn).
    exists name, message. split; [reflexivity|exact Hn].
Qed.

(** X8. Every method of the NewsAPI.org client makes exactly one HTTP
    call and changes nothing in the process; the call carries the
    configured key as [apiKey] (a caller's own [apiKey] parameter cannot
    replace it) and the configured timeout; it resolves with the response
    body, and when the call fails it rejects with an [Error] (a
    [TypeError] when an error response has no body), never with the raw
    axios error. There are no retries. *)
Theorem newsApiOrg_client_calls_once (endpoint : string) (ps filters : Obj)
    (query category country : JsVal) (s : State) :
  callsOnce signedB outcomeB (NewsApiOrgService.makeRequest endpoint ps) s
  /\ callsOnce signedB outcomeB (NewsApiOrgService.getTopHeadlines filters) s
  /\ callsOnce signedB outcomeB
       (NewsApiOrgClient.searchEverything query filters) s
  /\ callsOnce signedB outcomeB (NewsApiOrgClient.getSources filters) s
  /\ callsOnce signedB outcomeB
       (NewsApiOrgClient.getTopHeadlinesByCategory category filters) s
  /\ callsOnce signedB outcomeB
       (NewsApiOrgClient.getTopHeadlinesByCountry country filters) s.
Proof.
  repeat split; apply makeRequest_callsOnce.
Qed.

Lemma handleErrorA_shape e :
  exists o,
    NewsApiService.handleError (axiosErrorVal e) = JObj o
    /\ fget "success" o = JBool false
    /\ fget "status" o = JNum (statusOf e)
    /\ nullish (fget "message" o) = false.
Proof.
  destruct e as [status data| |m]; unfold NewsApiService.handleError;
    cbn [axiosErrorVal get fget String.eqb Ascii.eqb Bool.eqb truthy];
    eexists; (split; [reflexivity|]);
    cbn [fget String.eqb Ascii.eqb Bool.eqb statusOf];
    (split; [reflexivity|]); (split; [reflexivity|]);
    try reflexivity; apply jor_not_nullish; reflexivity.
Qed.

Lemma clientA_callsOnce r (m : M JsVal) s :
  fget "apikey" (params r) = JStr (API_KEY NEWS_API_CONFIG) ->
  timeout r = None ->
  m = try_catch
        (data <- axios_request r ;;
         ret (JObj [("success", JBool true); ("data", data)]))
        (fun error => throw (NewsApiService.handleError error)) ->
  callsOnce signedA outcomeA m s.
Proof.
  intros Hkey Hto ->. exists r.
  assert (Heq : try_catch
                  (data <- axios_request r ;;
                   ret (JObj [("success", JBool true); ("data", data)]))
                  (fun error => throw (NewsApiService.handleError error)) s
                = (match axios s r with
                   | inr data =>
                       Ok (JObj [("success", JBool true); ("data", data)])
                   | inl e =>
                       Throw (NewsApiService.handleError (axiosErrorVal e))
                   end, s, [Http r])).
  { unfold try_catch, bind. rewrite axios_request_eq.
    destruct (axios s r); reflexivity. }
  unfold outcomeA, result. rewrite Heq. cbn [fst snd].
  split; [reflexivity|]. split; [split; assumption|].
  destruct (axios s r) as [e|data]; [|reflexivity].
  destruct (handleErrorA_shape e) as (o & -> & Hs & Hst & Hm).
  exists o. split; [reflexivity|]. split; [exact Hs|split; assumption].
Qed.

(** X9. Every method of the NewsData.io client makes exactly one HTTP
    call, signed with the configured key as [apikey] and without a
    timeout, and changes nothing in the process. It resolves only with
    [{ success: true, data }]; when the call fails it rejects with a plain
    object whose [success] is [false], whose [status] is the provider's
    status, 503 when no response came, 500 when the request could not be
    sent, and whose [message] is never empty. *)
Theorem newsData_client_calls_once (filters : Obj) (query : JsVal)
    (s : State) :
  callsOnce signedA outcomeA (NewsApiService.getLatestNews filters) s
  /\ callsOnce signedA outcomeA (NewsDataClient.searchNews query filters) s
  /\ callsOnce signedA outcomeA (NewsDataClient.getNewsSources filters) s.
Proof.
  split; [|split].
  - eapply (clientA_callsOnce (latestRequest filters)); [|reflexivity|].
    + unfold latestRequest. cbn [params]. rewrite !fget_addIf.
      cbn [String.eqb Ascii.eqb Bool.eqb fget]. rewrite !andb_false_r.
      reflexivity.
    + reflexivity.
  - eapply clientA_callsOnce; [| |reflexivity]; [|reflexivity].
    cbn [params]. rewrite !fget_addIf.
    cbn [String.eqb Ascii.eqb Bool.eqb fget]. rewrite !andb_false_r.
    reflexivity.
  - eapply clientA_callsOnce; [| |reflexivity]; reflexivity.
Qed.

Ltac key_cases H :=
  repeat (apply orb_true_iff in H; destruct H as [H|H]);
  try discriminate H;
  try (apply andb_true_iff in H; destruct H as [_ H]);
  apply String.eqb_eq in H; subst; simpl; tauto.

(** X10. The clients forward only what they know: the request of
    [getTopHeadlines] carries the key and, of the caller's filters, only
    [country], [category], [q], [sources], [pageSize] and [page], each
    exactly when it is truthy; the request of [getLatestNews] carries the
    key and only [country], [language], [category], [q] and [page], where
    a missing [page] is sent as 1 and a falsy one is left out. Any other
    member of the filters object never reaches the provider. *)
Theorem clients_forward_only_known_parameters (filters : Obj) :
  (onlyKeys ("apiKey" :: headlineParams) (topHeadlinesRequest filters)
   /\ forwards headlineParams filters (topHeadlinesRequest filters))
  /\ (onlyKeys ("apikey" :: "page" :: latestParams) (latestRequest filters)
      /\ forwards latestParams filters (latestRequest filters)
      /\ fget "page" (params (latestRequest filters))
         = match fget "page" filters with
           | JUndef => JNum 1
           | p => if truthy p then p else JUndef
           end).
Proof.
  split; [split|split; [|split]].
  - intros k Hk. unfold topHeadlinesRequest in Hk. cbn [params] in Hk.
    rewrite fhas_fset, !fhas_addIf in Hk. cbn [fhas] in Hk.
    rewrite orb_false_r in Hk. unfold headlineParams. key_cases Hk.
  - intros k Hk. unfold topHeadlinesRequest. cbn [params].
    rewrite fget_fset, !fget_addIf. unfold headlineParams in Hk.
    simpl in Hk.
    destruct Hk as [<-|[<-|[<-|[<-|[<-|[<-|[]]]]]]];
      cbn [String.eqb Ascii.eqb Bool.eqb fget];
      rewrite ?andb_false_r, ?andb_true_r;
      destruct (truthy (fget _ filters)); reflexivity.
  - intros k Hk. unfold latestRequest in Hk. cbn [params] in Hk.
    rewrite !fhas_addIf in Hk. cbn [fhas] in Hk.
    rewrite orb_false_r in Hk. unfold latestParams. key_cases Hk.
  - intros k Hk. unfold latestRequest. cbn [params].
    rewrite !fget_addIf. unfold latestParams in Hk. simpl in Hk.
    destruct Hk as [<-|[<-|[<-|[<-|[]]]]];
      cbn [String.eqb Ascii.eqb Bool.eqb fget];
      rewrite ?andb_false_r, ?andb_true_r;
      destruct (truthy (fget _ filters)); reflexivity.
  - unfold latestRequest. cbn [params]. rewrite !fget_addIf.
    cbn [String.eqb Ascii.eqb Bool.eqb fget].
    rewrite ?andb_false_r, ?andb_true_r.
    destruct (fget "page" filters) as [| |b|n|x|t|xs|fs]; try reflexivity.
Qed.
End Clients.

(** ** The requests of a slot, and of a day *)

Lemma httpCalls_requestsOf t : httpCalls t = length (requestsOf t).
Proof.
  unfold httpCalls, requestsOf.
  induction t as [|[l msg|r] t IH]; cbn; [reflexivity|exact IH|].
  f_equal. exact IH.
Qed.

Lemma countTo_app p t1 t2 : countTo p (t1 ++ t2) = countTo p t1 + countTo p t2.
Proof. unfold countTo. rewrite List.filter_app, length_app. lia. Qed.

Lemma countTo_map_all {A} p (f : A -> Request) l :
  (forall x, p (f x) = true) -> countTo p (map f l) = Z.of_nat (length l).
Proof.
  intros Hp. unfold countTo. induction l as [|x l IH]; [reflexivity|].
  cbn [map List.filter]. rewrite Hp. cbn [length]. lia.
Qed.

Lemma countTo_map_none {A} p (f : A -> Request) l :
  (forall x, p (f x) = false) -> countTo p (map f l) = 0.
Proof.
  intros Hp. unfold countTo. induction l as [|x l IH]; [reflexivity|].
  cbn [map List.filter]. rewrite Hp. exact IH.
Qed.

Section SlotRequests.
Context {E : Env}.

Lemma getLatestNews_eq filters s :
  NewsApiService.getLatestNews filters s
  = (match axios s (latestRequest filters) with
     | inr data => Ok (JObj [("success", JBool true); ("data", data)])
     | inl e => Throw (NewsApiService.handleError (axiosErrorVal e))
     end, s, [Http (latestRequest filters)]).
Proof.
  unfold NewsApiService.getLatestNews, try_catch, bind.
  fold (latestRequest filters). rewrite axios_request_eq.
  destruct (axios s _); reflexivity.
Qed.

Lemma fetchFromNewsData_requests config s :
  requests (NewsFetchScheduler.fetchFromNewsData config) s
  = [latestRequest config].
Proof.
  unfold requests, trace, NewsFetchScheduler.fetchFromNewsData, try_catch,
    bind. rewrite getLatestNews_eq.
  destruct (axios s _); reflexivity.
Qed.

Lemma fetchFromNewsApiOrg_requests config s :
  requests (NewsFetchScheduler.fetchFromNewsApiOrg config) s
  = [topHeadlinesRequest config].
Proof.
  unfold requests, trace, NewsFetchScheduler.fetchFromNewsApiOrg,
    NewsApiOrgService.getTopHeadlines, try_catch, bind.
  rewrite makeRequest_eq. fold (topHeadlinesRequest config).
  destruct (axios s _) as [e|data]; [reflexivity|].
  destruct (truthy (getopt data "articles")); [|reflexivity].
  unfold lift. destruct (arrayMap _ _); reflexivity.
Qed.

Lemma fetchEach_requests fetch done (get1 : State -> Obj -> list Obj)
    (req : Obj -> Request) configs :
  (forall c s, run (fetch c) s = (Ok (get1 s c), s)) ->
  (forall c s, requests (fetch c) s = [req c]) ->
  forall acc s,
    requests (NewsFetchScheduler.fetchEach fetch done configs acc) s
    = map req configs.
Proof.
  intros Hr Hq. induction configs as [|c cs IH]; intros acc s;
    cbn [NewsFetchScheduler.fetchEach map].
  - reflexivity.
  - unfold Logger.info. requests_simpl. rewrite Hq, Hr. requests_simpl.
    rewrite IH. reflexivity.
Qed.

Lemma saveArticlesToDB_requests articles s :
  requests (NewsFetchScheduler.saveArticlesToDB articles) s = [].
Proof.
  pose proof (saveArticlesToDB_calls articles s) as Hc.
  unfold calls in Hc. rewrite httpCalls_requestsOf in Hc.
  unfold requests. destruct (requestsOf _); [reflexivity|discriminate].
Qed.

Lemma executeScheduledFetch_requests name s :
  requests (NewsFetchScheduler.executeScheduledFetch (JStr name)) s
  = match FETCH_SCHEDULE !! name with
    | Some schedule => slotRequests schedule
    | None => []
    end.
Proof.
  destruct (FETCH_SCHEDULE !! name) as [schedule|] eqn:Es.
  - unfold NewsFetchScheduler.executeScheduledFetch,
      NewsFetchScheduler.lookupSchedule.
    cbn [template printable str toString]. requests_simpl. rewrite Es.
    unfold Logger.info, Logger.error, modify_stats.
    requests_simpl. rewrite fetchAndSave_run.
    unfold NewsFetchScheduler.fetchAndSave, Logger.info, Logger.warn,
      modify_stats.
    requests_simpl.
    rewrite (fetchEach_requests _ _ deliveredA latestRequest);
      [|intros; rewrite deliveredA_nil; apply fetchFromNewsData_run
       |apply fetchFromNewsData_requests].
    rewrite (fetchEach_run _ _ deliveredA);
      [|intros; rewrite deliveredA_nil; apply fetchFromNewsData_run].
    requests_simpl.
    rewrite (fetchEach_requests _ _ deliveredB topHeadlinesRequest);
      [|apply fetchFromNewsApiOrg_run|apply fetchFromNewsApiOrg_requests].
    rewrite (fetchEach_run _ _ deliveredB); [|apply fetchFromNewsApiOrg_run].
    requests_simpl. fold (slotBatch schedule s). unfold slotRequests.
    destruct (slotBatch schedule s) as [|a l]; cbn [length Nat.ltb Nat.leb].
    + requests_simpl. rewrite !app_nil_r. reflexivity.
    + requests_simpl. rewrite saveArticlesToDB_requests.
      rewrite saveArticlesToDB_run.
      destruct (writeThrows (a :: l) s); requests_simpl; rewrite !app_nil_r;
        reflexivity.
  - destruct (executeScheduledFetch_unknown (JStr name) s eq_refl Es)
      as (_ & Hc & _).
    cbn zeta in Hc. unfold calls in Hc. rewrite httpCalls_requestsOf in Hc.
    unfold requests. destruct (requestsOf _); [reflexivity|discriminate].
Qed.

(** X11. The requests of a slot execution are fixed by the schedule
    alone: for a configured slot they are the [getLatestNews] request of
    each NewsData.io parameter set, in order, then the [getTopHeadlines]
    request of each NewsAPI.org parameter set, in order - whatever any
    provider answers, whatever the store holds and whether or not it can
    be reached; for any other name no request is sent. No request is
    repeated or skipped after a failure. *)
Theorem slot_requests_are_fixed_by_the_schedule (name : string) (s : State) :
  requests (NewsFetchScheduler.executeScheduledFetch (JStr name)) s
  = match FETCH_SCHEDULE !! name with
    | Some schedule =>
        map latestRequest (newsDataConfig schedule)
        ++ map topHeadlinesRequest (newsApiConfig schedule)
    | None => []
    end.
Proof. apply executeScheduledFetch_requests. Qed.

Lemma toNewsData_latestRequest c : toNewsData (latestRequest c) = true.
Proof.
  unfold toNewsData, latestRequest. cbn [params]. rewrite !fhas_addIf.
  cbn [fhas String.eqb Ascii.eqb Bool.eqb]. rewrite !orb_true_r. reflexivity.
Qed.

Lemma toNewsApiOrg_latestRequest c : toNewsApiOrg (latestRequest c) = false.
Proof.
  unfold toNewsApiOrg, latestRequest. cbn [params]. rewrite !fhas_addIf.
  cbn [fhas String.eqb Ascii.eqb Bool.eqb]. rewrite !andb_false_r.
  reflexivity.
Qed.

Lemma toNewsApiOrg_topHeadlinesRequest c :
  toNewsApiOrg (topHeadlinesRequest c) = true.
Proof.
  unfold toNewsApiOrg, topHeadlinesRequest. cbn [params].
  rewrite fhas_fset, String.eqb_refl. reflexivity.
Qed.

Lemma toNewsData_topHeadlinesRequest c :
  toNewsData (topHeadlinesRequest c) = false.
Proof.
  unfold toNewsData, topHeadlinesRequest. cbn [params].
  rewrite fhas_fset, !fhas_addIf.
  cbn [fhas String.eqb Ascii.eqb Bool.eqb]. rewrite !andb_false_r.
  reflexivity.
Qed.

Lemma countTo_slotRequests schedule :
  countTo toNewsData (slotRequests schedule)
  = Z.of_nat (length (newsDataConfig schedule))
  /\ countTo toNewsApiOrg (slotRequests schedule)
     = Z.of_nat (length (newsApiConfig schedule)).
Proof.
  unfold slotRequests. rewrite !countTo_app.
  rewrite (countTo_map_all toNewsData), (countTo_map_none toNewsData),
    (countTo_map_none toNewsApiOrg), (countTo_map_all toNewsApiOrg);
    auto using toNewsData_latestRequest, toNewsApiOrg_latestRequest,
      toNewsApiOrg_topHeadlinesRequest, toNewsData_topHeadlinesRequest.
  split; lia.
Qed.

Lemma runSlots_requests names : forall s,
  requests (runSlots names) s
  = flat_map slotRequests (omap (fun key => FETCH_SCHEDULE !! key) names).
Proof.
  induction names as [|n ns IH]; intros s;
    cbn [runSlots omap list_omap flat_map]; [reflexivity|].
  rewrite requests_bind, executeScheduledFetch_requests.
  pose proof (executeScheduledFetch_result (JStr n) s eq_refl) as Hres.
  rewrite result_run in Hres.
  destruct (run (NewsFetchScheduler.executeScheduledFetch (JStr n)) s)
    as [[[]|e] s']; cbn [fst] in Hres; [|discriminate].
  rewrite IH.
  destruct (FETCH_SCHEDULE !! n) as [schedule|]; reflexivity.
Qed.

Lemma countTo_flat_map p (size : Schedule -> nat) l : forall acc,
  (forall schedule, countTo p (slotRequests schedule)
                    = Z.of_nat (size schedule)) ->
  acc + countTo p (flat_map slotRequests l)
  = fold_left (fun sum schedule => sum + Z.of_nat (size schedule)) l acc.
Proof.
  induction l as [|x l IH]; intros acc Hp; cbn [flat_map fold_left].
  - unfold countTo. cbn. lia.
  - rewrite countTo_app, Hp, <- IH; [lia|exact Hp].
Qed.

(** X12. The estimate is exact. When each slot of the schedule fires
    once (a day of the scheduler), the number of requests sent to
    NewsData.io is the [estimated] figure that [getEstimatedDailyCredits]
    reports for it, and likewise for NewsAPI.org, whatever the providers
    answer and whatever happens to the store; and the schedule stays
    within both daily limits ([remaining] is not negative). *)
Theorem daily_requests_match_the_estimate (s : State) :
  let sent := requests (runSlots FetchScheduleConfig.keys) s in
  let credits := FetchScheduleConfig.getEstimatedDailyCredits in
  countTo toNewsData sent
  = FetchScheduleConfig.estimated (FetchScheduleConfig.newsDataIo credits)
  /\ countTo toNewsApiOrg sent
     = FetchScheduleConfig.estimated (FetchScheduleConfig.newsApiOrg credits)
  /\ 0 <= FetchScheduleConfig.remaining (FetchScheduleConfig.newsDataIo credits)
  /\ 0 <= FetchScheduleConfig.remaining (FetchScheduleConfig.newsApiOrg credits).
Proof.
  cbn zeta. rewrite runSlots_requests.
  fold FetchScheduleConfig.values.
  unfold FetchScheduleConfig.getEstimatedDailyCredits.
  cbn [FetchScheduleConfig.estimated FetchScheduleConfig.newsDataIo
       FetchScheduleConfig.newsApiOrg FetchScheduleConfig.remaining].
  split; [|split].
  - rewrite <- (countTo_flat_map toNewsData (fun x => length (newsDataConfig x)));
      [lia|apply countTo_slotRequests].
  - rewrite <- (countTo_flat_map toNewsApiOrg (fun x => length (newsApiConfig x)));
      [lia|apply countTo_slotRequests].
  - split; vm_compute; discriminate.
Qed.
End SlotRequests.

(** ** Listings of the News model *)


Lemma countDocuments_run q s :
  run (News.countDocuments q) s
  = if dbUp s
    then (Ok (countWhere (News.matches q) (news_articles s)), s)
    else (Throw notConnected, s).
Proof.
  unfold News.countDocuments, News.connected. run_simpl.
  destruct (dbUp s); run_simpl; reflexivity.
Qed.

Lemma page_length skip limit l :
  limit <> 0 -> Z.of_nat (length (News.page skip limit l)) <= Z.abs limit.
Proof.
  intros Hl. unfold News.page, News.limitTo.
  destruct (Z.eqb_spec limit 0); [contradiction|].
  rewrite length_take. lia.
Qed.


#[global] Instance bestFirst_total : Total News.bestFirst.
Proof.
  intros a b. unfold News.bestFirst.
  destruct (Z.eqb_spec (numOf (fget "score" a)) (numOf (fget "score" b)))
    as [Heq|Hne].
  - rewrite Heq, Z.eqb_refl. apply optLe_total.
  - destruct (Z.eqb_spec (numOf (fget "score" b)) (numOf (fget "score" a)));
      [congruence|].
    rewrite !Z.leb_le. lia.
Qed.

#[global] Instance bestFirst_trans : Transitive News.bestFirst.
Proof.
  intros a b c. unfold News.bestFirst.
  destruct (Z.eqb_spec (numOf (fget "score" a)) (numOf (fget "score" b))),
    (Z.eqb_spec (numOf (fget "score" b)) (numOf (fget "score" c))),
    (Z.eqb_spec (numOf (fget "score" a)) (numOf (fget "score" c)));
    rewrite ?Z.leb_le; intros Hab Hbc; try lia.
  exact (optLe_trans _ _ _ Hbc Hab).
Qed.

Lemma visible_score v d : visible (fset "score" v d) = visible d.
Proof.
  unfold visible, News.matches, News.notDeleted. cbn [forallb fst snd].
  rewrite !fget_fset. reflexivity.
Qed.



Section Statics.
Context {E : Env}.

End Statics.


(** ** Counting *)

Lemma filter_length_impl {A} (p q : A -> bool) l :
  (forall x, p x = true -> q x = true) ->
  (length (List.filter p l) <= length (List.filter q l))%nat.
Proof.
  intros Hpq. induction l as [|x l IH]; [reflexivity|]. cbn [List.filter].
  destruct (p x) eqn:Ep.
  - rewrite (Hpq x Ep). cbn [length]. lia.
  - destruct (q x); cbn [length]; lia.
Qed.

Lemma In_fset k v (o : Obj) : In (k, v) (fset k v o).
Proof.
  induction o as [|[k0 v0] o IH]; simpl; [left; reflexivity|].
  destruct (String.eqb k0 k); [left; reflexivity|right; exact IH].
Qed.

Lemma In_fset_other k v k' v' (o : Obj) :
  In (k, v) o -> k <> k' -> In (k, v) (fset k' v' o).
Proof.
  intros Hin Hne. induction o as [|[k0 v0] o IH]; [destruct Hin|]. simpl.
  destruct (String.eqb k0 k') eqn:E0.
  - apply String.eqb_eq in E0. subst k0. destruct Hin as [[= <- <-]|Hin];
      [congruence|right; exact Hin].
  - destruct Hin as [Heq|Hin]; [left; exact Heq|right; apply IH, Hin].
Qed.

Lemma matches_assign_notDeleted filters d :
  News.matches (assign News.notDeleted filters) d = true -> visible d = true.
Proof.
  intros Hm. unfold News.matches in Hm.
  rewrite forallb_forall in Hm.
  unfold visible, News.matches, News.notDeleted. cbn [forallb fst snd].
  unfold assign, News.notDeleted in Hm. cbn [fold_right fst snd] in Hm.
  pose proof (Hm ("isDeleted", JBool false) (In_fset _ _ _)) as H1.
  assert (H2 : News.matchCond (fget "duplicate" d) (JBool false) = true).
  { apply (Hm ("duplicate", JBool false)).
    apply In_fset_other; [apply In_fset|discriminate]. }
  cbn [fst snd] in H1. rewrite H1, H2. reflexivity.
Qed.

(** X14. [countByFilters] never counts a soft-deleted or duplicate
    record, whatever the caller puts into the filters - also when the
    filters ask for [isDeleted: true] or [duplicate: true], which the
    method overrides: what it answers is at most the number of visible
    records. It changes nothing. *)
Theorem countByFilters_counts_only_visible (filters : Obj) (s : State)
    (n : Z) :
  result (News.countByFilters filters) s = Ok n ->
  final (News.countByFilters filters) s = s
  /\ 0 <= n <= countWhere visible (news_articles s).
Proof.
  unfold News.countByFilters.
  rewrite final_run, result_run, countDocuments_run.
  destruct (dbUp s); cbn [fst snd]; [|discriminate].
  intros [= <-]. split; [reflexivity|].
  unfold countWhere. split; [lia|]. apply inj_le, filter_length_impl.
  apply matches_assign_notDeleted.
Qed.

Lemma countByFilters_counts_only_visible_witness :
  let s := stateWith [storedB; deletedDoc] quietAxios in
  0 <= 1 <= countWhere visible (news_articles s).
Proof.
  intros s.
  exact (proj2 (countByFilters_counts_only_visible
                  [("isDeleted", JBool true)] s 1 eq_refl)).
Defined.

(** ** Answers of the read service *)

Section ReadAnswers.
Context {E : Env}.




(** X16. The search of the service returns at most 20 articles: the
    [100] it hands to [News.searchArticles] is not an options object, so
    the default limit applies; [totalResults] is the number of articles
    returned, not the number of matches; no returned article is
    soft-deleted or a duplicate, and the filters play no part in the
    answer. *)
Theorem search_returns_at_most_twenty (query : string) (filters filters' : Obj)
    (s : State) :
  answers
    (fun o =>
       exists l,
         carries o l (Z.of_nat (length l))
         /\ Z.of_nat (length l) <= 20
         /\ Forall (fun d => visible d = true) l)
    (UnifiedNewsService.searchNews query filters) s
  /\ UnifiedNewsService.searchNews query filters s
     = UnifiedNewsService.searchNews query filters' s.
Proof.
  split; [|reflexivity]. unfold answers.
  rewrite final_run, result_run.
  unfold UnifiedNewsService.searchNews, News.searchArticles, News.connected,
    Logger.info, Logger.error.
  cbn [News.destructure].
  run_simpl. destruct (dbUp s) eqn:Eup; run_simpl; [|split; reflexivity].
  split; [reflexivity|]. eexists. split; [reflexivity|].
  eexists. split; [split; reflexivity|]. split.
  - apply (page_length _ 20). discriminate.
  - apply List.Forall_forall. intros d Hd.
    apply page_In in Hd. apply list_elem_of_In in Hd.
    rewrite merge_sort_Permutation in Hd. apply list_elem_of_In in Hd.
    apply in_map_iff in Hd as (d0 & <- & Hd0).
    apply List.filter_In in Hd0 as [_ Hm].
    apply andb_true_iff in Hm as [_ Hvis].
    rewrite visible_score. exact Hvis.
Qed.
End ReadAnswers.

(** ** Freshness and statistics *)

Lemma In_addIf kv k v (o : Obj) :
  In kv o -> kv.1 <> k -> In kv (addIf k v o).
Proof.
  intros Hin Hne. unfold addIf. destruct (truthy v); [|exact Hin].
  destruct kv as [k0 v0]. apply In_fset_other; assumption.
Qed.

Lemma fresh_matchCond t d :
  News.matchCond (fget "fetchedAt" d)
    (JObj [("$gte", JDate (Some (t - 30 * 60 * 1000)))]) = true
  <-> freshAt t d.
Proof.
  unfold News.matchCond, freshAt, News.fetchedAt.
  cbn [fhas fget String.eqb Ascii.eqb Bool.eqb orb dateOf].
  destruct (dateOf (fget "fetchedAt" d)) as [f|].
  - rewrite Z.leb_le. split.
    + intros H. exists f. split; [reflexivity|exact H].
    + intros (f' & [= <-] & H). exact H.
  - split; [discriminate|]. intros (f' & [=] & _).
Qed.

Lemma countWhere_pos p docs :
  0 < countWhere p docs <-> exists d, In d docs /\ p d = true.
Proof.
  unfold countWhere. split.
  - intros H. destruct (List.filter p docs) as [|d l] eqn:Ef;
      [cbn in H; lia|].
    exists d. apply List.filter_In. rewrite Ef. left. reflexivity.
  - intros (d & Hd). apply List.filter_In in Hd.
    destruct (List.filter p docs); [destruct Hd|cbn [length]; lia].
Qed.

Section Freshness.
Context {E : Env}.

(** X17. [hasFreshCache] never rejects and changes nothing: it answers
    [false] when the store cannot be reached (after logging the error),
    and it answers [true] only when the store holds a record that was
    fetched within the last 30 minutes; without filters that is exactly
    when it answers [true]. *)
Theorem hasFreshCache_never_rejects (filters : Obj) (s : State) :
  final (UnifiedNewsService.hasFreshCache filters) s = s
  /\ (exists b,
        result (UnifiedNewsService.hasFreshCache filters) s = Ok b
        /\ (b = true ->
            dbUp s = true
            /\ exists d, In d (news_articles s) /\ freshAt (now s) d))
  /\ (result (UnifiedNewsService.hasFreshCache []) s = Ok true
      <-> dbUp s = true
          /\ exists d, In d (news_articles s) /\ freshAt (now s) d).
Proof.
  rewrite final_run, !result_run.
  unfold UnifiedNewsService.hasFreshCache, Logger.error,
    UnifiedNewsService.cacheExpiryMinutes.
  rewrite !run_try_catch, !run_bind, !run_gets. cbn [fst snd].
  rewrite !run_bind, !countDocuments_run.
  destruct (dbUp s); cbn [fst snd]; run_simpl.
  - split; [reflexivity|]. split.
    + eexists. split; [reflexivity|]. intros Hb. split; [reflexivity|].
      apply Z.ltb_lt, countWhere_pos in Hb as (d & Hd & Hm).
      exists d. split; [exact Hd|]. apply fresh_matchCond.
      unfold News.matches in Hm. rewrite forallb_forall in Hm.
      apply (Hm ("fetchedAt",
                 JObj [("$gte", JDate (Some (now s - 30 * 60 * 1000)))])).
      repeat (apply In_addIf; [|discriminate]). left. reflexivity.
    + unfold addIf. cbn [fget truthy]. split.
      * intros [= Hb]. split; [reflexivity|].
        apply Z.ltb_lt, countWhere_pos in Hb as (d & Hd & Hm).
        exists d. split; [exact Hd|]. apply fresh_matchCond.
        unfold News.matches in Hm. cbn [forallb fst snd] in Hm.
        apply andb_true_iff in Hm. apply Hm.
      * intros (_ & d & Hd & Hf). f_equal. apply Z.ltb_lt, countWhere_pos.
        exists d. split; [exact Hd|]. unfold News.matches.
        cbn [forallb fst snd]. apply andb_true_iff. split; [|reflexivity].
        apply fresh_matchCond, Hf.
  - split; [reflexivity|]. split.
    + exists false. split; [reflexivity|discriminate].
    + split; [discriminate|]. intros [[=] _].
Qed.

Lemma getStats_run s :
  run UnifiedNewsService.getStats s
  = if dbUp s
    then
      (Ok [("total", JNum (countWhere (News.matches []) (news_articles s)));
           ("bySource",
             JObj [("newsDataIo",
                     JNum (countWhere
                             (News.matches [("sourceApi", JStr "newsdata.io")])
                             (news_articles s)));
                   ("newsApiOrg",
                     JNum (countWhere
                             (News.matches [("sourceApi", JStr "newsapi.org")])
                             (news_articles s)))]);
           ("recentArticles",
             JNum (countWhere
                     (News.matches
                        [("fetchedAt",
                           JObj [("$gte",
                                   JDate (Some (now s - 24 * 60 * 60 * 1000)))])])
                     (news_articles s)))], s)
    else (Throw notConnected, s).
Proof.
  unfold UnifiedNewsService.getStats, Logger.error.
  rewrite run_try_catch, run_bind, countDocuments_run.
  destruct (dbUp s) eqn:Eup; cbn [fst snd].
  - rewrite run_bind, countDocuments_run, Eup. cbn [fst snd].
    rewrite run_bind, countDocuments_run, Eup. cbn [fst snd].
    rewrite run_bind, run_gets. cbn [fst snd].
    rewrite run_bind, countDocuments_run, Eup. cbn [fst snd].
    rewrite run_ret. reflexivity.
  - run_simpl. reflexivity.
Qed.

Lemma matches_sourceApi d x v :
  fget "sourceApi" d = JStr x ->
  News.matches [("sourceApi", JStr v)] d = String.eqb x v.
Proof.
  intros Hd. unfold News.matches. simpl. rewrite Hd.
  unfold News.matchCond, News.matchEq. simpl.
  rewrite orb_false_r, andb_true_r. reflexivity.
Qed.

Lemma countWhere_disjoint (p q : Obj -> bool) docs :
  Forall (fun d => p d && q d = false) docs ->
  countWhere p docs + countWhere q docs <= Z.of_nat (length docs).
Proof.
  unfold countWhere. induction 1 as [|d ds Hd _ IH]; [cbn; lia|].
  cbn [List.filter length].
  destruct (p d), (q d); cbn [length] in *; try discriminate; lia.
Qed.

Lemma countWhere_le p docs : 0 <= countWhere p docs <= Z.of_nat (length docs).
Proof.
  unfold countWhere. pose proof (List.filter_length_le p docs). lia.
Qed.

Lemma countWhere_all docs :
  countWhere (News.matches []) docs = Z.of_nat (length docs).
Proof.
  unfold countWhere. induction docs as [|d l IH]; [reflexivity|].
  cbn [List.filter News.matches forallb length] in *. lia.
Qed.

(** X18. The figures of [getStats] are consistent: [total] is the size
    of the collection (soft-deleted records included), [recentArticles]
    lies between 0 and [total], and, [sourceApi] being a string, no record
    is counted for both providers, so the two [bySource] figures add up to
    at most [total]. *)
Theorem getStats_figures_are_consistent (s : State) (o : Obj) :
  result UnifiedNewsService.getStats s = Ok o ->
  Forall typedSourceApi (news_articles s) ->
  let '(total, newsDataIo, newsApiOrg, recent) := statsOf o in
  total = Z.of_nat (length (news_articles s))
  /\ 0 <= recent <= total
  /\ 0 <= newsDataIo /\ 0 <= newsApiOrg
  /\ newsDataIo + newsApiOrg <= total.
Proof.
  rewrite result_run, getStats_run. destruct (dbUp s); [|discriminate].
  cbn [fst]. intros [= <-] Ht. unfold statsOf.
  cbn [fget get String.eqb Ascii.eqb Bool.eqb numOf].
  rewrite countWhere_all. split; [reflexivity|]. split; [apply countWhere_le|].
  split; [apply countWhere_le|]. split; [apply countWhere_le|].
  apply countWhere_disjoint. eapply Forall_impl; [exact Ht|].
  intros d [x Hx]. cbv beta. rewrite !(matches_sourceApi d x _ Hx).
  destruct (String.eqb_spec x "newsdata.io") as [->|]; [reflexivity|].
  reflexivity.
Qed.
End Freshness.

Lemma hasFreshCache_never_rejects_witness :
  result (UnifiedNewsService.hasFreshCache [])
    (stateWith [recordA] quietAxios) = Ok true.
Proof.
  apply (proj2 (proj2 (hasFreshCache_never_rejects []
                         (stateWith [recordA] quietAxios)))).
  split; [reflexivity|]. exists recordA. split; [left; reflexivity|].
  exists 1714559000000. split; [reflexivity|]. vm_compute. discriminate.
Defined.

Lemma getStats_figures_are_consistent_witness :
  let s := stateWith [recordB; recordA] quietAxios in
  exists o, result UnifiedNewsService.getStats s = Ok o
            /\ numOf (fget "total" o) = 2.
Proof.
  intros s. eexists. split; [vm_compute; reflexivity|].
  assert (Ht : Forall typedSourceApi (news_articles s))
    by (repeat constructor; eexists; reflexivity).
  pose proof (getStats_figures_are_consistent s _ eq_refl Ht) as H.
  destruct H as [H _]. exact H.
Defined.

(** ** Recency is set on insert only *)

Lemma countWhere_app p l1 l2 :
  countWhere p (l1 ++ l2) = countWhere p l1 + countWhere p l2.
Proof. unfold countWhere. rewrite List.filter_app, length_app. lia. Qed.

Lemma countWhere_sameKept p docs kept :
  Forall2 sameKept docs kept ->
  (forall d d', sameKept d d' -> p d' = p d) ->
  countWhere p kept = countWhere p docs.
Proof.
  intros HF Hp. unfold countWhere.
  induction HF as [|d d' ds ds' Hd _ IH]; [reflexivity|].
  cbn [List.filter]. rewrite (Hp d d' Hd).
  destruct (p d); cbn [length]; lia.
Qed.

Lemma sameKept_fetchedAt c d d' :
  sameKept d d' ->
  News.matches [("fetchedAt", c)] d' = News.matches [("fetchedAt", c)] d.
Proof.
  intros [_ Hk]. unfold News.matches. cbn [forallb fst snd].
  rewrite (Hk "fetchedAt"); [reflexivity|]. unfold keptKeys. simpl. tauto.
Qed.

(** A later reading counts fewer records as recent. *)
Lemma since_mono a b d :
  a <= b ->
  News.matches [("fetchedAt", JObj [("$gte", JDate (Some b))])] d = true ->
  News.matches [("fetchedAt", JObj [("$gte", JDate (Some a))])] d = true.
Proof.
  intros Hab. unfold News.matches. cbn [forallb fst snd].
  rewrite !andb_true_r. unfold News.matchCond.
  cbn [fhas fget String.eqb Ascii.eqb Bool.eqb orb dateOf].
  destruct (dateOf (fget "fetchedAt" d)) as [f|]; [|discriminate].
  intros H. apply Z.leb_le in H. apply Z.leb_le. lia.
Qed.

Section Recency.
Context {E : Env}.

(** X19. Recency is earned once. Whatever time has passed when it is read
    again, the [recentArticles] figure of [getStats] after a slot
    execution exceeds the figure before it by no more than the number of
    records the execution inserted: an article that is fetched again keeps
    the [fetchedAt] of its insertion, so re-fetching it does not make it
    recent. *)
Theorem refetching_does_not_renew_recency (name : string) (s : State)
    (later : Z) (o o' : Obj) :
  Forall wellKeyed (news_articles s) ->
  now s <= later ->
  result UnifiedNewsService.getStats s = Ok o ->
  result UnifiedNewsService.getStats
    (set_now later
       (final (NewsFetchScheduler.executeScheduledFetch (JStr name)) s))
  = Ok o' ->
  let '(total, _, _, recent) := statsOf o in
  let '(total', _, _, recent') := statsOf o' in
  recent' - recent <= total' - total.
Proof.
  intros Hk Hlater. rewrite !result_run, !getStats_run.
  cbn [dbUp news_articles now set_now].
  destruct (executeScheduledFetch_keeps_clock name s) as [_ ->].
  destruct (dbUp s); [|discriminate]. cbn [fst]. intros [= <-] [= <-].
  unfold statsOf. cbn [fget get String.eqb Ascii.eqb Bool.eqb numOf].
  destruct (slot_store_frame name s Hk) as (kept & inserted & -> & HF).
  rewrite !countWhere_all, countWhere_app, length_app.
  rewrite (countWhere_sameKept _ _ _ HF);
    [|intros d d' Hd; apply sameKept_fetchedAt, Hd].
  rewrite <- (Forall2_length _ _ _ HF).
  pose proof (countWhere_le
                (News.matches
                   [("fetchedAt",
                      JObj [("$gte",
                              JDate (Some (later - 24 * 60 * 60 * 1000)))])])
                inserted).
  assert (Hmono :
    countWhere
      (News.matches
         [("fetchedAt",
            JObj [("$gte", JDate (Some (later - 24 * 60 * 60 * 1000)))])])
      (news_articles s)
    <= countWhere
         (News.matches
            [("fetchedAt",
               JObj [("$gte", JDate (Some (now s - 24 * 60 * 60 * 1000)))])])
         (news_articles s)).
  { unfold countWhere. apply Nat2Z.inj_le, filter_length_impl.
    intros d. apply since_mono. lia. }
  lia.
Qed.
End Recency.

Lemma refetching_does_not_renew_recency_witness :
  let s := stateWith [storedB] (serving [] [b1]) in
  exists o o',
    result UnifiedNewsService.getStats s = Ok o
    /\ result UnifiedNewsService.getStats
         (set_now 1714650000000 (final execMorning s)) = Ok o'
    /\ numOf (fget "recentArticles" o') - numOf (fget "recentArticles" o)
       <= numOf (fget "total" o') - numOf (fget "total" o).
Proof.
  intros s. eexists _, _.
  split; [vm_compute; reflexivity|]. split; [vm_compute; reflexivity|].
  refine (@refetching_does_not_renew_recency testEnv "MORNING" s
            1714650000000 _ _ (proj1 storedB_uniqueIds) _ eq_refl eq_refl).
  vm_compute. discriminate.
Defined.

(** ** Sources *)

Lemma countInto_total d groups :
  totalCount (UnifiedNewsService.countInto d groups) = totalCount groups + 1.
Proof.
  induction groups as [|g rest IH]; cbn [UnifiedNewsService.countInto].
  - reflexivity.
  - destruct (js_eqb (fget "_id" g) (UnifiedNewsService.sourceId d));
      cbn [totalCount fold_right].
    + rewrite fget_fset, String.eqb_refl. cbn [numOf]. fold (totalCount rest).
      lia.
    + fold (totalCount (UnifiedNewsService.countInto d rest)).
      fold (totalCount rest). rewrite IH. lia.
Qed.

Lemma countInto_length d groups :
  (length groups <= length (UnifiedNewsService.countInto d groups)
   <= length groups + 1)%nat.
Proof.
  induction groups as [|g rest IH]; cbn [UnifiedNewsService.countInto].
  - cbn. lia.
  - destruct (js_eqb _ _); cbn [length]; lia.
Qed.

Lemma fold_countInto l : forall acc,
  totalCount (fold_left (fun groups d => UnifiedNewsService.countInto d groups)
                l acc)
  = totalCount acc + Z.of_nat (length l)
  /\ (length (fold_left
                (fun groups d => UnifiedNewsService.countInto d groups) l acc)
      <= length acc + length l)%nat.
Proof.
  induction l as [|d l IH]; intros acc; cbn [fold_left length].
  - split; lia.
  - destruct (IH (UnifiedNewsService.countInto d acc)) as [Ht Hl].
    rewrite Ht, countInto_total.
    pose proof (countInto_length d acc). split; lia.
Qed.

Lemma totalCount_Permutation l l' :
  Permutation l l' -> totalCount l = totalCount l'.
Proof.
  induction 1 as [|x l l' _ IH|x y l|l l' l'' _ IH1 _ IH2];
    cbn [totalCount fold_right] in *; try lia.
  - fold (totalCount l) in *. fold (totalCount l') in *. lia.
Qed.

Lemma articleCounts_sources (sources : list Obj) rest1 rest2 :
  articleCounts
    (rest1 :: rest2
     :: [("sources",
           JArr (map (fun s => JObj [("id", fget "id" s);
                                     ("name", fget "name" s);
                                     ("articleCount", fget "count" s)])
                   sources))])
  = (if String.eqb rest1.1 "sources" || String.eqb rest2.1 "sources"
     then articleCounts [rest1; rest2]
     else totalCount sources).
Proof.
  unfold articleCounts. destruct rest1 as [k1 v1], rest2 as [k2 v2].
  cbn [fget fst].
  destruct (String.eqb k1 "sources"); [reflexivity|].
  destruct (String.eqb k2 "sources"); [reflexivity|].
  cbn [orb String.eqb Ascii.eqb Bool.eqb].
  induction sources as [|x l IH]; [reflexivity|].
  cbn [map fold_right totalCount get fget String.eqb Ascii.eqb Bool.eqb] in *.
  rewrite IH. reflexivity.
Qed.

Section Sources.
Context {E : Env}.

(** X20. The sources answer accounts for every matching record exactly
    once: the [articleCount]s of the sources it lists add up to the number
    of stored records that match the filters, and it lists at most that
    many sources. Nothing changes; without the store the read rejects. *)
Theorem getSources_counts_every_match (filters : Obj) (s : State) :
  answers
    (fun o =>
       let total :=
         countWhere (News.matches (sourcesQuery filters)) (news_articles s) in
       articleCounts o = total
       /\ exists n, fget "totalResults" o = JNum n /\ 0 <= n <= total)
    (UnifiedNewsService.getSources filters) s.
Proof.
  unfold answers. rewrite final_run, result_run.
  unfold UnifiedNewsService.getSources, UnifiedNewsService.aggregateSources,
    News.connected, Logger.info, Logger.error.
  run_simpl. destruct (dbUp s) eqn:Eup; run_simpl; [|split; reflexivity].
  split; [reflexivity|]. eexists. split; [reflexivity|].
  fold (sourcesQuery filters).
  destruct (fold_countInto
              (List.filter (News.matches (sourcesQuery filters))
                 (news_articles s)) []) as [Ht Hl].
  split.
  - rewrite articleCounts_sources. cbn [fst String.eqb Ascii.eqb Bool.eqb orb].
    rewrite (totalCount_Permutation _ _ (merge_sort_Permutation _ _)), Ht.
    unfold countWhere. cbn. lia.
  - eexists. split; [reflexivity|].
    rewrite (Permutation_length (merge_sort_Permutation _ _)).
    unfold countWhere. cbn [length] in Hl. lia.
Qed.
End Sources.

(** ** The refresh outside the slot system *)

Section Refresh.
Context {E : Env}.

Lemma settle_run m s :
  run (UnifiedNewsService.settle m) s
  = match run m s with
    | (Ok v, s') => (Ok (Ok v), s')
    | (Throw e, s') => (Ok (Throw e), s')
    end.
Proof.
  unfold UnifiedNewsService.settle. rewrite run_try_catch, run_bind.
  destruct (run m s) as [[v|e] s']; run_simpl; reflexivity.
Qed.

Lemma getLatestNews_run_A filters s :
  run (NewsApiService.getLatestNews filters) s
  = (match axios s (latestRequest filters) with
     | inr data => Ok (JObj [("success", JBool true); ("data", data)])
     | inl e => Throw (NewsApiService.handleError (axiosErrorVal e))
     end, s).
Proof. unfold run. rewrite getLatestNews_eq. reflexivity. Qed.

Lemma getTopHeadlines_run filters s :
  run (NewsApiOrgService.getTopHeadlines filters) s
  = (match axios s (topHeadlinesRequest filters) with
     | inr data => Ok data
     | inl e => Throw (NewsApiOrgService.handleError (axiosErrorVal e))
     end, s).
Proof.
  unfold run, NewsApiOrgService.getTopHeadlines. rewrite makeRequest_eq.
  reflexivity.
Qed.

Lemma refreshCache_store filters s :
  news_articles (final (UnifiedNewsService.refreshCache filters) s)
  = news_articles s
  \/ exists batch,
       Forall wellKeyed batch /\ Forall onlyNormalizedKeys batch
       /\ news_articles (final (UnifiedNewsService.refreshCache filters) s)
          = (writeAll (now s) batch (news_articles s)).1.
Proof.
  rewrite final_run.
  unfold UnifiedNewsService.refreshCache, Logger.info, Logger.error.
  rewrite run_try_catch, run_bind, run_emit. cbn [fst snd].
  rewrite run_bind, settle_run, getLatestNews_run_A.
  destruct (axios s (latestRequest filters)) as [ea|da]; cbn [fst snd];
    rewrite run_bind, settle_run, getTopHeadlines_run;
    (destruct (axios s _) as [eb|db]; cbn [fst snd]);
    cbn [UnifiedNewsService.fulfilledField getopt nullish get fget
         String.eqb Ascii.eqb Bool.eqb truthy];
    run_simpl; try (left; reflexivity).
  all: destruct (truthy (getopt db "articles")); run_simpl;
    [|left; reflexivity].
  all: destruct (arrayMap _ (getopt db "articles")) as [ys|e] eqn:Em;
    run_simpl; [|left; reflexivity].
  all: cbn [app]; destruct ys as [|y ys']; cbn [length Nat.ltb Nat.leb];
    run_simpl; [left; reflexivity|].
  all: rewrite unified_save_run.
  all: destruct (writeThrows (y :: ys') s); run_simpl; [left; reflexivity|].
  all: right; exists (y :: ys'); split; [|split; [|reflexivity]];
    revert Em; apply arrayMap_Forall; intros x z Hz.
  all: try (eexists; eapply normalizeNewsApiOrgArticle_articleId, Hz).
  all: eapply normalizeNewsApiOrgArticle_keys, Hz.
Qed.

(** X21. The manual refresh is bound by the same frame as the slots:
    whatever the providers answer, [refreshCache] takes a collection that
    satisfies the schema invariant to one that satisfies it, removes no
    stored record, re-keys none and leaves [isDeleted], [deletedAt],
    [fetchedAt], [createdAt] and [schemaVersion] of every stored record
    untouched. *)
Theorem refreshCache_keeps_stored_records (filters : Obj) (s : State) :
  uniqueIds (news_articles s) ->
  let docs' :=
    news_articles (final (UnifiedNewsService.refreshCache filters) s) in
  uniqueIds docs'
  /\ exists kept inserted,
       docs' = kept ++ inserted /\ Forall2 sameKept (news_articles s) kept.
Proof.
  intros [Hk Hnd]. cbn zeta.
  destruct (refreshCache_store filters s) as [->|(batch & Hb & Hn & ->)].
  - split; [split; assumption|].
    exists (news_articles s), []. rewrite app_nil_r.
    split; [reflexivity|apply Forall2_sameKept_refl].
  - split.
    + unfold writeAll. rewrite (validOps_accepted batch Hb).
      destruct (fold_applyOp (now s) (accepted batch) (news_articles s)
                  News.noWrites Hk (accepted_wellKeyed batch Hb))
        as (Hk' & Hnd' & _).
      split; [exact Hk'|exact (Hnd' Hnd)].
    + apply writeAll_frame; assumption.
Qed.
End Refresh.

Lemma refreshCache_keeps_stored_records_witness :
  uniqueIds
    (news_articles
       (final (@UnifiedNewsService.refreshCache testEnv
                 [("country", JStr "in"); ("category", JStr "business")])
          (stateWith [deletedDoc] (serving [] [withdrawnAgain])))).
Proof.
  apply (@refreshCache_keeps_stored_records testEnv
           [("country", JStr "in"); ("category", JStr "business")]
           (stateWith [deletedDoc] (serving [] [withdrawnAgain]))
           deletedDoc_uniqueIds).
Defined.

(** ** The controllers *)



Lemma resolvesGood_bind {A} codes (m : M A) (f : A -> M Response) :
  (forall a, resolvesGood codes (f a)) -> resolvesGood codes (bind m f).
Proof.
  intros Hf s r. rewrite result_run, run_bind.
  destruct (run m s) as [[a|e] s']; [|discriminate].
  rewrite <- result_run. apply Hf.
Qed.

Lemma resolvesGood_throw codes e : resolvesGood codes (throw e).
Proof. intros s r. discriminate. Qed.

Lemma resolvesGood_success codes data message status :
  In status codes -> status < 400 ->
  resolvesGood codes (sendSuccessResponse data message status).
Proof.
  intros Hin Hlt s r [= <-]. split; [exact Hin|]. cbn.
  destruct (Z.ltb_spec status 400); [reflexivity|lia].
Qed.

Lemma resolvesGood_error codes message status :
  In status codes -> 400 <= status ->
  resolvesGood codes (sendErrorResponse message status).
Proof.
  intros Hin Hge s r [= <-]. split; [exact Hin|]. cbn.
  destruct (Z.ltb_spec status 400); [lia|reflexivity].
Qed.

Lemma resolvesGood_paginated codes data pagination message :
  In 200 codes ->
  resolvesGood codes (sendPaginatedResponse data pagination message).
Proof. intros Hin s r [= <-]. split; [exact Hin|reflexivity]. Qed.

Lemma answersWith_try_catch codes (m : M Response) h s :
  resolvesGood codes m ->
  (forall e s', answersWith codes (h e) s') ->
  answersWith codes (try_catch m h) s.
Proof.
  intros Hm Hh. unfold answersWith. rewrite result_run, run_try_catch.
  specialize (Hm s). rewrite result_run in Hm.
  destruct (run m s) as [[r|e] s']; cbn [fst] in *.
  - exists r. split; [reflexivity|apply Hm; reflexivity].
  - rewrite <- result_run. apply Hh.
Qed.

Lemma answersWith_500 codes msg message s :
  In 500 codes ->
  answersWith codes (Logger.error msg ;;; sendErrorResponse message 500) s.
Proof.
  intros Hin. eexists. split; [reflexivity|]. split; [exact Hin|reflexivity].
Qed.

Ltac good_step :=
  first [ apply resolvesGood_success; [simpl; tauto|lia]
        | apply resolvesGood_error; [simpl; tauto|lia]
        | apply resolvesGood_throw
        | apply resolvesGood_bind; intros ? ].

Section Controllers.
Context {E : Env}.
Variable parseInt : JsVal -> option Z.

Lemma resolvesGood_respond data page limit message :
  resolvesGood [200; 500]
    (UnifiedNewsController.respond data page limit message).
Proof.
  unfold UnifiedNewsController.respond.
  destruct (fget "articles" data);
    try (apply resolvesGood_success; [left; reflexivity|lia]).
  destruct (0 <? length xs)%nat;
    [apply resolvesGood_paginated; left; reflexivity
    |apply resolvesGood_success; [left; reflexivity|lia]].
Qed.

(** X22. The handlers always answer. Whatever the request holds and
    whatever the store or the providers do, the latest-news, by-country
    and trending handlers resolve with status 200 or 500, and the manual
    trigger of the scheduler with 202, 400 or 500; none of them rejects
    or leaves the request unanswered, and the [success] flag of the body
    is [true] exactly when the status is below 400. *)
Theorem handlers_always_answer (req : JsVal) (s : State) :
  answersWith [200; 500] (UnifiedNewsController.getLatestNews parseInt req) s
  /\ answersWith [200; 500]
       (UnifiedNewsController.getNewsByCountry parseInt req) s
  /\ answersWith [200; 500]
       (UnifiedNewsController.getTrendingNews parseInt req) s
  /\ answersWith [202; 400; 500] (SchedulerController.triggerManualFetch req) s.
Proof.
  split; [|split; [|split]].
  - apply answersWith_try_catch;
      [|intros; apply answersWith_500; right; left; reflexivity].
    do 3 good_step. apply resolvesGood_respond.
  - apply answersWith_try_catch;
      [|intros; apply answersWith_500; right; left; reflexivity].
    destruct (nullish (get req "params")); [apply resolvesGood_throw|].
    do 4 good_step. apply resolvesGood_respond.
  - apply answersWith_try_catch;
      [|intros; apply answersWith_500; right; left; reflexivity].
    repeat good_step.
  - apply answersWith_try_catch;
      [|intros; apply answersWith_500; right; right; left; reflexivity].
    destruct (nullish (get req "body")); [apply resolvesGood_throw|].
    cbv zeta.
    destruct (negb (truthy (get (get req "body") "schedule")));
      repeat good_step.
Qed.

End Controllers.


(** ** The life cycle of the scheduler *)

Lemma cronSchedule_keys env :
  map job_name (omap (SchedulerLifecycle.cronSchedule env)
                  FetchScheduleConfig.keys)
  = FetchScheduleConfig.keys
  /\ Forall jobOfSchedule
       (omap (SchedulerLifecycle.cronSchedule env) FetchScheduleConfig.keys).
Proof.
  split; [reflexivity|].
  repeat constructor; eexists; split; reflexivity.
Qed.

Lemma afterCall_consistent env t c :
  timersConsistent env t -> timersConsistent env (afterCall env t c).
Proof.
  unfold timersConsistent. intros Ht.
  destruct c; cbn [afterCall].
  - unfold SchedulerLifecycle.start.
    destruct (isRunning t) eqn:Er; cbn [fst]; [rewrite Er; exact Ht|].
    destruct (enabled (SCHEDULER_CONFIG env)) eqn:Ee; cbn [negb fst];
      [|rewrite Er; exact Ht].
    cbn [isRunning scheduledJobs]. rewrite Ht. cbn [app].
    split; [reflexivity|apply cronSchedule_keys].
  - unfold SchedulerLifecycle.stop.
    destruct (isRunning t) eqn:Er; cbn [negb fst]; [reflexivity|].
    rewrite Er. exact Ht.
Qed.

(** X24. The timers of the scheduler stay consistent. After any
    sequence of [start] and [stop] calls on the constructed singleton,
    either it is stopped and holds no job, or it is running, the
    configuration has it enabled, and it holds exactly one job per
    configured slot, in the order of the schedule, each at the time of its
    slot: a second [start] never registers the slots twice and a disabled
    scheduler never runs. Starting twice is starting once, and so for
    stopping. *)
Theorem timers_stay_consistent (env : ProcessEnv) (calls : list LifecycleCall)
    (c : LifecycleCall) :
  let t := fold_left (afterCall env) calls SchedulerLifecycle.constructed in
  timersConsistent env t
  /\ afterCall env (afterCall env t c) c = afterCall env t c.
Proof.
  cbn zeta.
  assert (Hinv : forall t,
             timersConsistent env t ->
             timersConsistent env (fold_left (afterCall env) calls t)).
  { induction calls as [|c0 cs IH]; intros t Ht; [exact Ht|].
    cbn [fold_left]. apply IH, afterCall_consistent, Ht. }
  split; [apply Hinv; reflexivity|].
  generalize (fold_left (afterCall env) calls SchedulerLifecycle.constructed).
  intros t. destruct c; cbn [afterCall].
  - destruct (isRunning t) eqn:Er.
    + assert (Hs : (SchedulerLifecycle.start env t).1.1 = t)
        by (unfold SchedulerLifecycle.start; rewrite Er; reflexivity).
      rewrite Hs. exact Hs.
    + destruct (enabled (SCHEDULER_CONFIG env)) eqn:Ee.
      * unfold SchedulerLifecycle.start. rewrite Er, Ee. reflexivity.
      * assert (Hs : (SchedulerLifecycle.start env t).1.1 = t)
          by (unfold SchedulerLifecycle.start; rewrite Er, Ee; reflexivity).
        rewrite Hs. exact Hs.
  - destruct (isRunning t) eqn:Er.
    + unfold SchedulerLifecycle.stop. rewrite Er. reflexivity.
    + assert (Hs : (SchedulerLifecycle.stop t).1 = t)
        by (unfold SchedulerLifecycle.stop; rewrite Er; reflexivity).
      rewrite Hs. exact Hs.
Qed.

Section Bootstrap.
Context {E : Env}.

Lemma initialFetch_result s :
  result SchedulerLifecycle.initialFetch s = Ok tt.
Proof.
  unfold SchedulerLifecycle.initialFetch.
  apply result_try_catch_unit. reflexivity.
Qed.

Lemma initialFetch_requests s :
  requests SchedulerLifecycle.initialFetch s = slotRequests MORNING.
Proof.
  unfold SchedulerLifecycle.initialFetch, Logger.info, Logger.error.
  rewrite requests_try_catch, requests_bind, executeScheduledFetch_requests.
  rewrite run_bind.
  pose proof (executeScheduledFetch_result (JStr "MORNING") s eq_refl) as Hres.
  rewrite result_run in Hres.
  destruct (run (NewsFetchScheduler.executeScheduledFetch (JStr "MORNING")) s)
    as [[[]|e] s']; cbn [fst] in Hres; [|discriminate].
  requests_simpl. rewrite !app_nil_r. reflexivity.
Qed.

(** X25. The bootstrap. [start] leaves the check of the store to run
    exactly when it has started the scheduler, and never the 5 s timer of
    [runOnStartup] ([checkEmptyOnStartup] is the constant [true]). The
    check never rejects, sends nothing and changes nothing; it sets the
    timer for the initial fetch exactly when the store can be reached and
    holds no record at all (a soft-deleted record counts). The initial
    fetch resolves whatever happens, and sends the requests of the MORNING
    slot. *)
Theorem bootstrap_only_on_an_empty_store (env : ProcessEnv) (t : Timers)
    (s s' : State) :
  ((SchedulerLifecycle.start env t).2 = CheckInitialData
   <-> isRunning t = false /\ enabled (SCHEDULER_CONFIG env) = true)
  /\ (SchedulerLifecycle.start env t).2 <> MorningAfter5s
  /\ final SchedulerLifecycle.checkAndFetchInitialData s = s
  /\ requests SchedulerLifecycle.checkAndFetchInitialData s = []
  /\ (exists timer,
        result SchedulerLifecycle.checkAndFetchInitialData s = Ok timer
        /\ (timer = None \/ timer = Some SchedulerLifecycle.initialFetch)
        /\ (timer <> None <-> dbUp s = true /\ news_articles s = []))
  /\ result SchedulerLifecycle.initialFetch s' = Ok tt
  /\ requests SchedulerLifecycle.initialFetch s' = slotRequests MORNING.
Proof.
  split; [|split].
  - unfold SchedulerLifecycle.start.
    destruct (isRunning t); cbn [snd];
      [split; [discriminate|intros [[=] _]]|].
    destruct (enabled (SCHEDULER_CONFIG env)); cbn [negb snd].
    + split; [intros _; split; reflexivity|reflexivity].
    + split; [discriminate|intros [_ [=]]].
  - unfold SchedulerLifecycle.start.
    destruct (isRunning t); cbn [snd]; [discriminate|].
    destruct (enabled (SCHEDULER_CONFIG env)); cbn [negb snd]; discriminate.
  - split; [|split; [|split; [|split;
      [apply initialFetch_result|apply initialFetch_requests]]]].
    + rewrite final_run.
      unfold SchedulerLifecycle.checkAndFetchInitialData, Logger.info,
        Logger.error.
      rewrite run_try_catch, run_bind, run_emit. cbn [fst snd].
      rewrite run_bind, countDocuments_run.
      destruct (dbUp s); cbn [fst snd]; run_simpl; [|reflexivity].
      destruct (_ =? 0); run_simpl; reflexivity.
    + unfold SchedulerLifecycle.checkAndFetchInitialData,
        News.countDocuments, News.connected, Logger.info, Logger.error.
      requests_simpl. destruct (dbUp s); requests_simpl; [|reflexivity].
      destruct (_ =? 0); requests_simpl; reflexivity.
    + rewrite result_run.
      unfold SchedulerLifecycle.checkAndFetchInitialData, Logger.info,
        Logger.error.
      rewrite run_try_catch, run_bind, run_emit. cbn [fst snd].
      rewrite run_bind, countDocuments_run, countWhere_all.
      destruct (dbUp s); cbn [fst snd]; run_simpl.
      * destruct (Z.eqb_spec (Z.of_nat (length (news_articles s))) 0)
          as [Hz|Hnz]; run_simpl; eexists; (split; [reflexivity|]).
        -- split; [right; reflexivity|].
           split; [intros _; split; [reflexivity|]|discriminate].
           destruct (news_articles s); [reflexivity|discriminate].
        -- split; [left; reflexivity|].
           split; [congruence|]. intros [_ Hnil]. rewrite Hnil in Hnz.
           contradiction.
      * eexists. split; [reflexivity|]. split; [left; reflexivity|].
        split; [congruence|]. intros [[=] _].
Qed.
End Bootstrap.

Lemma bootstrap_only_on_an_empty_store_witness :
  let s := stateWith [] quietAxios in
  exists timer,
    result (@SchedulerLifecycle.checkAndFetchInitialData testEnv) s = Ok timer
    /\ timer <> None.
Proof.
  intros s.
  destruct (@bootstrap_only_on_an_empty_store testEnv defaultEnv
              SchedulerLifecycle.constructed s s)
    as (_ & _ & _ & _ & (timer & Hr & _ & Hiff) & _).
  exists timer. split; [exact Hr|]. apply Hiff. split; reflexivity.
Defined.

(** ** A NewsData.io route *)

Section Routes.
Context {E : Env}.

Lemma getNewsSources_eq filters s :
  NewsDataClient.getNewsSources filters s
  = (match axios s
             {| url := BASE_URL NEWS_API_CONFIG +:+ "/sources";
                params :=
                  [("apikey", JStr (API_KEY NEWS_API_CONFIG));
                   ("country",
                     orDefault (fget "country" filters)
                       (JStr (arrayJoin Date_toString "," NEWS_COUNTRIES)));
                   ("language",
                     orDefault (fget "language" filters)
                       (JStr (arrayJoin Date_toString "," NEWS_LANGUAGES)));
                   ("category",
                     orDefault (fget "category" filters)
                       (JStr (arrayJoin Date_toString "," NEWS_CATEGORIES)))];
                timeout := None |} with
     | inr data => Ok (JObj [("success", JBool true); ("data", data)])
     | inl e => Throw (NewsApiService.handleError (axiosErrorVal e))
     end, s,
     [Http {| url := BASE_URL NEWS_API_CONFIG +:+ "/sources";
              params :=
                [("apikey", JStr (API_KEY NEWS_API_CONFIG));
                 ("country",
                   orDefault (fget "country" filters)
                     (JStr (arrayJoin Date_toString "," NEWS_COUNTRIES)));
                 ("language",
                   orDefault (fget "language" filters)
                     (JStr (arrayJoin Date_toString "," NEWS_LANGUAGES)));
                 ("category",
                   orDefault (fget "category" filters)
                     (JStr (arrayJoin Date_toString "," NEWS_CATEGORIES)))];
              timeout := None |}]).
Proof.
  unfold NewsDataClient.getNewsSources, try_catch, bind.
  rewrite axios_request_eq. destruct (axios s _); reflexivity.
Qed.

Lemma handleErrorA_plain e :
  exists o,
    NewsApiService.handleError (axiosErrorVal e) = JObj o
    /\ fget "name" o = JUndef
    /\ fget "statusCode" o = JUndef
    /\ fget "status" o = JNum (statusOf e)
    /\ nullish (fget "message" o) = false.
Proof.
  destruct e as [status data| |m]; unfold NewsApiService.handleError;
    cbn [axiosErrorVal get fget String.eqb Ascii.eqb Bool.eqb truthy];
    eexists; (split; [reflexivity|]);
    cbn [fget String.eqb Ascii.eqb Bool.eqb statusOf];
    (split; [reflexivity|]); (split; [reflexivity|]);
    (split; [reflexivity|]);
    try reflexivity; apply jor_not_nullish; reflexivity.
Qed.

Lemma orDefault_message m :
  nullish m = false ->
  nullish (orDefault (m ||| JStr "Internal server error") (JStr "Error"))
  = false.
Proof.
  intros Hm. pose proof (jor_not_nullish m (JStr "Internal server error")
                           eq_refl) as Hj.
  destruct (m ||| JStr "Internal server error"); try discriminate;
    reflexivity.
Qed.

Lemma errorHandler_plain development o st s :
  fget "name" o = JUndef ->
  fget "statusCode" o = JUndef ->
  fget "status" o = JNum st ->
  nullish (fget "message" o) = false ->
  exists body,
    run (errorHandler development (JObj o)) s
    = (Ok {| rawStatus := JNum (if st =? 0 then 500 else st);
             rawBody := body |}, s)
    /\ fget "success" body = JBool false
    /\ nullish (fget "message" body) = false.
Proof.
  intros Hn Hsc Hst Hm.
  unfold errorHandler, Logger.error, sendErrorResponse4. cbn [get].
  rewrite Hn, Hsc, Hst. cbn [js_eqb]. run_simpl.
  assert (Hstatus : orDefault (JUndef ||| JNum st ||| JNum 500) (JNum 500)
                    = JNum (if st =? 0 then 500 else st)).
  { unfold jor. cbn [truthy]. destruct (st =? 0); reflexivity. }
  rewrite Hstatus.
  destruct development; cbn [truthy];
    eexists; (split; [reflexivity|]);
    rewrite ?fget_fset; cbn [fget String.eqb Ascii.eqb Bool.eqb];
    (split; [reflexivity|apply orDefault_message, Hm]).
Qed.

Lemma errorHandler_relays development e s :
  exists body,
    run (errorHandler development
           (NewsApiService.handleError (axiosErrorVal e))) s
    = (Ok {| rawStatus :=
               JNum (if statusOf e =? 0 then 500 else statusOf e);
             rawBody := body |}, s)
    /\ fget "success" body = JBool false
    /\ nullish (fget "message" body) = false.
Proof.
  destruct (handleErrorA_plain e) as (o & -> & Hn & Hsc & Hst & Hm).
  apply errorHandler_plain; assumption.
Qed.

(** X26. The NewsData.io sources route relays the provider. For a
    request with a query object it sends exactly one request to the
    provider and changes nothing; when the provider answers, the route
    answers 200 with the provider's body as [data]; when the call fails,
    the handler never answers itself (its own error branch cannot be
    reached, the client only resolves with [success: true]) but hands the
    error on, and the error handler answers with the provider's status -
    503 when no response came, 500 when the request could not be sent or
    the status is 0 - with [success: false] and a message. *)
Theorem sources_route_relays_the_provider (development : bool) (req : JsVal)
    (s : State) :
  nullish (get req "query") = false ->
  let route := sourcesRoute development req in
  let request := sourcesRequest (get req "query") in
  final route s = s
  /\ requests route s = [request]
  /\ match axios s request with
     | inr data =>
         exists body,
           result route s = Ok {| rawStatus := JNum 200; rawBody := body |}
           /\ fget "success" body = JBool true
           /\ fget "data" body = data
     | inl e =>
         (exists error,
            result (NewsController.getNewsSources req) s = Ok (Next error))
         /\ exists body,
              result route s
              = Ok {| rawStatus :=
                        JNum (if statusOf e =? 0 then 500 else statusOf e);
                      rawBody := body |}
              /\ fget "success" body = JBool false
              /\ nullish (fget "message" body) = false
     end.
Proof.
  intros Hq. cbn zeta.
  assert (Hh : NewsController.getNewsSources req s
               = (match axios s (sourcesRequest (get req "query")) with
                  | inr data =>
                      Ok (Responded
                            {| rawStatus := JNum 200;
                               rawBody :=
                                 [("success", JBool true);
                                  ("message",
                                    JStr "News sources fetched successfully");
                                  ("data", data);
                                  ("timestamp", JDate (Some (now s)))] |})
                  | inl e =>
                      Ok (Next (NewsApiService.handleError (axiosErrorVal e)))
                  end, s, [Http (sourcesRequest (get req "query"))])).
  { unfold NewsController.getNewsSources. rewrite Hq.
    unfold try_catch, bind. rewrite getNewsSources_eq.
    fold (sourcesRequest (get req "query")).
    destruct (axios s _) as [e|data]; reflexivity. }
  assert (Hrun : run (NewsController.getNewsSources req) s
                 = ((NewsController.getNewsSources req s).1.1, s))
    by (unfold run; rewrite Hh; reflexivity).
  assert (Hreq : requests (NewsController.getNewsSources req) s
                 = [sourcesRequest (get req "query")])
    by (unfold requests, trace; rewrite Hh; reflexivity).
  assert (Hres : result (NewsController.getNewsSources req) s
                 = (NewsController.getNewsSources req s).1.1) by reflexivity.
  unfold sourcesRoute.
  rewrite final_run, !result_run, requests_bind, !run_bind, Hreq, Hrun.
  rewrite <- Hres. unfold result. rewrite Hh. cbn [fst snd].
  destruct (axios s (sourcesRequest (get req "query"))) as [e|data].
  - destruct (errorHandler_relays development e s) as (body & Hr & Hs & Hm).
    rewrite Hr. cbn [fst snd].
    split; [reflexivity|]. split.
    + unfold errorHandler, Logger.error, sendErrorResponse4.
      requests_simpl. destruct (js_eqb _ _); requests_simpl; [reflexivity|].
      destruct (js_eqb _ _); requests_simpl; [reflexivity|].
      destruct (js_eqb _ _); requests_simpl; reflexivity.
    + split; [eexists; reflexivity|].
      exists body. split; [reflexivity|]. split; assumption.
  - run_simpl. split; [reflexivity|]. split; [reflexivity|].
    eexists. split; [reflexivity|]. split; reflexivity.
Qed.
End Routes.

Lemma sources_route_relays_the_provider_witness :
  let s := stateWith [] rateLimited in
  exists body,
    result (@sourcesRoute testEnv false sourcesQueryRequest) s
    = Ok {| rawStatus := JNum 429; rawBody := body |}.
Proof.
  intros s.
  destruct (@sources_route_relays_the_provider testEnv false
              sourcesQueryRequest s eq_refl)
    as (_ & _ & _ & body & Hr & _).
  exists body. exact Hr.
Defined.

(** ** Starting and stopping over HTTP *)

Lemma run_emitAll events s : run (emitAll events) s = (Ok tt, s).
Proof. reflexivity. Qed.

(** X27. What the start handler says is not what the scheduler does.
    [startScheduler] always answers 200 with [status: "running"], but the
    scheduler runs afterwards only if it was running before or the
    configuration has it enabled: with [SCHEDULER_ENABLED=false] the
    answer is the same and nothing runs. [stopScheduler] always answers
    200 with [status: "stopped"], and then the scheduler is stopped indeed
    and, its timers having been consistent, holds no job. Neither handler
    touches the article store. *)
Theorem start_answer_does_not_tell_the_state (env : ProcessEnv) (t : Timers)
    (s : State) :
  (exists r t' startup,
     result (SchedulerControls.startScheduler env t) s = Ok (r, t', startup)
     /\ final (SchedulerControls.startScheduler env t) s = s
     /\ statusCode r = 200
     /\ fget "data" (body r) = JObj [("status", JStr "running")]
     /\ (isRunning t' = true
         <-> isRunning t = true \/ enabled (SCHEDULER_CONFIG env) = true))
  /\ (exists r t',
        result (SchedulerControls.stopScheduler t) s = Ok (r, t')
        /\ final (SchedulerControls.stopScheduler t) s = s
        /\ statusCode r = 200
        /\ fget "data" (body r) = JObj [("status", JStr "stopped")]
        /\ isRunning t' = false
        /\ (timersConsistent env t -> scheduledJobs t' = [])).
Proof.
  split.
  - rewrite result_run, final_run.
    unfold SchedulerControls.startScheduler, Logger.info, Logger.error,
      sendSuccessResponse.
    cbv zeta. run_simpl. rewrite run_emitAll. run_simpl.
    eexists _, _, _. split; [reflexivity|]. split; [reflexivity|].
    split; [reflexivity|]. split; [reflexivity|].
    unfold SchedulerLifecycle.start.
    destruct (isRunning t) eqn:Er; cbn [fst snd].
    + rewrite Er. split; [intros _; left; reflexivity|reflexivity].
    + destruct (enabled (SCHEDULER_CONFIG env)); cbn [negb fst snd isRunning].
      * split; [intros _; right; reflexivity|reflexivity].
      * rewrite Er. split; [discriminate|intros [[=]|[=]]].
  - rewrite result_run, final_run.
    unfold SchedulerControls.stopScheduler, Logger.info, Logger.error,
      sendSuccessResponse.
    cbv zeta. run_simpl. rewrite run_emitAll. run_simpl.
    eexists _, _. split; [reflexivity|]. split; [reflexivity|].
    split; [reflexivity|]. split; [reflexivity|].
    unfold SchedulerLifecycle.stop, timersConsistent.
    destruct (isRunning t) eqn:Er; cbn [negb fst snd isRunning scheduledJobs].
    + split; [reflexivity|intros _; reflexivity].
    + rewrite Er. split; [reflexivity|intros Ht; exact Ht].
Qed.

Lemma start_answer_does_not_tell_the_state_witness :
  let s := stateWith [] quietAxios in
  exists r t' startup,
    result (SchedulerControls.startScheduler disabledEnv
              SchedulerLifecycle.constructed) s = Ok (r, t', startup)
    /\ fget "data" (body r) = JObj [("status", JStr "running")]
    /\ isRunning t' <> true.
Proof.
  intros s.
  destruct (start_answer_does_not_tell_the_state disabledEnv
              SchedulerLifecycle.constructed s)
    as ((r & t' & startup & Hr & _ & _ & Hd & Hiff) & _).
  exists r, t', startup. split; [exact Hr|]. split; [exact Hd|].
  intros Hrun. apply Hiff in Hrun. destruct Hrun as [[=]|[=]].
Defined.
